(** * ParkVision: the occupancy state-tracking engine

    A shallow embedding of [psd1/parking_space.py], [psd1/logger.py] and
    [psd1/config_manager.py], and the properties of the engine proved on it.

    Conventions of the embedding.
    - A Python [float] is a rational ([Q]).  The engine only adds, divides,
      compares and takes maxima of floats; comparisons and maxima are exact
      on floats, and the one rounding step (a division) is monotone, so the
      comparisons against the representable constants [0.0] and [0.5] come
      out the same.
    - A naive [datetime] is its number of microseconds on the calendar time
      line ([Z]); a [timedelta] is a number of microseconds, and
      [total_seconds] divides it by [10^6].
    - A Python exception is an [exn] carried by [result].  The state of an
      object after a call that raised is not modelled.
    - The OpenCV primitives ([cv2.contourArea], [cv2.pointPolygonTest],
      [cv2.fillPoly]) are parameters of the geometry section: each may
      return or raise. *)

From Stdlib Require Import String Ascii.
From Stdlib Require Import ZArith QArith Qminmax List Bool Lia.
From Stdlib Require Import Permutation Sorted SpecFloat.
Import ListNotations.

Set Implicit Arguments.
Open Scope Z_scope.

(** ** Exceptions *)

Inductive exn : Type :=
| KeyError | TypeError | ValueError | IndexError | AttributeError
| OverflowError | FileNotFoundError | JSONDecodeError | cv2_error.

Inductive result (A : Type) : Type :=
| OK (a : A)
| Raise (e : exn).

Arguments OK {A} a.
Arguments Raise {A} e.

Definition bind {A B : Type} (r : result A) (k : A -> result B) : result B :=
  match r with
  | OK a => k a
  | Raise e => Raise e
  end.

Notation "x <- r ;; k" := (bind r (fun x => k))
  (at level 61, r at next level, right associativity).
Notation "' p <- r ;; k" := (bind r (fun x => match x with p => k end))
  (at level 61, p pattern, r at next level, right associativity).

Definition returns {A : Type} (r : result A) : Prop := exists a, r = OK a.

(** ** Floats and time *)

Definition Qlt_bool (x y : Q) : bool := negb (Qle_bool y x).

(** Python's [max(a, b)]: the first argument unless the second is greater. *)
Definition py_max (a b : Q) : Q := if Qlt_bool a b then b else a.

Definition py_sum (l : list Q) : Q := fold_left Qplus l 0%Q.

(** [np.mean] of a non-empty sequence. *)
Definition np_mean (l : list Q) : Q := (py_sum l / inject_Z (Z.of_nat (length l)))%Q.

Definition datetime := Z.
Definition timedelta := Z.

Definition total_seconds (d : timedelta) : Q := (inject_Z d / inject_Z 1000000)%Q.

(** ** Regions: [class SpaceState], [class ParkingSpace] *)

Inductive SpaceState : Type := EMPTY | OCCUPIED | UNKNOWN.

Definition SpaceState_eqb (a b : SpaceState) : bool :=
  match a, b with
  | EMPTY, EMPTY | OCCUPIED, OCCUPIED | UNKNOWN, UNKNOWN => true
  | _, _ => false
  end.

Definition SpaceState_value (s : SpaceState) : string :=
  match s with
  | EMPTY => "empty"%string
  | OCCUPIED => "occupied"%string
  | UNKNOWN => "unknown"%string
  end.

Definition point := (Z * Z)%type.
Definition ndarray := list point.

(** [np.array(..., dtype=np.int32)] narrows each coordinate to 32 bits with
    C semantics (two's complement wrap-around).  NumPy releases from 2.0 on
    reject a Python integer outside the range instead; pixel coordinates
    never are. *)
Definition int32 (z : Z) : Z := (z + 2147483648) mod 4294967296 - 2147483648.

Definition np_array_int32 (l : list point) : ndarray :=
  map (fun p => (int32 (fst p), int32 (snd p))) l.

(** The object is polymorphic in what the constructor stores without looking
    at it: the identifier [I] and the threshold [R].  The engine works on
    [ParkingSpace I Q]; the loader builds the regions from JSON values. *)
Record ParkingSpace (I R : Type) : Type := mkParkingSpace {
  space_id : I;
  polygon : ndarray;
  min_occupancy_ratio : R;
  state : SpaceState;
  previous_state : SpaceState;
  state_history : list (datetime * SpaceState);
  last_change_time : option datetime;
  occupancy_duration : Q;
  vehicle_count : Z;
  confidence_smoothing : list Q;
  smoothing_window : nat
}.

(** [ParkingSpace.__init__] *)
Definition ParkingSpace_init {I R : Type} (space_id : I) (polygon : list point)
    (min_occupancy_ratio : R) : ParkingSpace I R :=
  {| space_id := space_id;
     polygon := np_array_int32 polygon;
     min_occupancy_ratio := min_occupancy_ratio;
     state := UNKNOWN;
     previous_state := UNKNOWN;
     state_history := [];
     last_change_time := None;
     occupancy_duration := 0%Q;
     vehicle_count := 0;
     confidence_smoothing := [];
     smoothing_window := 5 |}.

Section Setters.

Context {I R : Type}.

Definition set_state (self : ParkingSpace I R) (v : SpaceState) : ParkingSpace I R :=
  mkParkingSpace (space_id self) (polygon self) (min_occupancy_ratio self)
    v (previous_state self) (state_history self) (last_change_time self)
    (occupancy_duration self) (vehicle_count self) (confidence_smoothing self)
    (smoothing_window self).

Definition set_previous_state (self : ParkingSpace I R) (v : SpaceState)
    : ParkingSpace I R :=
  mkParkingSpace (space_id self) (polygon self) (min_occupancy_ratio self)
    (state self) v (state_history self) (last_change_time self)
    (occupancy_duration self) (vehicle_count self) (confidence_smoothing self)
    (smoothing_window self).

Definition set_state_history (self : ParkingSpace I R)
    (v : list (datetime * SpaceState)) : ParkingSpace I R :=
  mkParkingSpace (space_id self) (polygon self) (min_occupancy_ratio self)
    (state self) (previous_state self) v (last_change_time self)
    (occupancy_duration self) (vehicle_count self) (confidence_smoothing self)
    (smoothing_window self).

Definition set_last_change_time (self : ParkingSpace I R) (v : option datetime)
    : ParkingSpace I R :=
  mkParkingSpace (space_id self) (polygon self) (min_occupancy_ratio self)
    (state self) (previous_state self) (state_history self) v
    (occupancy_duration self) (vehicle_count self) (confidence_smoothing self)
    (smoothing_window self).

Definition set_occupancy_duration (self : ParkingSpace I R) (v : Q)
    : ParkingSpace I R :=
  mkParkingSpace (space_id self) (polygon self) (min_occupancy_ratio self)
    (state self) (previous_state self) (state_history self)
    (last_change_time self) v (vehicle_count self) (confidence_smoothing self)
    (smoothing_window self).

Definition set_vehicle_count (self : ParkingSpace I R) (v : Z) : ParkingSpace I R :=
  mkParkingSpace (space_id self) (polygon self) (min_occupancy_ratio self)
    (state self) (previous_state self) (state_history self)
    (last_change_time self) (occupancy_duration self) v
    (confidence_smoothing self) (smoothing_window self).

Definition set_confidence_smoothing (self : ParkingSpace I R) (v : list Q)
    : ParkingSpace I R :=
  mkParkingSpace (space_id self) (polygon self) (min_occupancy_ratio self)
    (state self) (previous_state self) (state_history self)
    (last_change_time self) (occupancy_duration self) (vehicle_count self) v
    (smoothing_window self).

End Setters.

(** Python's [l[-2]], for a list of at least two elements. *)
Definition nth_from_end2 {A : Type} (l : list A) : option A :=
  nth_error l (length l - 2).

Section RegionStateMachine.

Context {I R : Type}.

(** [ParkingSpace.update_state].  [now] is what [datetime.now()] reads if
    the call has to ask the clock. *)
Definition update_state (now : datetime) (self : ParkingSpace I R)
    (is_occupied : bool) (timestamp : option datetime) : ParkingSpace I R :=
  let timestamp := match timestamp with None => now | Some t => t end in
  let new_state := if is_occupied then OCCUPIED else EMPTY in
  let self := set_previous_state self (state self) in
  let self := set_state self new_state in
  (* Log state change *)
  if negb (SpaceState_eqb (previous_state self) (state self))
     && negb (SpaceState_eqb (previous_state self) UNKNOWN)
  then
    let self := set_last_change_time self (Some timestamp) in
    let self := set_state_history self
                  (state_history self ++ [(timestamp, state self)]) in
    (* Calculate occupancy duration if transitioning to empty *)
    if SpaceState_eqb (state self) EMPTY
       && SpaceState_eqb (previous_state self) OCCUPIED
    then
      if (2 <=? length (state_history self))%nat
      then
        match nth_from_end2 (state_history self) with
        | Some (prev_timestamp, _) =>
            let duration := total_seconds (timestamp - prev_timestamp) in
            set_occupancy_duration self duration
        | None => self
        end
      else self
    else self
  else self.

End RegionStateMachine.

(** ** Geometry: the OpenCV interface and the overlap evaluator *)

(** A single-channel [uint8] image, row by row. *)
Definition mask := list (list Z).

Definition bbox := (Z * Z * Z * Z)%type.

Class OpenCV : Type := {
  (** [cv2.contourArea(contour)] *)
  contourArea : ndarray -> result Q;
  (** [cv2.pointPolygonTest(contour, pt, measureDist)] *)
  pointPolygonTest : ndarray -> Q * Q -> bool -> result Q;
  (** [cv2.fillPoly(img, pts, color)], returning the image it has drawn on *)
  fillPoly : mask -> list ndarray -> Z -> result mask
}.

(** [np.zeros((h, w), dtype=np.uint8)] *)
Definition np_zeros (h w : Z) : result mask :=
  if (h <? 0) || (w <? 0) then Raise ValueError
  else OK (repeat (repeat 0 (Z.to_nat w)) (Z.to_nat h)).

(** [np.zeros_like(m)] *)
Definition np_zeros_like (m : mask) : mask :=
  map (fun row => map (fun _ => 0) row) m.

(** [a[:, 0]] and [a[:, 1]]: an array built from an empty list has one
    dimension only, and the slice raises. *)
Definition column0 (a : ndarray) : result (list Z) :=
  match a with [] => Raise IndexError | _ => OK (map fst a) end.

Definition column1 (a : ndarray) : result (list Z) :=
  match a with [] => Raise IndexError | _ => OK (map snd a) end.

(** [v.max()] *)
Definition np_amax (v : list Z) : result Z :=
  match v with
  | [] => Raise ValueError
  | x :: r => OK (fold_left Z.max r x)
  end.

(** [cv2.bitwise_and(a, b)] on two images of one shape *)
Definition bitwise_and (a b : mask) : mask :=
  map (fun rows => map (fun px => Z.land (fst px) (snd px))
                       (combine (fst rows) (snd rows)))
      (combine a b).

(** [np.sum(m > 0)] *)
Definition count_positive (m : mask) : Z :=
  fold_left (fun acc row =>
               fold_left (fun acc px => if 0 <? px then acc + 1 else acc) row acc)
            m 0.

Section Engine.

Context {cv : OpenCV} {I : Type}.

(** [ParkingSpace.get_area] *)
Definition get_area (self : ParkingSpace I Q) : result Q :=
  contourArea (polygon self).

(** [ParkingSpace.point_inside] *)
Definition point_inside (self : ParkingSpace I Q) (point : Z * Z) : result bool :=
  let pt := (inject_Z (fst point), inject_Z (snd point)) in
  d <- pointPolygonTest (polygon self) pt false ;;
  OK (Qle_bool 0 d).

(** [ParkingSpace.bbox_intersection_ratio] *)
Definition bbox_intersection_ratio (self : ParkingSpace I Q) (b : bbox)
    : result Q :=
  let '(x1, y1, x2, y2) := b in
  let bbox_polygon := np_array_int32 [(x1, y1); (x2, y1); (x2, y2); (x1, y2)] in
  (* Calculate intersection using OpenCV *)
  space_area <- get_area self ;;
  if Qeq_bool space_area 0 then OK 0%Q
  else
    (* Create mask for parking space *)
    ys <- column1 (polygon self) ;;
    ymax <- np_amax ys ;;
    xs <- column0 (polygon self) ;;
    xmax <- np_amax xs ;;
    mask_space <- np_zeros (Z.max y2 ymax + 10) (Z.max x2 xmax + 10) ;;
    mask_space <- fillPoly mask_space [polygon self] 255 ;;
    (* Create mask for bounding box *)
    let mask_bbox := np_zeros_like mask_space in
    mask_bbox <- fillPoly mask_bbox [bbox_polygon] 255 ;;
    (* Calculate intersection *)
    let intersection := bitwise_and mask_space mask_bbox in
    let intersection_area := count_positive intersection in
    OK (inject_Z intersection_area / space_area)%Q.

(** The [for] loop of [ParkingSpace.check_occupancy] (lines 118-129), on the
    zipped detections, threading [max_intersection] and [vehicle_count]. *)
Fixpoint check_occupancy_loop (self : ParkingSpace I Q)
    (detections : list (bbox * (Z * Z))) (max_intersection : Q)
    (vehicle_count : Z) : result (Q * Z) :=
  match detections with
  | [] => OK (max_intersection, vehicle_count)
  | (b, centroid) :: rest =>
      centroid_inside <- point_inside self centroid ;;
      intersection_ratio <- bbox_intersection_ratio self b ;;
      if Qlt_bool 0 intersection_ratio || centroid_inside
      then
        let max_intersection := py_max max_intersection intersection_ratio in
        if Qlt_bool (min_occupancy_ratio self) intersection_ratio
        then check_occupancy_loop self rest max_intersection (vehicle_count + 1)
        else check_occupancy_loop self rest max_intersection vehicle_count
      else check_occupancy_loop self rest max_intersection vehicle_count
  end.

(** Line 133: the raw decision of the frame. *)
Definition raw_decision (min_occupancy_ratio max_intersection : Q) : bool :=
  if Qeq_bool min_occupancy_ratio 0
  then Qlt_bool 0 max_intersection
  else Qle_bool min_occupancy_ratio max_intersection.

(** Lines 134-145: temporal smoothing. *)
Definition smooth (self : ParkingSpace I Q) (is_occupied : bool)
    : bool * ParkingSpace I Q :=
  let self := set_confidence_smoothing self
                (confidence_smoothing self ++ [if is_occupied then 1%Q else 0%Q]) in
  (* Keep only recent frames *)
  let self :=
    if (smoothing_window self <? length (confidence_smoothing self))%nat
    then set_confidence_smoothing self (tl (confidence_smoothing self))
    else self in
  (* Require majority of recent frames to agree *)
  if (3 <=? length (confidence_smoothing self))%nat
  then
    let avg_confidence := np_mean (confidence_smoothing self) in
    (Qle_bool (1 # 2) avg_confidence, self)
  else (is_occupied, self).

(** [ParkingSpace.check_occupancy] *)
Definition check_occupancy (self : ParkingSpace I Q)
    (vehicle_bboxes : list bbox) (vehicle_centroids : list (Z * Z))
    : result (bool * ParkingSpace I Q) :=
  '(max_intersection, vehicle_count) <-
     check_occupancy_loop self (combine vehicle_bboxes vehicle_centroids) 0%Q 0 ;;
  let self := set_vehicle_count self vehicle_count in
  let is_occupied := raw_decision (min_occupancy_ratio self) max_intersection in
  OK (smooth self is_occupied).

(** *** The coordinator: [class ParkingSpaceManager] *)

Record ParkingSpaceManager : Type := mkParkingSpaceManager {
  spaces : list (ParkingSpace I Q);
  total_spaces : nat
}.

(** [ParkingSpaceManager.__init__] *)
Definition ParkingSpaceManager_init (spaces : list (ParkingSpace I Q))
    : ParkingSpaceManager :=
  {| spaces := spaces; total_spaces := length spaces |}.

(** One entry of the list [update_all] returns. *)
Record StateChange : Type := mkStateChange {
  sc_space_id : I;
  sc_old_state : string;
  sc_new_state : string;
  sc_timestamp : datetime
}.

(** The loop of [ParkingSpaceManager.update_all].  [clock k] is the [k]-th
    reading of [datetime.now()]; [tick] counts the readings made so far. *)
Fixpoint update_all_loop (clock : nat -> datetime) (tick : nat)
    (todo : list (ParkingSpace I Q)) (vehicle_bboxes : list bbox)
    (vehicle_centroids : list (Z * Z)) (timestamp : option datetime)
    (state_changes : list StateChange)
    : result (list StateChange * list (ParkingSpace I Q) * nat) :=
  match todo with
  | [] => OK (state_changes, [], tick)
  | space :: rest =>
      '(is_occupied, space) <- check_occupancy space vehicle_bboxes vehicle_centroids ;;
      let old_state := state space in
      let space := update_state (clock tick) space is_occupied timestamp in
      let tick := match timestamp with None => S tick | Some _ => tick end in
      (* Track state changes *)
      let '(state_changes, tick) :=
        if negb (SpaceState_eqb old_state (state space))
           && negb (SpaceState_eqb old_state UNKNOWN)
        then
          (state_changes ++
             [{| sc_space_id := space_id space;
                 sc_old_state := SpaceState_value old_state;
                 sc_new_state := SpaceState_value (state space);
                 sc_timestamp := match timestamp with
                                 | Some t => t
                                 | None => clock tick
                                 end |}],
           match timestamp with None => S tick | Some _ => tick end)
        else (state_changes, tick) in
      '(state_changes, rest, tick) <-
         update_all_loop clock tick rest vehicle_bboxes vehicle_centroids
           timestamp state_changes ;;
      OK (state_changes, space :: rest, tick)
  end.

(** [ParkingSpaceManager.update_all]: the events, the manager with its
    regions updated in place, and the clock readings consumed. *)
Definition update_all (clock : nat -> datetime) (tick : nat)
    (self : ParkingSpaceManager) (vehicle_bboxes : list bbox)
    (vehicle_centroids : list (Z * Z)) (vehicle_classes : list string)
    (timestamp : option datetime)
    : result (list StateChange * ParkingSpaceManager * nat) :=
  '(state_changes, spaces', tick) <-
     update_all_loop clock tick (spaces self) vehicle_bboxes vehicle_centroids
       timestamp [] ;;
  OK (state_changes,
      {| spaces := spaces'; total_spaces := total_spaces self |},
      tick).

(** [ParkingSpaceManager.get_counts] *)
Definition get_counts (self : ParkingSpaceManager) : Z * Z :=
  let empty :=
    fold_left Z.add
      (map (fun _ => 1) (filter (fun s => SpaceState_eqb (state s) EMPTY) (spaces self))) 0 in
  let occupied :=
    fold_left Z.add
      (map (fun _ => 1) (filter (fun s => SpaceState_eqb (state s) OCCUPIED) (spaces self))) 0 in
  (empty, occupied).

(** [ParkingSpaceManager.get_occupancy_rate] *)
Definition get_occupancy_rate (self : ParkingSpaceManager) : Q :=
  if (total_spaces self =? 0)%nat then 0%Q
  else
    let '(_, occupied) := get_counts self in
    (inject_Z occupied / inject_Z (Z.of_nat (total_spaces self)))%Q.

End Engine.

Arguments ParkingSpaceManager : clear implicits.
Arguments StateChange : clear implicits.

(** ** The metrics engine: [class ParkingLogger]

    Writing the CSV file and printing to the console are effects outside
    the two in-memory logs, and are not modelled. *)

Module Logger.

(** One entry of [state_changes]. *)
Record change_record : Type := mkChange {
  chg_timestamp : datetime;
  chg_space_id : Z;
  chg_old_state : string;
  chg_new_state : string;
  chg_vehicle_class : string;
  chg_confidence : Q;
  chg_occupancy_duration : Q
}.

(** One entry of [metrics_history]. *)
Record metric : Type := mkMetric {
  met_timestamp : datetime;
  met_empty : Z;
  met_occupied : Z;
  met_total : Z;
  met_occupancy_rate : Q
}.

Record ParkingLogger : Type := mkParkingLogger {
  log_file : option string;
  state_changes : list change_record;
  metrics_history : list metric
}.

(** [ParkingLogger.__init__] *)
Definition ParkingLogger_init (log_file : option string) : ParkingLogger :=
  {| log_file := log_file; state_changes := []; metrics_history := [] |}.

(** Python's [x or d] for an optional argument. *)
Definition or_default {A : Type} (x : option A) (d : A) : A :=
  match x with Some v => v | None => d end.

(** [ParkingLogger.log_state_change] *)
Definition log_state_change (self : ParkingLogger) (space_id : Z)
    (old_state new_state : string) (timestamp : datetime)
    (vehicle_class : option string) (confidence : option Q)
    (occupancy_duration : option Q) : ParkingLogger :=
  let change_record :=
    {| chg_timestamp := timestamp;
       chg_space_id := space_id;
       chg_old_state := old_state;
       chg_new_state := new_state;
       chg_vehicle_class := or_default vehicle_class EmptyString;
       chg_confidence := or_default confidence 0%Q;
       chg_occupancy_duration := or_default occupancy_duration 0%Q |} in
  {| log_file := log_file self;
     state_changes := state_changes self ++ [change_record];
     metrics_history := metrics_history self |}.

(** [ParkingLogger.log_metrics] *)
Definition log_metrics (self : ParkingLogger) (timestamp : datetime)
    (empty_count occupied_count : Z) : ParkingLogger :=
  {| log_file := log_file self;
     state_changes := state_changes self;
     metrics_history :=
       metrics_history self ++
       [{| met_timestamp := timestamp;
           met_empty := empty_count;
           met_occupied := occupied_count;
           met_total := empty_count + occupied_count;
           met_occupancy_rate :=
             if 0 <? empty_count + occupied_count
             then (inject_Z occupied_count / inject_Z (empty_count + occupied_count))%Q
             else 0%Q |}] |}.

(** [max(...)] over a non-empty sequence of timestamps *)
Definition max_timestamp (first : datetime) (others : list datetime) : datetime :=
  fold_left Z.max others first.

(** [pd.Timedelta(minutes=m)] *)
Definition Timedelta_minutes (m : Z) : timedelta := m * 60000000.

(** [ParkingLogger.compute_turnover_rate] *)
Definition compute_turnover_rate (self : ParkingLogger) (space_id : option Z)
    (time_window_minutes : Z) : Q :=
  match state_changes self with
  | [] => 0%Q
  | _ =>
    (* Filter by space if specified *)
    let changes :=
      filter (fun c => match space_id with
                       | None => true
                       | Some i => chg_space_id c =? i
                       end) (state_changes self) in
    match changes with
    | [] => 0%Q
    | c0 :: others =>
      (* Get time range *)
      let latest_time := max_timestamp (chg_timestamp c0) (map chg_timestamp others) in
      let cutoff_time := latest_time - Timedelta_minutes time_window_minutes in
      (* Count changes in time window *)
      let recent_changes := filter (fun c => cutoff_time <=? chg_timestamp c) changes in
      (* Convert to changes per hour *)
      let hours := (inject_Z time_window_minutes / 60)%Q in
      if Qlt_bool 0 hours
      then (inject_Z (Z.of_nat (length recent_changes)) / hours)%Q
      else 0%Q
    end
  end.

(** [ParkingLogger.compute_avg_occupancy_duration] *)
Definition compute_avg_occupancy_duration (self : ParkingLogger)
    (space_id : option Z) : Q :=
  let durations :=
    map chg_occupancy_duration
      (filter (fun change =>
                 match space_id with
                 | None => true
                 | Some i => chg_space_id change =? i
                 end && Qlt_bool 0 (chg_occupancy_duration change))
              (state_changes self)) in
  match durations with
  | [] => 0%Q
  | _ => np_mean durations
  end.

(** [t.replace(minute=0, second=0, microsecond=0)] *)
Definition replace_to_hour (t : datetime) : datetime := t - t mod 3600000000.

(** [if hour_key not in hourly_data: hourly_data[hour_key] = []] followed by
    [hourly_data[hour_key].append(rate)], on a dictionary kept in insertion
    order. *)
Fixpoint hourly_append (hourly_data : list (datetime * list Q))
    (hour_key : datetime) (rate : Q) : list (datetime * list Q) :=
  match hourly_data with
  | [] => [(hour_key, [rate])]
  | (k, rates) :: rest =>
      if k =? hour_key then (k, rates ++ [rate]) :: rest
      else (k, rates) :: hourly_append rest hour_key rate
  end.

(** [sorted(items, key=lambda x: x[1], reverse=True)]: a stable sort, equal
    keys keeping their original order. *)
Fixpoint insert_desc (x : datetime * Q) (l : list (datetime * Q))
    : list (datetime * Q) :=
  match l with
  | [] => [x]
  | y :: r => if Qlt_bool (snd x) (snd y) then y :: insert_desc x r else x :: y :: r
  end.

Definition sorted_desc (l : list (datetime * Q)) : list (datetime * Q) :=
  fold_right insert_desc [] l.

(** One entry of the list [get_peak_hours] returns.  The source renders the
    hour with [isoformat()]; the entry keeps the [datetime] itself. *)
Record peak_hour : Type := mkPeak {
  peak_timestamp : datetime;
  average_occupancy_rate : Q
}.

(** [ParkingLogger.get_peak_hours] *)
Definition get_peak_hours (self : ParkingLogger) (hour_window : Z) : list peak_hour :=
  match metrics_history self with
  | [] => []
  | _ =>
    (* Group by hour *)
    let hourly_data :=
      fold_left (fun hourly_data metric =>
                   hourly_append hourly_data
                     (replace_to_hour (met_timestamp metric))
                     (met_occupancy_rate metric))
                (metrics_history self) [] in
    (* Compute average occupancy per hour *)
    let hourly_avg := map (fun kv => (fst kv, np_mean (snd kv))) hourly_data in
    (* Sort by occupancy rate *)
    let sorted_hours := sorted_desc hourly_avg in
    (* Return top peak hours *)
    map (fun kv => {| peak_timestamp := fst kv; average_occupancy_rate := snd kv |})
        (firstn 10 sorted_hours)
  end.

End Logger.

(** ** Configuration: [ConfigManager.load_spaces] *)

Module Config.

(** What [json.load] returns: [None], [bool], [int], [float], [str], [list]
    and [dict] (keys in document order, each once). *)
#[local] Unset Elimination Schemes.
Inductive json : Type :=
| JNull
| JBool (b : bool)
| JInt (z : Z)
| JFloat (f : spec_float)
| JStr (s : string)
| JArr (items : list json)
| JObj (members : list (string * json)).
#[local] Set Elimination Schemes.

(** What is found at [config_path]. *)
Inductive config_file : Type :=
| NoSuchFile
| NotJson
| Document (config : json).

(** [d[key]] on a dictionary *)
Fixpoint dict_lookup (members : list (string * json)) (key : string) : option json :=
  match members with
  | [] => None
  | (k, v) :: rest => if String.eqb k key then Some v else dict_lookup rest key
  end.

(** [x.get(key, default)] *)
Definition py_get (x : json) (key : string) (default : json) : result json :=
  match x with
  | JObj members =>
      match dict_lookup members key with
      | Some v => OK v
      | None => OK default
      end
  | _ => Raise AttributeError
  end.

(** [x[key]] for a string key *)
Definition py_getitem_str (x : json) (key : string) : result json :=
  match x with
  | JObj members =>
      match dict_lookup members key with
      | Some v => OK v
      | None => Raise KeyError
      end
  | _ => Raise TypeError
  end.

(** [x[n]] for [n] = 0 or 1 *)
Definition py_getitem_nat (x : json) (n : nat) : result json :=
  match x with
  | JArr items =>
      match nth_error items n with
      | Some v => OK v
      | None => Raise IndexError
      end
  | JStr s =>
      match String.get n s with
      | Some c => OK (JStr (String c EmptyString))
      | None => Raise IndexError
      end
  | JObj _ => Raise KeyError
  | _ => Raise TypeError
  end.

Fixpoint chars (s : string) : list json :=
  match s with
  | EmptyString => []
  | String c rest => JStr (String c EmptyString) :: chars rest
  end.

(** [for v in x]: the elements of a list, the keys of a dictionary, the
    characters of a string. *)
Definition py_iter (x : json) : result (list json) :=
  match x with
  | JArr items => OK items
  | JObj members => OK (map (fun kv => JStr (fst kv)) members)
  | JStr s => OK (chars s)
  | _ => Raise TypeError
  end.

(** *** [int(x)] *)

Definition is_space (c : ascii) : bool :=
  let n := nat_of_ascii c in
  ((9 <=? n) && (n <=? 13) || (28 <=? n) && (n <=? 32))%nat.

Definition is_digit (c : ascii) : bool :=
  let n := nat_of_ascii c in ((48 <=? n) && (n <=? 57))%nat.

Definition digit_value (c : ascii) : Z := Z.of_nat (nat_of_ascii c) - 48.

Fixpoint lstrip (l : list ascii) : list ascii :=
  match l with
  | c :: rest => if is_space c then lstrip rest else l
  | [] => []
  end.

Definition strip (l : list ascii) : list ascii :=
  rev (lstrip (rev (lstrip l))).

(** Decimal digits, single underscores allowed between two digits. *)
Fixpoint parse_digits (l : list ascii) (acc : Z) (after_digit : bool) : option Z :=
  match l with
  | [] => if after_digit then Some acc else None
  | c :: rest =>
      if is_digit c then parse_digits rest (10 * acc + digit_value c) true
      else if Ascii.eqb c "_"%char
           then if after_digit then parse_digits rest acc false else None
           else None
  end.

(** [int(s)] for a string of ASCII characters *)
Definition int_of_string (s : string) : result Z :=
  let l := strip (list_ascii_of_string s) in
  let '(negative, digits) :=
    match l with
    | c :: rest =>
        if Ascii.eqb c "-"%char then (true, rest)
        else if Ascii.eqb c "+"%char then (false, rest)
        else (false, l)
    | [] => (false, l)
    end in
  match parse_digits digits 0 false with
  | Some n => OK (if negative then - n else n)
  | None => Raise ValueError
  end.

(** [int(f)]: truncation towards zero *)
Definition int_of_float (f : spec_float) : result Z :=
  match f with
  | S754_zero _ => OK 0
  | S754_infinity _ => Raise OverflowError
  | S754_nan => Raise ValueError
  | S754_finite s m e =>
      let magnitude := Z.shiftl (Z.pos m) e in
      OK (if s then - magnitude else magnitude)
  end.

Definition py_int (x : json) : result Z :=
  match x with
  | JInt z => OK z
  | JBool b => OK (if b then 1 else 0)
  | JFloat f => int_of_float f
  | JStr s => int_of_string s
  | _ => Raise TypeError
  end.

(** The float [0.2] *)
Definition float_0_2 : spec_float := S754_finite false 3602879701896397 (-54).

(** [[(int(p[0]), int(p[1])) for p in polygon_points]] *)
Fixpoint polygon_of_points (polygon_points : list json) : result (list point) :=
  match polygon_points with
  | [] => OK []
  | p :: rest =>
      p0 <- py_getitem_nat p 0 ;;
      x <- py_int p0 ;;
      p1 <- py_getitem_nat p 1 ;;
      y <- py_int p1 ;;
      polygon <- polygon_of_points rest ;;
      OK ((x, y) :: polygon)
  end.

(** The loop of [load_spaces] over the regions of the document. *)
Fixpoint load_spaces_loop (space_configs : list json) (default_ratio : json)
    (spaces : list (ParkingSpace json json))
    : result (list (ParkingSpace json json)) :=
  match space_configs with
  | [] => OK spaces
  | space_config :: rest =>
      space_id <- py_getitem_str space_config "id" ;;
      polygon_points <- py_getitem_str space_config "polygon" ;;
      (* Convert to list of tuples *)
      points <- py_iter polygon_points ;;
      polygon <- polygon_of_points points ;;
      min_ratio <- py_get space_config "min_occupancy_ratio" default_ratio ;;
      let space := ParkingSpace_init space_id polygon min_ratio in
      load_spaces_loop rest default_ratio (spaces ++ [space])
  end.

(** [ConfigManager.load_spaces], on what the path leads to. *)
Definition load_spaces (file : config_file)
    : result (list (ParkingSpace json json)) :=
  match file with
  | NoSuchFile => Raise FileNotFoundError
  | NotJson => Raise JSONDecodeError
  | Document config =>
      default_ratio <- py_get config "default_min_occupancy_ratio" (JFloat float_0_2) ;;
      space_configs <- py_get config "spaces" (JArr []) ;;
      space_configs <- py_iter space_configs ;;
      load_spaces_loop space_configs default_ratio []
  end.

End Config.

(** ** Writing configurations: [ConfigManager.save_spaces] and
    [ConfigManager.create_sample_config]

    Both end in [json.dump]; what they return here is the document written.
    Creating the directory and printing are not modelled. *)

Module ConfigWriter.

Import Config.

(** [a.tolist()] for an array of points *)
Definition tolist (a : ndarray) : json :=
  JArr (map (fun p => JArr [JInt (fst p); JInt (snd p)]) a).

(** [ConfigManager.save_spaces] *)
Definition save_spaces (spaces : list (ParkingSpace json json))
    (default_min_occupancy_ratio : json) : config_file :=
  let space_configs :=
    map (fun space =>
           JObj [("id"%string, space_id space);
                 ("polygon"%string, tolist (polygon space));
                 ("min_occupancy_ratio"%string, min_occupancy_ratio space)])
        spaces in
  Document
    (JObj [("default_min_occupancy_ratio"%string, default_min_occupancy_ratio);
           ("spaces"%string, JArr space_configs)]).

(** How [create_sample_config] ends: with the document written, with the
    [ValueError] ("math domain error") of [math.sqrt], or with the
    [ZeroDivisionError] of the quotient. *)
Inductive sample_outcome : Type :=
| Written (config : json)
| MathDomainError
| ZeroDivisionError.

(** [int(math.ceil(math.sqrt(n)))] for [n >= 0].  The floating-point square
    root agrees with this for every [n] below [2^31]. *)
Definition ceil_sqrt (n : Z) : Z :=
  let r := Z.sqrt n in if r * r =? n then r else r + 1.

(** [int(math.ceil(a / b))] for [b > 0].  The floating-point quotient agrees
    with this for all [a] and [b] below [2^31]. *)
Definition ceil_div (a b : Z) : Z := - ((- a) / b).

(** [range(n)] *)
Definition range (n : Z) : list Z := map Z.of_nat (seq 0 (Z.to_nat n)).

(** The entry written for the cell at [row], [col]. *)
Definition sample_space (space_width space_height : Z)
    (default_min_occupancy_ratio : json) (space_id row col : Z) : json :=
  let x1 := col * space_width + space_width / 4 in
  let y1 := row * space_height + space_height / 4 in
  let x2 := (col + 1) * space_width - space_width / 4 in
  let y2 := (row + 1) * space_height - space_height / 4 in
  let polygon :=
    JArr [JArr [JInt x1; JInt y1]; JArr [JInt x2; JInt y1];
          JArr [JInt x2; JInt y2]; JArr [JInt x1; JInt y2]] in
  JObj [("id"%string, JInt space_id);
        ("polygon"%string, polygon);
        ("min_occupancy_ratio"%string, default_min_occupancy_ratio)].

(** The inner loop, over the columns of one row; it stops at the first
    column reached with all the spaces placed. *)
Fixpoint sample_columns (columns : list Z) (row num_spaces space_width
    space_height : Z) (default_min_occupancy_ratio : json)
    (spaces : list json) (space_id : Z) : list json * Z :=
  match columns with
  | [] => (spaces, space_id)
  | col :: rest =>
      if num_spaces <? space_id then (spaces, space_id)
      else
        sample_columns rest row num_spaces space_width space_height
          default_min_occupancy_ratio
          (spaces ++ [sample_space space_width space_height
                        default_min_occupancy_ratio space_id row col])
          (space_id + 1)
  end.

(** The outer loop, over the rows. *)
Fixpoint sample_rows (rows : list Z) (cols num_spaces space_width
    space_height : Z) (default_min_occupancy_ratio : json)
    (spaces : list json) (space_id : Z) : list json * Z :=
  match rows with
  | [] => (spaces, space_id)
  | row :: rest =>
      let '(spaces, space_id) :=
        sample_columns (range cols) row num_spaces space_width space_height
          default_min_occupancy_ratio spaces space_id in
      sample_rows rest cols num_spaces space_width space_height
        default_min_occupancy_ratio spaces space_id
  end.

(** [ConfigManager.create_sample_config] *)
Definition create_sample_config (num_spaces image_width image_height : Z)
    (default_min_occupancy_ratio : json) : sample_outcome :=
  (* Calculate grid dimensions *)
  if num_spaces <? 0 then MathDomainError
  else
    let cols := ceil_sqrt num_spaces in
    if cols =? 0 then ZeroDivisionError
    else
      let rows := ceil_div num_spaces cols in
      let space_width := image_width / (cols + 1) in
      let space_height := image_height / (rows + 1) in
      let '(spaces, _) :=
        sample_rows (range rows) cols num_spaces space_width space_height
          default_min_occupancy_ratio [] 1 in
      Written
        (JObj [("default_min_occupancy_ratio"%string, default_min_occupancy_ratio);
               ("spaces"%string, JArr spaces)]).

End ConfigWriter.

(** ** The application: [ParkingAnalyzer.process_frame]

    What a frame does to the session: the detector is given by what it
    returned for the frame, and the annotated image is not modelled. *)

Module Analyzer.

Record ParkingAnalyzer : Type := mkParkingAnalyzer {
  space_manager : ParkingSpaceManager Z;
  logger : Logger.ParkingLogger
}.

(** What [detector.detect] returns: boxes, centroids, class names and
    confidences. *)
Definition detections : Type :=
  (list bbox * list (Z * Z) * list string * list Q)%type.

(** The exceptions of a frame: those of the engine, and [StopIteration] out
    of [next]. *)
Inductive failure : Type :=
| EngineError (e : exn)
| StopIteration.

(** The loop that logs the state changes of a frame. *)
Fixpoint log_changes (spaces : list (ParkingSpace Z Q))
    (state_changes : list (StateChange Z)) (logger : Logger.ParkingLogger)
    : failure + Logger.ParkingLogger :=
  match state_changes with
  | [] => inr logger
  | change :: rest =>
      match find (fun s => space_id s =? sc_space_id change) spaces with
      | None => inl StopIteration
      | Some space =>
          log_changes spaces rest
            (Logger.log_state_change logger
               (sc_space_id change) (sc_old_state change) (sc_new_state change)
               (sc_timestamp change) None None
               (Some (occupancy_duration space)))
      end
  end.

(** [ParkingAnalyzer.process_frame] *)
Definition process_frame {cv : OpenCV} (now : datetime) (self : ParkingAnalyzer)
    (detected : detections) (timestamp : option datetime)
    : failure + ParkingAnalyzer :=
  let timestamp := match timestamp with None => now | Some t => t end in
  (* Detect vehicles *)
  let '(vehicle_bboxes, vehicle_centroids, vehicle_classes, confidences) :=
    detected in
  (* Update parking spaces *)
  match update_all (fun _ => now) 0 (space_manager self) vehicle_bboxes
          vehicle_centroids vehicle_classes (Some timestamp) with
  | Raise e => inl (EngineError e)
  | OK (state_changes, space_manager, _) =>
      (* Log state changes *)
      match log_changes (spaces space_manager) state_changes (logger self) with
      | inl f => inl f
      | inr logger =>
          (* Log metrics *)
          let '(empty, occupied) := get_counts space_manager in
          let logger := Logger.log_metrics logger timestamp empty occupied in
          inr {| space_manager := space_manager; logger := logger |}
      end
  end.

End Analyzer.

(** ** A reference rasteriser

    An executable instance of the OpenCV interface, used to run the engine
    on concrete frames: the shoelace area, the crossing-number containment
    test (+1 inside, 0 on the boundary, -1 outside), and a fill that paints
    every pixel whose centre is inside or on the boundary. *)

Module Reference.

Definition edges (contour : ndarray) : list (point * point) :=
  match contour with
  | [] => []
  | first :: rest => combine contour (rest ++ [first])
  end.

Definition shoelace (contour : ndarray) : Z :=
  fold_left (fun acc e =>
               let '((xa, ya), (xb, yb)) := e in acc + (xa * yb - xb * ya))
            (edges contour) 0.

Definition ref_contourArea (contour : ndarray) : result Q :=
  match contour with
  | [] => Raise cv2_error
  | _ => OK (inject_Z (Z.abs (shoelace contour)) / 2)%Q
  end.

Definition on_segment (pt : Q * Q) (e : point * point) : bool :=
  let '((xa, ya), (xb, yb)) := e in
  let '(px, py) := pt in
  let xa := inject_Z xa in let ya := inject_Z ya in
  let xb := inject_Z xb in let yb := inject_Z yb in
  Qeq_bool ((xb - xa) * (py - ya)) ((yb - ya) * (px - xa))
  && Qle_bool (Qmin xa xb) px && Qle_bool px (Qmax xa xb)
  && Qle_bool (Qmin ya yb) py && Qle_bool py (Qmax ya yb).

Definition crosses (pt : Q * Q) (e : point * point) : bool :=
  let '((xa, ya), (xb, yb)) := e in
  let '(px, py) := pt in
  let xa := inject_Z xa in let ya := inject_Z ya in
  let xb := inject_Z xb in let yb := inject_Z yb in
  negb (Bool.eqb (Qlt_bool py ya) (Qlt_bool py yb))
  && Qlt_bool px (xa + (py - ya) * (xb - xa) / (yb - ya)).

Definition ref_pointPolygonTest (contour : ndarray) (pt : Q * Q)
    (measureDist : bool) : result Q :=
  match contour with
  | [] => Raise cv2_error
  | _ =>
    if existsb (on_segment pt) (edges contour) then OK 0%Q
    else if Nat.odd (length (filter (crosses pt) (edges contour)))
         then OK 1%Q else OK (-1)%Q
  end.

Definition covered (pts : list ndarray) (x y : nat) : bool :=
  existsb (fun contour =>
             match ref_pointPolygonTest contour
                     (inject_Z (Z.of_nat x), inject_Z (Z.of_nat y)) false with
             | OK d => Qle_bool 0 d
             | Raise _ => false
             end) pts.

Fixpoint paint_row (pts : list ndarray) (color : Z) (y x : nat) (row : list Z)
    : list Z :=
  match row with
  | [] => []
  | px :: rest =>
      (if covered pts x y then color else px) :: paint_row pts color y (S x) rest
  end.

Fixpoint paint_rows (pts : list ndarray) (color : Z) (y : nat) (img : mask) : mask :=
  match img with
  | [] => []
  | row :: rest => paint_row pts color y 0 row :: paint_rows pts color (S y) rest
  end.

Definition ref_fillPoly (img : mask) (pts : list ndarray) (color : Z) : result mask :=
  OK (paint_rows pts color 0 img).

#[export] Instance raster : OpenCV := {
  contourArea := ref_contourArea;
  pointPolygonTest := ref_pointPolygonTest;
  fillPoly := ref_fillPoly
}.

End Reference.

(** ** Specification vocabulary and concrete inputs *)

(** [l'] is [l] with one entry appended. *)
Definition appended {A : Type} (l l' : list A) : Prop :=
  exists e, l' = l ++ [e].

(** The state an update call moves to. *)
Definition state_of (is_occupied : bool) : SpaceState :=
  if is_occupied then OCCUPIED else EMPTY.

(** The timestamp an update call works with. *)
Definition effective_timestamp (now : datetime) (timestamp : option datetime)
    : datetime :=
  match timestamp with Some t => t | None => now end.

(** The last [n] elements of [l]. *)
Definition lastn {A : Type} (n : nat) (l : list A) : list A :=
  skipn (length l - n) l.

(** The sample pushed onto the smoothing window for a raw decision. *)
Definition sample (raw : bool) : Q := if raw then 1%Q else 0%Q.

Section DecisionVocabulary.

Context {cv : OpenCV} {I : Type}.

(** What the two geometric tests give for one detection: whether the
    centroid is inside, and the intersection ratio. *)
Definition evaluates (self : ParkingSpace I Q) (detection : bbox * (Z * Z))
    (e : bool * Q) : Prop :=
  point_inside self (snd detection) = OK (fst e)
  /\ bbox_intersection_ratio self (fst detection) = OK (snd e).

(** A detection with positive overlap or with its centroid inside. *)
Definition overlapping (e : bool * Q) : bool := Qlt_bool 0 (snd e) || fst e.

(** [m] is the maximum intersection ratio over the overlapping detections,
    and 0 when there is none. *)
Definition is_max_ratio (evals : list (bool * Q)) (m : Q) : Prop :=
  let ratios := map snd (filter overlapping evals) in
  (ratios = [] /\ (m == 0)%Q)
  \/ (Exists (fun r => (r == m)%Q) ratios /\ Forall (fun r => (r <= m)%Q) ratios).

(** The raw decision of one frame for a region. *)
Definition frame_raw (self : ParkingSpace I Q) (frame : list bbox * list (Z * Z))
    : result bool :=
  '(max_intersection, _) <-
     check_occupancy_loop self (combine (fst frame) (snd frame)) 0%Q 0 ;;
  OK (raw_decision (min_occupancy_ratio self) max_intersection).

(** [check_occupancy] called once per frame, in order; the decisions
    returned and the region after the last call. *)
Fixpoint check_occupancy_frames (self : ParkingSpace I Q)
    (frames : list (list bbox * list (Z * Z)))
    : result (list bool * ParkingSpace I Q) :=
  match frames with
  | [] => OK ([], self)
  | frame :: rest =>
      '(decision, self) <- check_occupancy self (fst frame) (snd frame) ;;
      '(decisions, self) <- check_occupancy_frames self rest ;;
      OK (decision :: decisions, self)
  end.

(** The decision the smoothing rule gives on a window that already holds
    the frame's sample. *)
Definition smoothed (window : list Q) (raw : bool) : bool :=
  if (length window <? 3)%nat then raw else Qle_bool (1 # 2) (np_mean window).

End DecisionVocabulary.

Section CoordinatorVocabulary.

Context {I : Type}.

(** The region moved, on this call, from a known state to another one. *)
Definition changed (before after : ParkingSpace I Q) : bool :=
  negb (SpaceState_eqb (state before) (state after))
  && negb (SpaceState_eqb (state before) UNKNOWN).

(** What a transition event says of its region, timestamp apart. *)
Definition event_summary (e : StateChange I) : I * string * string :=
  (sc_space_id e, sc_old_state e, sc_new_state e).

(** The events due for the regions before and after a call, in the order
    of the regions. *)
Definition due_events (before after : list (ParkingSpace I Q))
    : list (I * string * string) :=
  map (fun pair => (space_id (fst pair),
                    SpaceState_value (state (fst pair)),
                    SpaceState_value (state (snd pair))))
      (filter (fun pair => changed (fst pair) (snd pair)) (combine before after)).

(** What the coordinator owes each region: its identifier is kept, and its
    log grew exactly when the region changed. *)
Definition region_step (before after : ParkingSpace I Q) : Prop :=
  space_id after = space_id before
  /\ (appended (state_history before) (state_history after)
      <-> changed before after = true).

(** When the events of a call were stamped. *)
Definition stamped (clock : nat -> datetime) (timestamp : option datetime)
    (tick tick' : nat) (e : StateChange I) : Prop :=
  match timestamp with
  | Some t => sc_timestamp e = t
  | None => exists k, (tick <= k < tick')%nat /\ sc_timestamp e = clock k
  end.

End CoordinatorVocabulary.

(** The number of regions of a list that are in a given state. *)
Definition count_in_state {I : Type} (st : SpaceState)
    (regions : list (ParkingSpace I Q)) : nat :=
  length (filter (fun s => SpaceState_eqb (state s) st) regions).

Section MetricsVocabulary.

Import Logger.

(** The events a query is about: all of them, or those of one region. *)
Definition in_scope (space_id : option Z) (c : change_record) : bool :=
  match space_id with
  | None => true
  | Some i => chg_space_id c =? i
  end.

(** [latest] is the maximum timestamp of the events of [scope]. *)
Definition is_latest (scope : list change_record) (latest : datetime) : Prop :=
  In latest (map chg_timestamp scope)
  /\ Forall (fun c => chg_timestamp c <= latest) scope.

(** The event lies in [[latest - window, latest]], the window in minutes. *)
Definition within_window (latest : datetime) (window_minutes : Z)
    (c : change_record) : bool :=
  (latest - window_minutes * 60 * 1000000 <=? chg_timestamp c)
  && (chg_timestamp c <=? latest).

(** The snapshots of one hour, and their occupancy rates in the order they
    were recorded. *)
Definition rates_of_hour (history : list metric) (hour : datetime) : list Q :=
  map met_occupancy_rate
    (filter (fun m => replace_to_hour (met_timestamp m) =? hour) history).

(** The hours that have a snapshot. *)
Definition hours_of (history : list metric) : list datetime :=
  map (fun m => replace_to_hour (met_timestamp m)) history.

(** The dictionary built from the snapshots: one entry per hour that has a
    snapshot, holding the rates of that hour in the order recorded. *)
Definition grouped (history : list metric) (d : list (datetime * list Q)) : Prop :=
  NoDup (map fst d)
  /\ (forall k rs, In (k, rs) d ->
        In k (hours_of history) /\ rs = rates_of_hour history k)
  /\ (forall k, In k (hours_of history) -> In k (map fst d)).

(** Entries in descending order of their rate: none is followed by an
    entry of a higher rate. *)
Definition descending {A : Type} (rate : A -> Q) : list A -> Prop :=
  StronglySorted (fun a b => (rate b <= rate a)%Q).

(** The positive durations carried by the events in scope, in log order. *)
Definition positive_durations (space_id : option Z)
    (changes : list change_record) : list Q :=
  filter (fun d => Qlt_bool 0 d)
    (map chg_occupancy_duration (filter (in_scope space_id) changes)).

End MetricsVocabulary.

Section ConfigVocabulary.

Import Config.

(** A region of the document whose polygon is a list of fewer than 3 points. *)
Definition short_polygon (space_config : json) : bool :=
  match space_config with
  | JObj members =>
      match dict_lookup members "polygon" with
      | Some (JArr points) => (length points <? 3)%nat
      | _ => false
      end
  | _ => false
  end.

(** A document one of whose regions has such a polygon. *)
Definition has_short_polygon (config : json) : bool :=
  match config with
  | JObj members =>
      match dict_lookup members "spaces" with
      | Some (JArr space_configs) => existsb short_polygon space_configs
      | _ => false
      end
  | _ => false
  end.

(** The description of a region: its identifier, its points and, when it
    has one, its own threshold. *)
Definition region : Type := (json * list point * option json)%type.

(** The point [[x, y]]. *)
Definition point_json (p : point) : json := JArr [JInt (fst p); JInt (snd p)].

(** The region as the document writes it. *)
Definition region_json (r : region) : json :=
  let '(id, points, ratio) := r in
  JObj ([("id"%string, id); ("polygon"%string, JArr (map point_json points))]
        ++ match ratio with
           | Some v => [("min_occupancy_ratio"%string, v)]
           | None => []
           end).

(** The document of a list of regions, with or without a default
    threshold. *)
Definition config_json (default : option json) (regions : list json) : json :=
  JObj (match default with
        | Some v => [("default_min_occupancy_ratio"%string, v)]
        | None => []
        end ++ [("spaces"%string, JArr regions)]).

(** The region as it is loaded. *)
Definition loaded (default : option json) (r : region) : ParkingSpace json json :=
  let '(id, points, ratio) := r in
  ParkingSpace_init id points
    (match ratio, default with
     | Some v, _ => v
     | None, Some v => v
     | None, None => JFloat float_0_2
     end).

End ConfigVocabulary.

(** The log is in time order up to [bound], and the duration is not
    negative. *)
Definition in_time_order {I R : Type} (bound : datetime) (s : ParkingSpace I R)
    : Prop :=
  Forall (fun e => fst e <= bound) (state_history s)
  /\ StronglySorted Z.le (map fst (state_history s))
  /\ (0 <= occupancy_duration s)%Q.

Section LifeCycleVocabulary.

Context {cv : OpenCV} {I : Type}.

(** The states a region goes through: built by the constructor, then
    handed to [update_state] and [check_occupancy] any number of times. *)
Inductive reachable : ParkingSpace I Q -> Prop :=
| reachable_init (space_id : I) (polygon : list point) (min_occupancy_ratio : Q) :
    reachable (ParkingSpace_init space_id polygon min_occupancy_ratio)
| reachable_update_state (s : ParkingSpace I Q) (now : datetime)
    (is_occupied : bool) (timestamp : option datetime) :
    reachable s -> reachable (update_state now s is_occupied timestamp)
| reachable_check_occupancy (s s' : ParkingSpace I Q) (vehicle_bboxes : list bbox)
    (vehicle_centroids : list (Z * Z)) (decision : bool) :
    reachable s ->
    check_occupancy s vehicle_bboxes vehicle_centroids = OK (decision, s') ->
    reachable s'.

(** A log whose entries are Empty or Occupied and change state at every
    entry. *)
Fixpoint alternating (log : list (datetime * SpaceState)) : Prop :=
  match log with
  | [] => True
  | (_, st) :: rest =>
      st <> UNKNOWN
      /\ match rest with
         | [] => True
         | (_, st') :: _ => st <> st'
         end
      /\ alternating rest
  end.

(** [update_state] called once per entry of [calls], each with its decision
    and its timestamp. *)
Definition update_states (s : ParkingSpace I Q) (calls : list (bool * datetime))
    : ParkingSpace I Q :=
  fold_left (fun s call => update_state 0 s (fst call) (Some (snd call))) calls s.

(** The number of frames, among [recent], whose raw decision is occupied. *)
Definition occupied_votes (recent : list bool) : nat :=
  length (filter (fun raw => raw) recent).

(** The majority vote over the recent raw decisions, the frame's own last:
    the raw decision below 3 frames, and from 3 on whether at least half of
    them are occupied. *)
Definition majority (recent : list bool) (raw : bool) : bool :=
  if (length recent <? 3)%nat then raw
  else (length recent <=? 2 * occupied_votes recent)%nat.

(** What the constructor establishes and both methods keep: the log
    alternates, its last entry is the last change and the current state,
    and a region still Unknown has logged nothing. *)
Definition log_invariant (s : ParkingSpace I Q) : Prop :=
  alternating (state_history s)
  /\ match rev (state_history s) with
     | [] => last_change_time s = None
     | (t, st) :: _ => last_change_time s = Some t /\ st = state s
     end
  /\ (state s = UNKNOWN -> state_history s = []).

(** A detection that counts as a vehicle on the region: it overlaps, and
    its ratio exceeds the threshold. *)
Definition counted (self : ParkingSpace I Q) (e : bool * Q) : bool :=
  overlapping e && Qlt_bool (min_occupancy_ratio self) (snd e).

(** The region after one frame of the coordinator, for a decision [d] taken
    on the region as [check_occupancy] left it. *)
Definition region_updated (bboxes : list bbox) (centroids : list (Z * Z))
    (timestamp : option datetime) (before after : ParkingSpace I Q) : Prop :=
  exists (d : bool) (s1 : ParkingSpace I Q) (now : datetime),
    check_occupancy before bboxes centroids = OK (d, s1)
    /\ after = update_state now s1 d timestamp.

End LifeCycleVocabulary.

Section WriterVocabulary.

Import Config.

(** Coordinates that fit the 32 bits of the arrays. *)
Definition in_int32 (z : Z) : Prop := -2147483648 <= z < 2147483648.

Definition int32_points (a : ndarray) : Prop :=
  Forall (fun p => in_int32 (fst p) /\ in_int32 (snd p)) a.

(** The region as new, with the identifier, polygon and threshold of [s]. *)
Definition as_new {I R : Type} (s : ParkingSpace I R) : ParkingSpace I R :=
  {| space_id := space_id s;
     polygon := polygon s;
     min_occupancy_ratio := min_occupancy_ratio s;
     state := UNKNOWN;
     previous_state := UNKNOWN;
     state_history := [];
     last_change_time := None;
     occupancy_duration := 0%Q;
     vehicle_count := 0;
     confidence_smoothing := [];
     smoothing_window := 5 |}.

(** The region loaded for an entry of the document: the entry's identifier,
    as many points as the entry lists, and nothing observed yet. *)
Definition loaded_from (entry : json) (s : ParkingSpace json json) : Prop :=
  py_getitem_str entry "id" = OK (space_id s)
  /\ (exists polygon_points points,
        py_getitem_str entry "polygon" = OK polygon_points
        /\ py_iter polygon_points = OK points
        /\ length (polygon s) = length points)
  /\ s = as_new s.

(** The cells of a grid of [rows] by [cols], row by row. *)
Definition grid_cells (rows cols : Z) : list (Z * Z) :=
  flat_map (fun row => map (fun col => (row, col)) (ConfigWriter.range cols))
           (ConfigWriter.range rows).

(** The entries written for a list of cells, numbered from [space_id]. *)
Fixpoint sample_entries (space_width space_height : Z)
    (default_min_occupancy_ratio : json) (cells : list (Z * Z)) (space_id : Z)
    : list json :=
  match cells with
  | [] => []
  | (row, col) :: rest =>
      ConfigWriter.sample_space space_width space_height
        default_min_occupancy_ratio space_id row col
      :: sample_entries space_width space_height default_min_occupancy_ratio
           rest (space_id + 1)
  end.

(** The same entries as region descriptions. *)
Fixpoint sample_regions (space_width space_height : Z)
    (default_min_occupancy_ratio : json) (cells : list (Z * Z)) (space_id : Z)
    : list region :=
  match cells with
  | [] => []
  | (row, col) :: rest =>
      let x1 := col * space_width + space_width / 4 in
      let y1 := row * space_height + space_height / 4 in
      let x2 := (col + 1) * space_width - space_width / 4 in
      let y2 := (row + 1) * space_height - space_height / 4 in
      (JInt space_id, [(x1, y1); (x2, y1); (x2, y2); (x1, y2)],
       Some default_min_occupancy_ratio)
      :: sample_regions space_width space_height default_min_occupancy_ratio
           rest (space_id + 1)
  end.

(** The rectangle of a cell lies in the image and is not flat. *)
Definition cell_in_image (space_width space_height image_width image_height : Z)
    (cell : Z * Z) : Prop :=
  let '(row, col) := cell in
  let x1 := col * space_width + space_width / 4 in
  let y1 := row * space_height + space_height / 4 in
  let x2 := (col + 1) * space_width - space_width / 4 in
  let y2 := (row + 1) * space_height - space_height / 4 in
  0 <= x1 /\ x1 < x2 /\ x2 <= image_width
  /\ 0 <= y1 /\ y1 < y2 /\ y2 <= image_height.

End WriterVocabulary.

Section AnalyzerVocabulary.

Import Logger.

(** The record logged for a transition event: the event's own fields, no
    vehicle class, no confidence, and the dwell duration of the first
    region that bears the event's identifier. *)
Definition logged_as (regions : list (ParkingSpace Z Q)) (e : StateChange Z)
    (r : change_record) : Prop :=
  exists s,
    find (fun s => space_id s =? sc_space_id e) regions = Some s
    /\ r = {| chg_timestamp := sc_timestamp e;
              chg_space_id := sc_space_id e;
              chg_old_state := sc_old_state e;
              chg_new_state := sc_new_state e;
              chg_vehicle_class := EmptyString;
              chg_confidence := 0%Q;
              chg_occupancy_duration := occupancy_duration s |}.

End AnalyzerVocabulary.

Module Examples.

(** A square region of side 10 with the default threshold. *)
Definition square : ParkingSpace Z Q :=
  ParkingSpace_init 1 [(0, 0); (10, 0); (10, 10); (0, 10)] (2 # 10)%Q.

(** The square, first seen empty at second 10 and occupied since a
    transition logged at second 40. *)
Definition square_occupied : ParkingSpace Z Q :=
  update_state 0 (update_state 0 square false (Some 10000000)) true (Some 40000000).

(** A region whose two corners span no area. *)
Definition segment : ParkingSpace Z Q :=
  ParkingSpace_init 2 [(0, 0); (10, 10)] (2 # 10)%Q.

(** A box over the left half of the square, and its centroid. *)
Definition half_box : bbox := (0, 0, 5, 10).
Definition half_centroid : Z * Z := (2, 5).

Definition frame_with_car : list bbox * list (Z * Z) := ([half_box], [half_centroid]).
Definition frame_without_car : list bbox * list (Z * Z) := ([], []).

(** Seven frames: a car, none, then a car again, ... *)
Definition seven_frames : list (list bbox * list (Z * Z)) :=
  [frame_with_car; frame_without_car; frame_with_car; frame_with_car;
   frame_without_car; frame_without_car; frame_without_car].

Definition seven_raws : list bool :=
  [true; false; true; true; false; false; false].

(** A session of two squares: the first occupied, the second empty. *)
Definition far_square : ParkingSpace Z Q :=
  ParkingSpace_init 7 [(20, 0); (30, 0); (30, 10); (20, 10)] (2 # 10)%Q.

Definition far_square_empty : ParkingSpace Z Q :=
  update_state 0 far_square false (Some 10000000).

Definition session : ParkingSpaceManager Z :=
  ParkingSpaceManager_init [square_occupied; far_square_empty].

(** A clock that reads 1 second, 2 seconds, ... *)
Definition seconds_clock (k : nat) : datetime := Z.of_nat (S k) * 1000000.

(** A session set up while its second region has not been classified yet. *)
Definition early_session : ParkingSpaceManager Z :=
  ParkingSpaceManager_init [square_occupied; far_square].

Definition minutes (m : Z) : datetime := m * 60 * 1000000.

(** Four transitions logged at minutes 5, 20, 40 and 59. *)
Definition four_events : Logger.ParkingLogger :=
  let l := Logger.ParkingLogger_init None in
  let l := Logger.log_state_change l 1 "empty" "occupied" (minutes 5) None None None in
  let l := Logger.log_state_change l 2 "empty" "occupied" (minutes 20) None None None in
  let l := Logger.log_state_change l 1 "occupied" "empty" (minutes 40) None None
             (Some (2100 # 1)%Q) in
  Logger.log_state_change l 2 "occupied" "empty" (minutes 59) None None
    (Some (2340 # 1)%Q).

Definition snapshot_at (t : datetime) (rate : Q) : Logger.metric :=
  {| Logger.met_timestamp := t; Logger.met_empty := 0; Logger.met_occupied := 0;
     Logger.met_total := 0; Logger.met_occupancy_rate := rate |}.

(** Snapshots over three hours, of average rates 0.9, 0.1 and 0.9. *)
Definition three_hours : Logger.ParkingLogger :=
  {| Logger.log_file := None;
     Logger.state_changes := [];
     Logger.metrics_history :=
       [snapshot_at (minutes 5) (8 # 10); snapshot_at (minutes 50) (10 # 10);
        snapshot_at (minutes 65) (1 # 10);
        snapshot_at (minutes 130) (9 # 10)] |}.

(** A document with one region, of two points. *)
Definition two_point_config : Config.json :=
  Config.JObj
    [("spaces"%string,
      Config.JArr
        [Config.JObj
           [("id"%string, Config.JInt 1);
            ("polygon"%string,
             Config.JArr [Config.JArr [Config.JInt 0; Config.JInt 0];
                          Config.JArr [Config.JInt 10; Config.JInt 10]])]])].

(** Three frames on a session of one square: a car, none, a car again. *)
Definition three_updates
    : result (list (list (StateChange Z)) * ParkingSpaceManager Z) :=
  let cv := Reference.raster in
  let m0 := ParkingSpaceManager_init [square] in
  '(e1, m1, _) <- update_all seconds_clock 0 m0 [half_box] [half_centroid] []
                    (Some (minutes 1)) ;;
  '(e2, m2, _) <- update_all seconds_clock 0 m1 [] [] [] (Some (minutes 2)) ;;
  '(e3, m3, _) <- update_all seconds_clock 0 m2 [half_box] [half_centroid] []
                    (Some (minutes 3)) ;;
  OK ([e1; e2; e3], m3).

(** The decisions and timestamps of a morning: seen empty, a car from
    second 40 to second 100, another from second 160. *)
Definition morning_calls : list (bool * datetime) :=
  [(false, 10000000); (true, 40000000); (true, 70000000); (false, 100000000);
   (true, 160000000)].

(** A square and a box that both lie beyond the top-left corner. *)
Definition offscreen_square : ParkingSpace Z Q :=
  ParkingSpace_init 9 [(-40, -40); (-20, -40); (-20, -20); (-40, -20)] (2 # 10)%Q.

Definition offscreen_box : bbox := (-35, -35, -25, -25).

(** Two regions as the loader builds them, the first one moved on since. *)
Definition loaded_pair : list (ParkingSpace Config.json Config.json) :=
  [update_state 0
     (ParkingSpace_init (Config.JInt 1) [(0, 0); (10, 0); (10, 10); (0, 10)]
        (Config.JFloat Config.float_0_2))
     true (Some 10000000);
   ParkingSpace_init (Config.JInt 2) [(20, 0); (30, 0); (30, 10)] Config.JNull].

(** A document in the annotation format: a point written as an object. *)
Definition object_point_config : Config.json :=
  config_json None
    (map region_json []
     ++ Config.JObj
          [("id"%string, Config.JInt 1);
           ("polygon"%string,
            Config.JArr
              (map point_json [(0, 0)]
               ++ Config.JObj [("x"%string, Config.JInt 10);
                               ("y"%string, Config.JInt 0)]
               :: [Config.JArr [Config.JInt 10; Config.JInt 10]]))]
     :: []).

(** A session at work: the two squares of [session], and an empty log. *)
Definition analyzer : Analyzer.ParkingAnalyzer :=
  {| Analyzer.space_manager := session;
     Analyzer.logger := Logger.ParkingLogger_init None |}.

(** A frame in which the detector found nothing. *)
Definition nothing_detected : Analyzer.detections := ([], [], [], []).

End Examples.

(** * Properties of the engine *)

(** ** The region state machine *)

Lemma SpaceState_eqb_eq (a b : SpaceState) : SpaceState_eqb a b = true <-> a = b.
Proof. destruct a, b; simpl; split; congruence. Qed.

Lemma SpaceState_eqb_neq (a b : SpaceState) : SpaceState_eqb a b = false <-> a <> b.
Proof. destruct a, b; simpl; split; congruence. Qed.

Lemma nth_from_end2_snoc {A : Type} (h : list A) (a b : A) :
  nth_from_end2 ((h ++ [a]) ++ [b]) = Some a.
Proof.
  unfold nth_from_end2. rewrite <- app_assoc. simpl.
  rewrite length_app. simpl.
  replace (length h + 2 - 2)%nat with (length h + 0)%nat by lia.
  rewrite nth_error_app2 by lia.
  replace (length h + 0 - length h)%nat with 0%nat by lia. reflexivity.
Qed.

Lemma app_singleton_neq {A : Type} (l : list A) (e : A) : l <> l ++ [e].
Proof.
  intro H. apply (f_equal (@length A)) in H. rewrite length_app in H. simpl in H. lia.
Qed.

Lemma length_snoc_ge2 {A : Type} (h : list A) (a b : A) :
  (2 <=? length ((h ++ [a]) ++ [b]))%nat = true.
Proof. apply Nat.leb_le. rewrite !length_app. simpl. lia. Qed.

Section StateMachineFacts.

Context {I R : Type}.
Variables (now : datetime) (self : ParkingSpace I R) (is_occupied : bool)
  (timestamp : option datetime).

Let self' := update_state now self is_occupied timestamp.
Let ts := effective_timestamp now timestamp.
Let new_state := state_of is_occupied.

(** The call, read off branch by branch. *)
Lemma update_state_unfold :
  self' =
  let s1 := set_state (set_previous_state self (state self)) new_state in
  if negb (SpaceState_eqb (state self) new_state)
     && negb (SpaceState_eqb (state self) UNKNOWN)
  then
    let s2 := set_state_history (set_last_change_time s1 (Some ts))
                (state_history self ++ [(ts, new_state)]) in
    if SpaceState_eqb new_state EMPTY && SpaceState_eqb (state self) OCCUPIED
    then
      match rev (state_history self) with
      | (prev_timestamp, _) :: _ =>
          set_occupancy_duration s2 (total_seconds (ts - prev_timestamp))
      | [] => s2
      end
    else s2
  else s1.
Proof.
  subst self' ts new_state.
  unfold update_state, effective_timestamp, state_of.
  cbn [state previous_state state_history set_state set_previous_state
       set_last_change_time set_state_history].
  destruct (negb _ && negb _); [|reflexivity].
  destruct (SpaceState_eqb _ EMPTY && SpaceState_eqb _ OCCUPIED); [|reflexivity].
  destruct (state_history self) as [|e h _] using rev_ind.
  - reflexivity.
  - rewrite length_snoc_ge2, nth_from_end2_snoc, rev_app_distr.
    destruct e. reflexivity.
Qed.

Lemma update_state_logged :
  state self <> new_state -> state self <> UNKNOWN ->
  state_history self' = state_history self ++ [(ts, new_state)]
  /\ last_change_time self' = Some ts.
Proof.
  intros Hne Hun. rewrite update_state_unfold. cbv zeta.
  apply SpaceState_eqb_neq in Hne, Hun. rewrite Hne, Hun. cbn [negb andb].
  destruct (SpaceState_eqb new_state EMPTY && SpaceState_eqb (state self) OCCUPIED);
    [|split; reflexivity].
  destruct (rev (state_history self)) as [|[p q] r]; split; reflexivity.
Qed.

Lemma update_state_not_logged :
  state self = new_state \/ state self = UNKNOWN ->
  state_history self' = state_history self
  /\ last_change_time self' = last_change_time self
  /\ occupancy_duration self' = occupancy_duration self.
Proof.
  intros H. rewrite update_state_unfold. cbv zeta.
  replace (negb (SpaceState_eqb (state self) new_state)
           && negb (SpaceState_eqb (state self) UNKNOWN)) with false.
  - repeat split; reflexivity.
  - symmetry. apply andb_false_iff.
    destruct H as [H | H]; [left | right];
      apply negb_false_iff, SpaceState_eqb_eq; exact H.
Qed.

Lemma update_state_fields :
  state self' = new_state
  /\ previous_state self' = state self
  /\ space_id self' = space_id self
  /\ polygon self' = polygon self
  /\ min_occupancy_ratio self' = min_occupancy_ratio self
  /\ confidence_smoothing self' = confidence_smoothing self
  /\ smoothing_window self' = smoothing_window self.
Proof.
  rewrite update_state_unfold. cbv zeta.
  destruct (negb _ && negb _); [|repeat split; reflexivity].
  destruct (SpaceState_eqb new_state EMPTY && SpaceState_eqb (state self) OCCUPIED);
    [|repeat split; reflexivity].
  destruct (rev (state_history self)) as [|[p q] r]; repeat split; reflexivity.
Qed.

(** Whether the call moves the region between two known states. *)
Lemma update_state_appended_iff :
  appended (state_history self) (state_history self')
  <-> negb (SpaceState_eqb (state self) new_state)
      && negb (SpaceState_eqb (state self) UNKNOWN) = true.
Proof.
  destruct (SpaceState_eqb (state self) new_state) eqn:Hne;
    [|destruct (SpaceState_eqb (state self) UNKNOWN) eqn:Hun]; cbn [negb andb].
  - apply SpaceState_eqb_eq in Hne.
    destruct (update_state_not_logged (or_introl Hne)) as (Hh & _).
    rewrite Hh. split; [|discriminate].
    intros [e He]. exfalso. eapply app_singleton_neq. exact He.
  - apply SpaceState_eqb_eq in Hun.
    destruct (update_state_not_logged (or_intror Hun)) as (Hh & _).
    rewrite Hh. split; [|discriminate].
    intros [e He]. exfalso. eapply app_singleton_neq. exact He.
  - apply SpaceState_eqb_neq in Hne, Hun.
    destruct (update_state_logged Hne Hun) as (Hh & _).
    rewrite Hh. split; [reflexivity|]. intros _. eexists. reflexivity.
Qed.

End StateMachineFacts.

(** C2.  An [update_state] call appends an entry to [state_history] if and
    only if the new state differs from the state held before the call and
    that prior state was not Unknown; the entry is the call's timestamp with
    the new state.  So nothing is logged on a first classification (prior
    state Unknown), and a call that appends nothing leaves [state_history]
    and [last_change_time] as they were. *)
Theorem update_state_logs_iff {I R : Type} (now : datetime)
    (self : ParkingSpace I R) (is_occupied : bool) (timestamp : option datetime) :
  let self' := update_state now self is_occupied timestamp in
  (appended (state_history self) (state_history self')
     <-> (state_of is_occupied <> state self /\ state self <> UNKNOWN))
  /\ (appended (state_history self) (state_history self') ->
        state_history self'
        = state_history self
          ++ [(effective_timestamp now timestamp, state_of is_occupied)])
  /\ (state self = UNKNOWN ->
        ~ appended (state_history self) (state_history self'))
  /\ (~ appended (state_history self) (state_history self') ->
        state_history self' = state_history self
        /\ last_change_time self' = last_change_time self).
Proof.
  intro self'. subst self'.
  assert (Hno : forall l : list (datetime * SpaceState), ~ appended l l).
  { intros l [e He]. eapply app_singleton_neq. exact He. }
  destruct (SpaceState_eqb (state self) (state_of is_occupied)) eqn:Hne;
    [|destruct (SpaceState_eqb (state self) UNKNOWN) eqn:Hun].
  - apply SpaceState_eqb_eq in Hne.
    destruct (update_state_not_logged now self is_occupied timestamp
                (or_introl Hne)) as (Hh & Hl & _).
    rewrite Hh, Hl. specialize (Hno (state_history self)).
    repeat split; try tauto; try (intro; exfalso; tauto).
    intros [Hd _]. congruence.
  - apply SpaceState_eqb_eq in Hun.
    destruct (update_state_not_logged now self is_occupied timestamp
                (or_intror Hun)) as (Hh & Hl & _).
    rewrite Hh, Hl. specialize (Hno (state_history self)).
    repeat split; try tauto; try (intro; exfalso; tauto).
  - apply SpaceState_eqb_neq in Hne, Hun.
    destruct (update_state_logged now self is_occupied timestamp Hne Hun)
      as (Hh & _).
    rewrite Hh.
    assert (Happ : appended (state_history self)
                     (state_history self
                      ++ [(effective_timestamp now timestamp, state_of is_occupied)]))
      by (eexists; reflexivity).
    repeat split; try congruence; try tauto; try (intro; exfalso; tauto).
Qed.

Lemma update_state_logs_iff_witness :
  appended (state_history Examples.square_occupied)
    (state_history (update_state 0 Examples.square_occupied false (Some 100000000)))
  /\ state_history (update_state 0 Examples.square_occupied false (Some 100000000))
     = [(40000000, OCCUPIED); (100000000, EMPTY)].
Proof.
  pose proof (update_state_logs_iff 0 Examples.square_occupied false
                (Some 100000000)) as H.
  cbv zeta in H. destruct H as [Hiff [Hentry _]].
  assert (Ha : appended (state_history Examples.square_occupied)
                 (state_history
                    (update_state 0 Examples.square_occupied false (Some 100000000)))).
  { apply Hiff. split; simpl; discriminate. }
  split; [exact Ha | exact (Hentry Ha)].
Defined.

(** C5.  On an Occupied-to-Empty call after which the log holds at least
    two entries, [occupancy_duration] becomes the call's timestamp minus the
    timestamp of the transition logged just before, in seconds.  Every other
    call leaves [occupancy_duration] unchanged: an Occupied-to-Empty call
    whose entry is the first of the log, every Empty-to-Occupied call, and
    every call that logs nothing. *)
Theorem update_state_occupancy_duration {I R : Type} (now : datetime)
    (self : ParkingSpace I R) (is_occupied : bool) (timestamp : option datetime) :
  let self' := update_state now self is_occupied timestamp in
  (state self = OCCUPIED -> is_occupied = false ->
   (2 <= length (state_history self'))%nat ->
   exists earlier prev_timestamp prev_state,
     state_history self' =
       earlier ++ [(prev_timestamp, prev_state);
                   (effective_timestamp now timestamp, EMPTY)]
     /\ occupancy_duration self'
        = total_seconds (effective_timestamp now timestamp - prev_timestamp))
  /\ (~ (state self = OCCUPIED /\ is_occupied = false
         /\ (2 <= length (state_history self'))%nat) ->
      occupancy_duration self' = occupancy_duration self).
Proof.
  intro self'. subst self'. rewrite update_state_unfold. cbv zeta.
  destruct (state self) eqn:Es, is_occupied; cbn [state_of SpaceState_eqb negb andb];
    try (split; [intros; discriminate | intros _; reflexivity]).
  destruct (rev (state_history self)) as [|[p q] r] eqn:Er.
  - apply (f_equal (@rev _)) in Er. rewrite rev_involutive in Er. cbn in Er.
    split.
    + intros _ _ Hlen. cbn in Hlen. rewrite Er in Hlen. cbn in Hlen. lia.
    + intros _. reflexivity.
  - apply (f_equal (@rev _)) in Er. rewrite rev_involutive in Er. cbn in Er.
    split.
    + intros _ _ _. exists (rev r), p, q. cbn. rewrite Er, <- app_assoc.
      split; reflexivity.
    + intros Hn. exfalso. apply Hn. repeat split.
      cbn. rewrite Er, !length_app. simpl. lia.
Qed.

Lemma update_state_occupancy_duration_witness :
  exists earlier prev_timestamp prev_state,
    state_history (update_state 0 Examples.square_occupied false (Some 100000000))
    = earlier ++ [(prev_timestamp, prev_state); (100000000, EMPTY)]
    /\ occupancy_duration
         (update_state 0 Examples.square_occupied false (Some 100000000))
       = total_seconds (100000000 - prev_timestamp).
Proof.
  pose proof (update_state_occupancy_duration 0 Examples.square_occupied false
                (Some 100000000)) as H.
  cbv zeta in H. destruct H as [Hset _].
  apply Hset; [reflexivity | reflexivity | simpl; lia].
Defined.

(** ** The overlap evaluator *)

(** C8.  When the area of the region's polygon evaluates to zero,
    [bbox_intersection_ratio] returns 0.0 for every bounding box: it
    returns before the masks are built and before the division by the
    area. *)
Theorem bbox_intersection_ratio_zero_area {cv : OpenCV} {I : Type}
    (self : ParkingSpace I Q) (b : bbox) (space_area : Q) :
  get_area self = OK space_area -> (space_area == 0)%Q ->
  bbox_intersection_ratio self b = OK 0%Q.
Proof.
  intros Harea Hzero. unfold bbox_intersection_ratio.
  destruct b as [[[x1 y1] x2] y2]. rewrite Harea. cbn [bind].
  apply Qeq_bool_iff in Hzero. rewrite Hzero. reflexivity.
Qed.

Lemma bbox_intersection_ratio_zero_area_witness :
  bbox_intersection_ratio (cv := Reference.raster) Examples.segment (0, 0, 5, 10)
  = OK 0%Q.
Proof.
  apply (bbox_intersection_ratio_zero_area (cv := Reference.raster)
           Examples.segment (0, 0, 5, 10) (space_area := (0 # 2)%Q)).
  - reflexivity.
  - reflexivity.
Defined.

(** ** Facts on rationals used as floats *)

Lemma Qlt_bool_iff (x y : Q) : Qlt_bool x y = true <-> (x < y)%Q.
Proof.
  unfold Qlt_bool. rewrite negb_true_iff. split.
  - intros H. apply Qnot_le_lt. intro Hle. apply Qle_bool_iff in Hle. congruence.
  - intros H. destruct (Qle_bool y x) eqn:E; [|reflexivity].
    apply Qle_bool_iff in E. exfalso. exact (Qlt_not_le _ _ H E).
Qed.

Lemma Qlt_bool_compat (x x' y y' : Q) :
  (x == x')%Q -> (y == y')%Q -> Qlt_bool x y = Qlt_bool x' y'.
Proof.
  intros Hx Hy. apply eq_true_iff_eq. rewrite !Qlt_bool_iff, Hx, Hy. reflexivity.
Qed.

Lemma Qle_bool_compat (x x' y y' : Q) :
  (x == x')%Q -> (y == y')%Q -> Qle_bool x y = Qle_bool x' y'.
Proof.
  intros Hx Hy. apply eq_true_iff_eq. rewrite !Qle_bool_iff, Hx, Hy. reflexivity.
Qed.

Lemma raw_decision_compat {cv : OpenCV} (r m m' : Q) :
  (m == m')%Q -> raw_decision r m = raw_decision r m'.
Proof.
  intros Hm. unfold raw_decision. destruct (Qeq_bool r 0).
  - apply Qlt_bool_compat; [reflexivity | exact Hm].
  - apply Qle_bool_compat; [reflexivity | exact Hm].
Qed.

Lemma py_max_cases (a b : Q) :
  (py_max a b = a /\ (b <= a)%Q) \/ (py_max a b = b /\ (a < b)%Q).
Proof.
  unfold py_max. destruct (Qlt_bool a b) eqn:E.
  - right. split; [reflexivity | apply Qlt_bool_iff; exact E].
  - left. split; [reflexivity|].
    apply Qnot_lt_le. intro H. apply Qlt_bool_iff in H. congruence.
Qed.

Lemma fold_py_max_ge_acc (l : list Q) (acc : Q) : (acc <= fold_left py_max l acc)%Q.
Proof.
  revert acc. induction l as [|r l IH]; intro acc; simpl.
  - apply Qle_refl.
  - eapply Qle_trans; [|apply IH].
    destruct (py_max_cases acc r) as [[-> _] | [-> H]];
      [apply Qle_refl | apply Qlt_le_weak; exact H].
Qed.

Lemma fold_py_max_ge_elem (l : list Q) (acc : Q) :
  Forall (fun r => (r <= fold_left py_max l acc)%Q) l.
Proof.
  revert acc. induction l as [|r l IH]; intro acc; simpl; constructor.
  - eapply Qle_trans; [|apply fold_py_max_ge_acc].
    destruct (py_max_cases acc r) as [[-> H] | [-> _]];
      [exact H | apply Qle_refl].
  - apply IH.
Qed.

Lemma fold_py_max_in (l : list Q) (acc : Q) :
  fold_left py_max l acc = acc \/ In (fold_left py_max l acc) l.
Proof.
  revert acc. induction l as [|r l IH]; intro acc; simpl.
  - left. reflexivity.
  - destruct (IH (py_max acc r)) as [H | H].
    + rewrite H. destruct (py_max_cases acc r) as [[-> _] | [-> _]]; auto.
    + right. right. exact H.
Qed.

(** ** The raw decision *)

Lemma count_positive_row_ge (row : list Z) (acc : Z) :
  acc <= fold_left (fun acc px => if 0 <? px then acc + 1 else acc) row acc.
Proof.
  revert acc. induction row as [|px row IH]; intro acc; simpl; [lia|].
  destruct (0 <? px); [specialize (IH (acc + 1)) | specialize (IH acc)]; lia.
Qed.

Lemma count_positive_nonneg (m : mask) : 0 <= count_positive m.
Proof.
  unfold count_positive.
  assert (H : forall acc, acc <=
            fold_left (fun acc row =>
              fold_left (fun acc px => if 0 <? px then acc + 1 else acc) row acc)
            m acc).
  { induction m as [|row m IH]; intro acc; simpl; [lia|].
    eapply Z.le_trans; [apply (count_positive_row_ge row acc) | apply IH]. }
  apply H.
Qed.

Section RawDecisionFacts.

Context {cv : OpenCV} {I : Type}.

(** [cv2.contourArea] returns the absolute value of the area. *)
Hypothesis contourArea_nonneg :
  forall contour a, contourArea contour = OK a -> (0 <= a)%Q.

Lemma bbox_intersection_ratio_nonneg (self : ParkingSpace I Q) (b : bbox) (r : Q) :
  bbox_intersection_ratio self b = OK r -> (0 <= r)%Q.
Proof.
  unfold bbox_intersection_ratio, get_area. destruct b as [[[x1 y1] x2] y2].
  destruct (contourArea (polygon self)) as [a|e] eqn:Ea; cbn [bind]; [|discriminate].
  destruct (Qeq_bool a 0) eqn:Ez.
  - intros H. injection H as <-. apply Qle_refl.
  - destruct (column1 (polygon self)) as [ys|]; cbn [bind]; [|discriminate].
    destruct (np_amax ys) as [ymax|]; cbn [bind]; [|discriminate].
    destruct (column0 (polygon self)) as [xs|]; cbn [bind]; [|discriminate].
    destruct (np_amax xs) as [xmax|]; cbn [bind]; [|discriminate].
    destruct (np_zeros _ _) as [m0|]; cbn [bind]; [|discriminate].
    destruct (fillPoly m0 _ _) as [m1|]; cbn [bind]; [|discriminate].
    destruct (fillPoly (np_zeros_like m1) _ _) as [m2|]; cbn [bind]; [|discriminate].
    intros H. injection H as <-.
    pose proof (contourArea_nonneg _ Ea) as Ha.
    pose proof (count_positive_nonneg (bitwise_and m1 m2)) as Hc.
    assert (Hpos : (0 < a)%Q).
    { apply Qle_lteq in Ha. destruct Ha as [Ha | Ha]; [exact Ha|].
      symmetry in Ha. apply Qeq_bool_iff in Ha. congruence. }
    apply Qle_shift_div_l; [exact Hpos|].
    rewrite Qmult_0_l. change 0%Q with (inject_Z 0). rewrite <- Zle_Qle. exact Hc.
Qed.

(** The loop, on detections whose geometric tests return: it folds
    [py_max] over the ratios of the overlapping detections. *)
Lemma check_occupancy_loop_returns (self : ParkingSpace I Q)
    (detections : list (bbox * (Z * Z))) (evals : list (bool * Q)) :
  Forall2 (evaluates self) detections evals ->
  forall max_intersection vehicle_count,
  exists vehicle_count',
    check_occupancy_loop self detections max_intersection vehicle_count
    = OK (fold_left py_max (map snd (filter overlapping evals)) max_intersection,
          vehicle_count').
Proof.
  induction 1 as [|[b c] [inside r] detections evals [Hin Hr] _ IH];
    intros mx vc; simpl.
  - exists vc. reflexivity.
  - cbn [fst snd] in Hin, Hr. rewrite Hin, Hr. cbn [bind filter].
    assert (Ho : overlapping (inside, r) = Qlt_bool 0 r || inside) by reflexivity.
    rewrite Ho.
    destruct (Qlt_bool 0 r || inside); cbn [map fold_left snd].
    + destruct (Qlt_bool (min_occupancy_ratio self) r); apply IH.
    + apply IH.
Qed.

Lemma fold_py_max_is_max (evals : list (bool * Q)) (m : Q) :
  Forall (fun e => (0 <= snd e)%Q) evals ->
  is_max_ratio evals m ->
  (fold_left py_max (map snd (filter overlapping evals)) 0 == m)%Q.
Proof.
  intros Hnn Hmax. unfold is_max_ratio in Hmax. cbv zeta in Hmax.
  assert (Hnn' : Forall (fun r => (0 <= r)%Q) (map snd (filter overlapping evals))).
  { apply Forall_forall. intros r Hr. apply in_map_iff in Hr.
    destruct Hr as [e [<- He]]. apply filter_In in He. destruct He as [He _].
    rewrite Forall_forall in Hnn. apply Hnn. exact He. }
  set (ratios := map snd (filter overlapping evals)) in *.
  destruct Hmax as [[Hnil Hm] | [Hex Hall]].
  - rewrite Hnil. simpl. symmetry. exact Hm.
  - apply Qle_antisym.
    + destruct (fold_py_max_in ratios 0) as [H | H].
      * rewrite H. apply Exists_exists in Hex. destruct Hex as [r [Hr Hrm]].
        rewrite <- Hrm. rewrite Forall_forall in Hnn'. apply Hnn'. exact Hr.
      * rewrite Forall_forall in Hall. apply Hall. exact H.
    + apply Exists_exists in Hex. destruct Hex as [r [Hr Hrm]].
      rewrite <- Hrm.
      pose proof (fold_py_max_ge_elem ratios 0) as Hge.
      rewrite Forall_forall in Hge. apply Hge. exact Hr.
Qed.

End RawDecisionFacts.

Lemma ref_contourArea_nonneg (contour : ndarray) (a : Q) :
  Reference.ref_contourArea contour = OK a -> (0 <= a)%Q.
Proof.
  unfold Reference.ref_contourArea. destruct contour; [discriminate|].
  intros H. injection H as <-.
  apply Qle_shift_div_l; [reflexivity|].
  rewrite Qmult_0_l. change 0%Q with (inject_Z 0). rewrite <- Zle_Qle.
  apply Z.abs_nonneg.
Qed.

(** C4.  When the geometric tests return for every detection of the batch
    and [m] is the maximum intersection ratio over the detections with
    positive overlap or centroid inside (0 when there is none), the raw
    boolean that [check_occupancy] computes and hands to the smoothing
    stage is [m > 0] for a zero threshold and [m >= min_occupancy_ratio]
    otherwise. *)
Theorem check_occupancy_raw_rule {cv : OpenCV} {I : Type}
    (self : ParkingSpace I Q) (vehicle_bboxes : list bbox)
    (vehicle_centroids : list (Z * Z)) (evals : list (bool * Q)) (m : Q) :
  (forall contour a, contourArea contour = OK a -> (0 <= a)%Q) ->
  Forall2 (evaluates self) (combine vehicle_bboxes vehicle_centroids) evals ->
  is_max_ratio evals m ->
  exists raw vehicle_count,
    frame_raw self (vehicle_bboxes, vehicle_centroids) = OK raw
    /\ check_occupancy self vehicle_bboxes vehicle_centroids
       = OK (smooth (set_vehicle_count self vehicle_count) raw)
    /\ ((min_occupancy_ratio self == 0)%Q -> (raw = true <-> (0 < m)%Q))
    /\ (~ (min_occupancy_ratio self == 0)%Q ->
        (raw = true <-> (min_occupancy_ratio self <= m)%Q)).
Proof.
  intros Harea Hev Hmax.
  destruct (check_occupancy_loop_returns Hev 0%Q 0) as [vc Hloop].
  assert (Hnn : Forall (fun e => (0 <= snd e)%Q) evals).
  { clear Hloop Hmax. induction Hev as [|d e ds es [_ Hr] _ IH]; constructor.
    - exact (bbox_intersection_ratio_nonneg Harea _ _ Hr).
    - exact IH. }
  pose proof (fold_py_max_is_max Hnn Hmax) as Hfold.
  set (mx := fold_left py_max (map snd (filter overlapping evals)) 0%Q) in *.
  exists (raw_decision (min_occupancy_ratio self) mx), vc.
  split; [|split; [|split]].
  - unfold frame_raw. cbn [fst snd]. rewrite Hloop. reflexivity.
  - unfold check_occupancy. rewrite Hloop. reflexivity.
  - intros Hz. rewrite (raw_decision_compat _ Hfold). unfold raw_decision.
    apply Qeq_bool_iff in Hz. rewrite Hz. apply Qlt_bool_iff.
  - intros Hnz. rewrite (raw_decision_compat _ Hfold). unfold raw_decision.
    destruct (Qeq_bool (min_occupancy_ratio self) 0) eqn:Ez.
    + apply Qeq_bool_iff in Ez. contradiction.
    + apply Qle_bool_iff.
Qed.

Lemma check_occupancy_raw_rule_witness :
  exists raw vehicle_count,
    frame_raw (cv := Reference.raster) Examples.square ([(0, 0, 5, 10)], [(2, 5)])
    = OK raw
    /\ check_occupancy (cv := Reference.raster) Examples.square
         [(0, 0, 5, 10)] [(2, 5)]
       = OK (smooth (set_vehicle_count Examples.square vehicle_count) raw)
    /\ ((min_occupancy_ratio Examples.square == 0)%Q ->
        (raw = true <-> (0 < 132 # 200)%Q))
    /\ (~ (min_occupancy_ratio Examples.square == 0)%Q ->
        (raw = true <-> (min_occupancy_ratio Examples.square <= 132 # 200)%Q)).
Proof.
  apply (@check_occupancy_raw_rule Reference.raster Z Examples.square
           [(0, 0, 5, 10)] [(2, 5)] [(true, (132 # 200)%Q)] (132 # 200)%Q).
  - exact ref_contourArea_nonneg.
  - constructor; [|constructor]. split; vm_compute; reflexivity.
  - right. split.
    + constructor. reflexivity.
    + constructor; [|constructor]. apply Qle_refl.
Defined.

(** ** Temporal smoothing *)

Lemma lastn_short {A : Type} (n : nat) (l : list A) :
  (length l <= n)%nat -> lastn n l = l.
Proof.
  intros H. unfold lastn. replace (length l - n)%nat with 0%nat by lia. reflexivity.
Qed.

Lemma lastn_length {A : Type} (n : nat) (l : list A) :
  length (lastn n l) = Nat.min n (length l).
Proof. unfold lastn. rewrite length_skipn. lia. Qed.

Lemma lastn_app_lastn {A : Type} (n : nat) (l l2 : list A) :
  lastn n (lastn n l ++ l2) = lastn n (l ++ l2).
Proof.
  destruct (Nat.le_gt_cases (length l) n) as [H | H].
  - rewrite (lastn_short l H). reflexivity.
  - unfold lastn. rewrite !length_app, length_skipn.
    replace (length l - (length l - n) + length l2 - n)%nat
      with (length l2) by lia.
    replace (length l + length l2 - n)%nat
      with (length l2 + (length l - n))%nat by lia.
    rewrite <- skipn_skipn. f_equal.
    rewrite skipn_app.
    replace (length l - n - length l)%nat with 0%nat by lia. reflexivity.
Qed.

(** On a full window the oldest sample leaves and the new one enters. *)
Lemma lastn_snoc_full {A : Type} (w : list A) (x : A) :
  length w = 5%nat -> lastn 5 (w ++ [x]) = tl w ++ [x].
Proof.
  intros H. unfold lastn. rewrite length_app. simpl length.
  replace (length w + 1 - 5)%nat with 1%nat by lia.
  destruct w; [discriminate | reflexivity].
Qed.

Section SmoothingFacts.

Context {cv : OpenCV} {I : Type}.

Lemma smooth_spec (self : ParkingSpace I Q) (raw : bool) :
  smoothing_window self = 5%nat ->
  (length (confidence_smoothing self) <= 5)%nat ->
  smooth self raw
  = (smoothed (lastn 5 (confidence_smoothing self ++ [sample raw])) raw,
     set_confidence_smoothing self
       (lastn 5 (confidence_smoothing self ++ [sample raw]))).
Proof.
  intros Hw Hlen. unfold smooth, smoothed.
  cbn [smoothing_window confidence_smoothing set_confidence_smoothing].
  rewrite Hw. fold (sample raw).
  destruct (confidence_smoothing self) as [|a [|b [|c [|d [|e [|f w]]]]]];
    try reflexivity.
  simpl in Hlen. lia.
Qed.

Lemma check_occupancy_loop_ext (s1 s2 : ParkingSpace I Q) :
  polygon s1 = polygon s2 -> min_occupancy_ratio s1 = min_occupancy_ratio s2 ->
  forall detections max_intersection vehicle_count,
    check_occupancy_loop s1 detections max_intersection vehicle_count
    = check_occupancy_loop s2 detections max_intersection vehicle_count.
Proof.
  intros Hp Hm. induction detections as [|[b c] rest IH]; intros mx vc; simpl.
  - reflexivity.
  - unfold point_inside, bbox_intersection_ratio, get_area.
    rewrite Hp, Hm.
    destruct (pointPolygonTest _ _ _); cbn [bind]; [|reflexivity].
    destruct b as [[[x1 y1] x2] y2].
    match goal with
    | |- bind ?r _ = bind ?r _ => destruct r as [ratio|]; cbn [bind]; [|reflexivity]
    end.
    destruct (_ || _); [destruct (Qlt_bool _ _)|]; apply IH.
Qed.

Lemma frame_raw_ext (s1 s2 : ParkingSpace I Q) frame :
  polygon s1 = polygon s2 -> min_occupancy_ratio s1 = min_occupancy_ratio s2 ->
  frame_raw s1 frame = frame_raw s2 frame.
Proof.
  intros Hp Hm. unfold frame_raw.
  rewrite (@check_occupancy_loop_ext s1 s2 Hp Hm), Hm. reflexivity.
Qed.

(** One call: it returns exactly when the frame has a raw decision, and
    then smooths that decision. *)
Lemma check_occupancy_frame_raw (self : ParkingSpace I Q) frame (raw : bool) :
  frame_raw self frame = OK raw ->
  exists vehicle_count,
    check_occupancy self (fst frame) (snd frame)
    = OK (smooth (set_vehicle_count self vehicle_count) raw).
Proof.
  unfold frame_raw, check_occupancy.
  destruct (check_occupancy_loop self _ _ _) as [[mx vc]|]; cbn [bind];
    [|discriminate].
  intros H. injection H as <-. exists vc. reflexivity.
Qed.

End SmoothingFacts.

(** The two facts the smoothing needs of a region hold at construction and
    after every call of the region's methods. *)
Lemma smoothing_invariant_init {I : Type} (space_id : I) (polygon : list point)
    (min_occupancy_ratio : Q) :
  let s := ParkingSpace_init space_id polygon min_occupancy_ratio in
  smoothing_window s = 5%nat /\ (length (confidence_smoothing s) <= 5)%nat.
Proof. split; [reflexivity | simpl; lia]. Qed.

Lemma smoothing_invariant_update_state {I : Type} (now : datetime)
    (s : ParkingSpace I Q) (is_occupied : bool) (timestamp : option datetime) :
  smoothing_window s = 5%nat /\ (length (confidence_smoothing s) <= 5)%nat ->
  let s' := update_state now s is_occupied timestamp in
  smoothing_window s' = 5%nat /\ (length (confidence_smoothing s') <= 5)%nat.
Proof.
  intros [Hw Hlen] s'.
  destruct (update_state_fields now s is_occupied timestamp)
    as (_ & _ & _ & _ & _ & Hc & Hs).
  subst s'. rewrite Hc, Hs. split; assumption.
Qed.

Lemma smoothing_invariant_check_occupancy {cv : OpenCV} {I : Type}
    (s s' : ParkingSpace I Q) bboxes centroids (decision : bool) :
  smoothing_window s = 5%nat /\ (length (confidence_smoothing s) <= 5)%nat ->
  check_occupancy s bboxes centroids = OK (decision, s') ->
  smoothing_window s' = 5%nat /\ (length (confidence_smoothing s') <= 5)%nat.
Proof.
  intros [Hw Hlen]. unfold check_occupancy.
  destruct (check_occupancy_loop s _ _ _) as [[mx vc]|]; cbn [bind]; [|discriminate].
  rewrite smooth_spec by assumption.
  intros H. injection H as _ <-.
  cbn [smoothing_window confidence_smoothing set_confidence_smoothing
       set_vehicle_count].
  split; [exact Hw|]. rewrite lastn_length. lia.
Qed.

Section SmoothingRun.

Context {cv : OpenCV} {I : Type}.
Variable base : ParkingSpace I Q.

Lemma check_occupancy_frames_run frames raws :
  Forall2 (fun frame raw => frame_raw base frame = OK raw) frames raws ->
  forall s : ParkingSpace I Q,
    polygon s = polygon base ->
    min_occupancy_ratio s = min_occupancy_ratio base ->
    smoothing_window s = 5%nat ->
    (length (confidence_smoothing s) <= 5)%nat ->
    exists decisions s',
      check_occupancy_frames s frames = OK (decisions, s')
      /\ confidence_smoothing s'
         = lastn 5 (confidence_smoothing s ++ map sample raws)
      /\ length decisions = length raws
      /\ forall k raw,
           nth_error raws k = Some raw ->
           nth_error decisions k
           = Some (smoothed
                     (lastn 5 (confidence_smoothing s
                               ++ map sample (firstn (S k) raws)))
                     raw).
Proof.
  induction 1 as [|frame raw frames raws Hraw _ IH]; intros s Hp Hm Hw Hlen.
  - exists [], s. cbn [check_occupancy_frames map]. rewrite app_nil_r.
    rewrite (lastn_short _ Hlen). repeat split.
    intros [|k] raw H; discriminate.
  - rewrite <- (@frame_raw_ext _ _ s base frame Hp Hm) in Hraw.
    destruct (check_occupancy_frame_raw _ _ Hraw) as [vc Hcall].
    rewrite smooth_spec in Hcall by assumption.
    cbn [confidence_smoothing set_vehicle_count] in Hcall.
    set (w1 := lastn 5 (confidence_smoothing s ++ [sample raw])) in *.
    set (s1 := set_confidence_smoothing (set_vehicle_count s vc) w1) in *.
    assert (Hlen1 : (length (confidence_smoothing s1) <= 5)%nat).
    { subst s1. cbn [confidence_smoothing set_confidence_smoothing].
      subst w1. rewrite lastn_length. lia. }
    destruct (IH s1 Hp Hm Hw Hlen1) as (ds & s' & Hrun & Hwin & Hlen' & Hdec).
    exists (smoothed w1 raw :: ds), s'.
    cbn [check_occupancy_frames]. rewrite Hcall. cbn [bind]. rewrite Hrun.
    cbn [bind]. split; [reflexivity|].
    assert (Hshift : forall rest,
               lastn 5 (confidence_smoothing s1 ++ rest)
               = lastn 5 (confidence_smoothing s ++ sample raw :: rest)).
    { intro rest. subst s1. cbn [confidence_smoothing set_confidence_smoothing].
      subst w1. rewrite lastn_app_lastn, <- app_assoc. reflexivity. }
    split; [|split].
    + rewrite Hwin. cbn [map]. apply Hshift.
    + cbn [length]. rewrite Hlen'. reflexivity.
    + intros [|k] r Hr.
      * cbn in Hr. injection Hr as <-. reflexivity.
      * cbn [nth_error] in Hr |- *. rewrite (Hdec k r Hr).
        rewrite Hshift. reflexivity.
Qed.

End SmoothingRun.

(** C3.  Over any sequence of frames whose raw decisions are [raws], the
    calls of [check_occupancy] return; the smoothing window after the last
    call holds the last five samples pushed (the older ones left in the
    order they came), never more than 5; and the decision returned for
    frame [k] is that frame's raw boolean while the window, the frame's
    sample included, holds fewer than 3 samples, and [mean(window) >= 0.5]
    from 3 samples on. *)
Theorem check_occupancy_smoothing {cv : OpenCV} {I : Type}
    (self : ParkingSpace I Q) (frames : list (list bbox * list (Z * Z)))
    (raws : list bool) :
  smoothing_window self = 5%nat ->
  (length (confidence_smoothing self) <= 5)%nat ->
  Forall2 (fun frame raw => frame_raw self frame = OK raw) frames raws ->
  exists decisions self',
    check_occupancy_frames self frames = OK (decisions, self')
    /\ confidence_smoothing self'
       = lastn 5 (confidence_smoothing self ++ map sample raws)
    /\ (length (confidence_smoothing self') <= 5)%nat
    /\ length decisions = length frames
    /\ forall k raw,
         nth_error raws k = Some raw ->
         let window :=
           lastn 5 (confidence_smoothing self ++ map sample (firstn (S k) raws)) in
         nth_error decisions k
         = Some (if (length window <? 3)%nat then raw
                 else Qle_bool (1 # 2) (np_mean window)).
Proof.
  intros Hw Hlen Hraws.
  destruct (@check_occupancy_frames_run cv I self frames raws Hraws self
              eq_refl eq_refl Hw Hlen)
    as (ds & s' & Hrun & Hwin & Hlen' & Hdec).
  exists ds, s'. split; [exact Hrun|]. split; [exact Hwin|]. split; [|split].
  - rewrite Hwin, lastn_length. lia.
  - rewrite Hlen'. symmetry. exact (Forall2_length Hraws).
  - intros k raw Hk. cbv zeta. rewrite (Hdec k raw Hk). reflexivity.
Qed.

Lemma check_occupancy_smoothing_witness :
  exists decisions self',
    check_occupancy_frames (cv := Reference.raster) Examples.square
      Examples.seven_frames = OK (decisions, self')
    /\ confidence_smoothing self'
       = lastn 5 (confidence_smoothing Examples.square
                  ++ map sample Examples.seven_raws)
    /\ (length (confidence_smoothing self') <= 5)%nat
    /\ length decisions = length Examples.seven_frames
    /\ forall k raw,
         nth_error Examples.seven_raws k = Some raw ->
         let window :=
           lastn 5 (confidence_smoothing Examples.square
                    ++ map sample (firstn (S k) Examples.seven_raws)) in
         nth_error decisions k
         = Some (if (length window <? 3)%nat then raw
                 else Qle_bool (1 # 2) (np_mean window)).
Proof.
  apply (@check_occupancy_smoothing Reference.raster Z Examples.square
           Examples.seven_frames Examples.seven_raws).
  - reflexivity.
  - simpl. lia.
  - repeat constructor; vm_compute; reflexivity.
Defined.

(** ** The coordinator *)

Section CoordinatorFacts.

Context {cv : OpenCV} {I : Type}.

Lemma smooth_preserves (s : ParkingSpace I Q) (raw : bool) :
  space_id (snd (smooth s raw)) = space_id s
  /\ state (snd (smooth s raw)) = state s
  /\ state_history (snd (smooth s raw)) = state_history s.
Proof.
  unfold smooth.
  cbn [smoothing_window confidence_smoothing set_confidence_smoothing].
  destruct (_ <? _)%nat;
    cbn [smoothing_window confidence_smoothing set_confidence_smoothing];
    destruct (3 <=? _)%nat; repeat split; reflexivity.
Qed.

Lemma check_occupancy_preserves (s s' : ParkingSpace I Q) bboxes centroids d :
  check_occupancy s bboxes centroids = OK (d, s') ->
  space_id s' = space_id s /\ state s' = state s
  /\ state_history s' = state_history s.
Proof.
  unfold check_occupancy.
  destruct (check_occupancy_loop s _ _ _) as [[mx vc]|]; cbn [bind]; [|discriminate].
  intros H. injection H as H.
  pose proof (smooth_preserves (set_vehicle_count s vc)
                (raw_decision (min_occupancy_ratio (set_vehicle_count s vc)) mx))
    as Hp.
  cbn [min_occupancy_ratio set_vehicle_count] in Hp. rewrite H in Hp. exact Hp.
Qed.

Lemma stamped_weaken clock timestamp (t0 t1 t2 : nat) (e : StateChange I) :
  (t0 <= t1)%nat -> stamped clock timestamp t1 t2 e -> stamped clock timestamp t0 t2 e.
Proof.
  unfold stamped. destruct timestamp; [tauto|].
  intros Hle [k [Hk He]]. exists k. split; [lia | exact He].
Qed.

Lemma update_all_loop_spec (clock : nat -> datetime) bboxes centroids timestamp
    (todo : list (ParkingSpace I Q)) :
  Forall (fun s => returns (check_occupancy s bboxes centroids)) todo ->
  forall tick acc,
  exists new todo' tick',
    update_all_loop clock tick todo bboxes centroids timestamp acc
    = OK (acc ++ new, todo', tick')
    /\ (tick <= tick')%nat
    /\ Forall2 region_step todo todo'
    /\ map event_summary new = due_events todo todo'
    /\ Forall (stamped clock timestamp tick tick') new.
Proof.
  induction 1 as [|space rest [[d sp1] Hcall] _ IH]; intros tick acc.
  - exists [], [], tick. cbn [update_all_loop]. rewrite app_nil_r.
    repeat split; constructor.
  - cbn [update_all_loop]. rewrite Hcall. cbn [bind].
    destruct (check_occupancy_preserves _ _ _ Hcall) as (Hid & Hst & Hh).
    set (tick1 := match timestamp with None => S tick | Some _ => tick end).
    set (sp2 := update_state (clock tick) sp1 d timestamp).
    destruct (update_state_fields (clock tick) sp1 d timestamp)
      as (Hst2 & _ & Hid2 & _).
    fold sp2 in Hst2, Hid2.
    pose proof (update_state_appended_iff (clock tick) sp1 d timestamp) as Happ.
    fold sp2 in Happ. rewrite <- Hst2 in Happ.
    assert (Hstep : region_step space sp2).
    { split; [congruence|]. unfold changed. rewrite <- Hh, <- Hst. exact Happ. }
    assert (Hch : negb (SpaceState_eqb (state sp1) (state sp2))
                  && negb (SpaceState_eqb (state sp1) UNKNOWN)
                  = changed space sp2).
    { unfold changed. rewrite Hst. reflexivity. }
    rewrite Hch.
    assert (Hle1 : (tick <= tick1)%nat) by (subst tick1; destruct timestamp; lia).
    destruct (changed space sp2) eqn:Ec.
    + set (ev := {| sc_space_id := space_id sp2;
                    sc_old_state := SpaceState_value (state sp1);
                    sc_new_state := SpaceState_value (state sp2);
                    sc_timestamp := match timestamp with
                                    | Some t => t
                                    | None => clock tick1
                                    end |}).
      set (tick2 := match timestamp with None => S tick1 | Some _ => tick1 end).
      assert (Hle2 : (tick1 <= tick2)%nat) by (subst tick2; destruct timestamp; lia).
      destruct (IH tick2 (acc ++ [ev]))
        as (new & todo' & tick' & Hrun & Hle & Hsteps & Hsum & Hstamp).
      exists (ev :: new), (sp2 :: todo'), tick'.
      rewrite Hrun. cbn [bind]. rewrite <- app_assoc. cbn [app].
      split; [reflexivity|]. split; [lia|]. split; [constructor; assumption|].
      split.
      * unfold due_events. cbn [combine filter fst snd]. rewrite Ec.
        cbn [map fst snd]. fold (due_events rest todo'). rewrite <- Hsum.
        unfold event_summary at 1. cbn [sc_space_id sc_old_state sc_new_state ev].
        rewrite Hid2, Hid, Hst. reflexivity.
      * constructor.
        -- unfold stamped. subst ev. cbn [sc_timestamp].
           destruct timestamp; [reflexivity|].
           exists tick1. split; [|reflexivity]. subst tick2. lia.
        -- eapply Forall_impl; [|exact Hstamp].
           intros e He. eapply stamped_weaken; [|exact He]. lia.
    + destruct (IH tick1 acc)
        as (new & todo' & tick' & Hrun & Hle & Hsteps & Hsum & Hstamp).
      exists new, (sp2 :: todo'), tick'.
      rewrite Hrun. cbn [bind].
      split; [reflexivity|]. split; [lia|]. split; [constructor; assumption|].
      split.
      * unfold due_events. cbn [combine filter fst snd]. rewrite Ec.
        fold (due_events rest todo'). exact Hsum.
      * eapply Forall_impl; [|exact Hstamp].
        intros e He. eapply stamped_weaken; [|exact He]. lia.
Qed.

End CoordinatorFacts.

(** C9.  When the occupancy decision returns for every region, [update_all]
    returns; every region keeps its identifier and appended to its log
    exactly when its state changed on this call from a known prior state;
    and the events returned are, in the order of the regions, one event per
    such region and no other, each carrying the region's identifier, its
    old and new state and the call's timestamp (a reading of the clock made
    during the call when no timestamp is passed). *)
Theorem update_all_events {cv : OpenCV} {I : Type} (clock : nat -> datetime)
    (tick : nat) (self : ParkingSpaceManager I) (vehicle_bboxes : list bbox)
    (vehicle_centroids : list (Z * Z)) (vehicle_classes : list string)
    (timestamp : option datetime) :
  Forall (fun s => returns (check_occupancy s vehicle_bboxes vehicle_centroids))
         (spaces self) ->
  exists state_changes self' tick',
    update_all clock tick self vehicle_bboxes vehicle_centroids vehicle_classes
      timestamp = OK (state_changes, self', tick')
    /\ total_spaces self' = total_spaces self
    /\ Forall2 region_step (spaces self) (spaces self')
    /\ map event_summary state_changes = due_events (spaces self) (spaces self')
    /\ Forall (stamped clock timestamp tick tick') state_changes.
Proof.
  intros Hret.
  destruct (@update_all_loop_spec cv I clock vehicle_bboxes vehicle_centroids
              timestamp (spaces self) Hret tick [])
    as (new & todo' & tick' & Hrun & _ & Hsteps & Hsum & Hstamp).
  exists new, {| spaces := todo'; total_spaces := total_spaces self |}, tick'.
  unfold update_all. rewrite Hrun. cbn [bind app spaces total_spaces].
  repeat split; assumption.
Qed.

Lemma update_all_events_witness :
  exists state_changes self' tick',
    update_all (cv := Reference.raster) Examples.seconds_clock 0 Examples.session
      [] [] [] (Some 100000000) = OK (state_changes, self', tick')
    /\ total_spaces self' = total_spaces Examples.session
    /\ Forall2 region_step (spaces Examples.session) (spaces self')
    /\ map event_summary state_changes
       = due_events (spaces Examples.session) (spaces self')
    /\ Forall (stamped Examples.seconds_clock (Some 100000000) 0 tick')
         state_changes.
Proof.
  apply (@update_all_events Reference.raster Z Examples.seconds_clock 0
           Examples.session [] [] [] (Some 100000000)).
  repeat constructor; eexists; vm_compute; reflexivity.
Defined.

(** ** Counts and snapshots *)

Lemma sum_of_ones {A : Type} (l : list A) (acc : Z) :
  fold_left Z.add (map (fun _ => 1) l) acc = acc + Z.of_nat (length l).
Proof.
  revert acc. induction l as [|a l IH]; intro acc.
  - simpl. lia.
  - cbn [map fold_left length]. rewrite IH. lia.
Qed.

Lemma count_in_state_total {I : Type} (regions : list (ParkingSpace I Q)) :
  (count_in_state EMPTY regions + count_in_state OCCUPIED regions
   + count_in_state UNKNOWN regions = length regions)%nat.
Proof.
  unfold count_in_state. induction regions as [|s regions IH]; [reflexivity|].
  cbn [filter length]. destruct (state s); cbn [SpaceState_eqb length]; lia.
Qed.

(** C10.  [log_metrics] appends one snapshot whose total is
    [empty_count + occupied_count] and whose occupancy rate is
    [occupied_count / (empty_count + occupied_count)] when that sum is
    positive and 0.0 when it is zero.  [get_counts] counts the Empty and
    the Occupied regions only, so together they fall short of the number
    of regions by the regions still Unknown; and there is a session in
    which the snapshot's total is below [total_spaces] and its rate is
    not the coordinator's [get_occupancy_rate]. *)
Theorem log_metrics_snapshot :
  (forall (self : Logger.ParkingLogger) (timestamp : datetime)
          (empty_count occupied_count : Z),
     exists snapshot,
       Logger.metrics_history
         (Logger.log_metrics self timestamp empty_count occupied_count)
       = Logger.metrics_history self ++ [snapshot]
       /\ Logger.met_timestamp snapshot = timestamp
       /\ Logger.met_empty snapshot = empty_count
       /\ Logger.met_occupied snapshot = occupied_count
       /\ Logger.met_total snapshot = empty_count + occupied_count
       /\ (0 < empty_count + occupied_count ->
           Logger.met_occupancy_rate snapshot
           = (inject_Z occupied_count / inject_Z (empty_count + occupied_count))%Q)
       /\ (empty_count + occupied_count = 0 ->
           Logger.met_occupancy_rate snapshot = 0%Q))
  /\ (forall (I : Type) (manager : ParkingSpaceManager I),
        get_counts manager
        = (Z.of_nat (count_in_state EMPTY (spaces manager)),
           Z.of_nat (count_in_state OCCUPIED (spaces manager)))
        /\ (count_in_state EMPTY (spaces manager)
            + count_in_state OCCUPIED (spaces manager)
            + count_in_state UNKNOWN (spaces manager)
            = length (spaces manager))%nat)
  /\ (exists (manager : ParkingSpaceManager Z) (snapshot : Logger.metric),
        Logger.metrics_history
          (Logger.log_metrics (Logger.ParkingLogger_init None) 50000000
             (fst (get_counts manager)) (snd (get_counts manager)))
        = [snapshot]
        /\ Logger.met_total snapshot < Z.of_nat (total_spaces manager)
        /\ ~ (Logger.met_occupancy_rate snapshot == get_occupancy_rate manager)%Q).
Proof.
  split; [|split].
  - intros self timestamp empty_count occupied_count.
    eexists. unfold Logger.log_metrics. cbn [Logger.metrics_history].
    split; [reflexivity|].
    cbn [Logger.met_timestamp Logger.met_empty Logger.met_occupied
         Logger.met_total Logger.met_occupancy_rate].
    repeat split.
    + intros Hpos. apply Z.ltb_lt in Hpos. rewrite Hpos. reflexivity.
    + intros Hz. rewrite Hz. reflexivity.
  - intros I manager. split.
    + unfold get_counts, count_in_state. rewrite !sum_of_ones. reflexivity.
    + apply count_in_state_total.
  - exists Examples.early_session. eexists. split; [reflexivity|].
    split; [reflexivity|]. vm_compute. discriminate.
Qed.

(** ** The metrics engine *)

Module LoggerFacts.

Import Logger.

Lemma max_timestamp_ge_first (others : list datetime) (first : datetime) :
  first <= max_timestamp first others.
Proof.
  unfold max_timestamp. revert first.
  induction others as [|t others IH]; intro first; simpl; [lia|].
  specialize (IH (Z.max first t)). lia.
Qed.

Lemma max_timestamp_ge (others : list datetime) (first : datetime) :
  Forall (fun t => t <= max_timestamp first others) (first :: others).
Proof.
  constructor; [apply max_timestamp_ge_first|].
  unfold max_timestamp. revert first.
  induction others as [|t others IH]; intro first; simpl; constructor.
  - pose proof (max_timestamp_ge_first others (Z.max first t)) as H.
    unfold max_timestamp in H. lia.
  - apply IH.
Qed.

Lemma max_timestamp_in (others : list datetime) (first : datetime) :
  In (max_timestamp first others) (first :: others).
Proof.
  unfold max_timestamp. revert first.
  induction others as [|t others IH]; intro first; simpl; [auto|].
  destruct (IH (Z.max first t)) as [H | H].
  - rewrite <- H.
    destruct (Z.max_spec first t) as [[_ E] | [_ E]]; rewrite E; auto.
  - tauto.
Qed.

Lemma is_latest_max (c0 : change_record) (others : list change_record)
    (latest : datetime) :
  is_latest (c0 :: others) latest ->
  latest = max_timestamp (chg_timestamp c0) (map chg_timestamp others).
Proof.
  intros [Hin Hall].
  pose proof (max_timestamp_ge (map chg_timestamp others) (chg_timestamp c0)) as Hge.
  pose proof (max_timestamp_in (map chg_timestamp others) (chg_timestamp c0)) as Hmem.
  change (chg_timestamp c0 :: map chg_timestamp others)
    with (map chg_timestamp (c0 :: others)) in Hge, Hmem.
  rewrite Forall_forall in Hge. specialize (Hge _ Hin).
  apply in_map_iff in Hmem. destruct Hmem as [c [Hc Hcin]].
  rewrite Forall_forall in Hall. specialize (Hall _ Hcin). lia.
Qed.

Lemma hours_positive (w : Z) :
  Qlt_bool 0 (inject_Z w / 60) = true <-> 0 < w.
Proof.
  rewrite Qlt_bool_iff. unfold Qlt, Qdiv, Qmult, Qinv, inject_Z. simpl. lia.
Qed.

Lemma compute_turnover_rate_scoped (self : ParkingLogger) (space_id : option Z)
    (w : Z) (c0 : change_record) (others : list change_record) :
  filter (in_scope space_id) (state_changes self) = c0 :: others ->
  compute_turnover_rate self space_id w
  = let latest := max_timestamp (chg_timestamp c0) (map chg_timestamp others) in
    let recent :=
      filter (fun c => latest - Timedelta_minutes w <=? chg_timestamp c)
             (c0 :: others) in
    if Qlt_bool 0 (inject_Z w / 60)
    then (inject_Z (Z.of_nat (length recent)) / (inject_Z w / 60))%Q
    else 0%Q.
Proof.
  intros Hscope. unfold compute_turnover_rate.
  destruct (state_changes self) as [|c cs] eqn:Ecs; [discriminate|].
  fold (in_scope space_id). rewrite Hscope. reflexivity.
Qed.

(** C6.  [compute_turnover_rate] returns 0.0 when no event exists or none
    matches the region filter.  Otherwise, with [latest] the maximum
    timestamp of the events in scope, it returns the number of events in
    scope whose timestamp lies in [[latest - window, latest]], divided by
    [window_minutes / 60]; a window of zero minutes, for which the quotient
    has no value, is left aside (the function returns 0.0 there).  Four
    events at minutes 5, 20, 40 and 59 give 4.0 for a window of 60
    minutes. *)
Theorem compute_turnover_rate_spec (self : ParkingLogger) (space_id : option Z)
    (time_window_minutes : Z) :
  let scope := filter (in_scope space_id) (state_changes self) in
  (scope = [] -> compute_turnover_rate self space_id time_window_minutes = 0%Q)
  /\ (forall latest,
        is_latest scope latest -> time_window_minutes <> 0 ->
        (compute_turnover_rate self space_id time_window_minutes
         == inject_Z (Z.of_nat
                        (length (filter (within_window latest time_window_minutes)
                                        scope)))
            / (inject_Z time_window_minutes / 60))%Q)
  /\ (compute_turnover_rate Examples.four_events None 60%Z == 4)%Q.
Proof.
  intro scope. split; [|split].
  - intros Hnil. unfold compute_turnover_rate.
    destruct (state_changes self) as [|c cs] eqn:Ecs; [reflexivity|].
    fold (in_scope space_id). subst scope. rewrite Hnil. reflexivity.
  - intros latest Hlatest Hw.
    destruct scope as [|c0 others] eqn:Escope.
    { destruct Hlatest as [[] _]. }
    rewrite (compute_turnover_rate_scoped self space_id time_window_minutes Escope).
    cbv zeta. rewrite <- (is_latest_max Hlatest).
    assert (Hfilter :
              filter (fun c => latest - Timedelta_minutes time_window_minutes
                               <=? chg_timestamp c) (c0 :: others)
              = filter (within_window latest time_window_minutes) (c0 :: others)).
    { apply filter_ext_in. intros c Hc. unfold within_window, Timedelta_minutes.
      destruct Hlatest as [_ Hall]. rewrite Forall_forall in Hall.
      specialize (Hall c Hc). apply Z.leb_le in Hall. rewrite Hall, andb_true_r.
      f_equal. lia. }
    rewrite Hfilter.
    destruct (Qlt_bool 0 (inject_Z time_window_minutes / 60)) eqn:Eh.
    + reflexivity.
    + assert (Hneg : time_window_minutes < 0).
      { destruct (Z.lt_trichotomy time_window_minutes 0) as [H | [H | H]];
          [exact H | contradiction |].
        apply hours_positive in H. congruence. }
      assert (Hnone : filter (within_window latest time_window_minutes)
                        (c0 :: others) = []).
      { rewrite <- (filter_ext_in (fun _ => false)).
        - clear. induction (c0 :: others); simpl; auto.
        - intros c _. unfold within_window. symmetry. apply andb_false_iff.
          destruct (latest - time_window_minutes * 60 * 1000000 <=? chg_timestamp c)
            eqn:E1; [right | left; reflexivity].
          apply Z.leb_le in E1. apply Z.leb_gt. lia. }
      rewrite Hnone. cbn [length Z.of_nat]. unfold Qdiv. rewrite Qmult_0_l.
      reflexivity.
  - vm_compute. reflexivity.
Qed.

Lemma compute_turnover_rate_spec_witness :
  (compute_turnover_rate Examples.four_events (Some 2%Z) 30%Z
   == inject_Z (Z.of_nat
                  (length (filter (within_window (Examples.minutes 59%Z) 30%Z)
                             (filter (in_scope (Some 2%Z))
                                (state_changes Examples.four_events)))))
      / (inject_Z 30%Z / 60))%Q.
Proof.
  refine (proj1 (proj2 (compute_turnover_rate_spec Examples.four_events (Some 2) 30))
            (Examples.minutes 59) _ _).
  - split; [vm_compute; auto | repeat constructor; vm_compute; discriminate].
  - discriminate.
Defined.

(** A window that is not positive counts nothing. *)
Lemma compute_turnover_rate_no_window (self : ParkingLogger) (space_id : option Z)
    (time_window_minutes : Z) :
  time_window_minutes <= 0 ->
  compute_turnover_rate self space_id time_window_minutes = 0%Q.
Proof.
  intros Hw. unfold compute_turnover_rate.
  destruct (state_changes self); [reflexivity|].
  destruct (filter _ _); [reflexivity|].
  destruct (Qlt_bool 0 (inject_Z time_window_minutes / 60)) eqn:E; [|reflexivity].
  apply hours_positive in E. lia.
Qed.

(** *** Grouping by hour *)

Lemma hourly_append_keys (d : list (datetime * list Q)) (k : datetime) (r : Q) :
  (In k (map fst d) /\ map fst (hourly_append d k r) = map fst d)
  \/ (~ In k (map fst d) /\ map fst (hourly_append d k r) = map fst d ++ [k]).
Proof.
  induction d as [|[k0 rs0] d IH]; cbn [hourly_append map fst].
  - right. split; [tauto | reflexivity].
  - destruct (k0 =? k) eqn:E.
    + apply Z.eqb_eq in E. subst k0. left. split; [left; reflexivity | reflexivity].
    + apply Z.eqb_neq in E. cbn [map fst].
      destruct IH as [[Hin Heq] | [Hnin Heq]]; rewrite Heq.
      * left. split; [right; exact Hin | reflexivity].
      * right. split; [|reflexivity]. intros [H | H]; [congruence | tauto].
Qed.

Lemma hourly_append_NoDup (d : list (datetime * list Q)) (k : datetime) (r : Q) :
  NoDup (map fst d) -> NoDup (map fst (hourly_append d k r)).
Proof.
  intros Hnd. destruct (hourly_append_keys d k r) as [[_ ->] | [Hnin ->]].
  - exact Hnd.
  - apply NoDup_app; [exact Hnd | repeat constructor; tauto |].
    intros x Hx [<- | []]. exact (Hnin Hx).
Qed.

Lemma hourly_append_In (d : list (datetime * list Q)) (k : datetime) (r : Q)
    (k' : datetime) (rs' : list Q) :
  NoDup (map fst d) ->
  In (k', rs') (hourly_append d k r) ->
  (k' <> k /\ In (k', rs') d)
  \/ (k' = k /\ exists rs, In (k, rs) d /\ rs' = rs ++ [r])
  \/ (k' = k /\ ~ In k (map fst d) /\ rs' = [r]).
Proof.
  induction d as [|[k0 rs0] d IH]; cbn [hourly_append map fst]; intros Hnd Hin.
  - destruct Hin as [Hin | []]. injection Hin as <- <-.
    right. right. repeat split. tauto.
  - apply NoDup_cons_iff in Hnd. destruct Hnd as [Hk0 Hnd].
    destruct (k0 =? k) eqn:E.
    + apply Z.eqb_eq in E. subst k0. destruct Hin as [Hin | Hin].
      * injection Hin as <- <-. right. left. split; [reflexivity|].
        exists rs0. split; [left; reflexivity | reflexivity].
      * left. split; [|right; exact Hin].
        intros ->. apply Hk0. apply in_map_iff. exists (k, rs'). auto.
    + apply Z.eqb_neq in E. destruct Hin as [Hin | Hin].
      * injection Hin as <- <-. left. split; [exact E | left; reflexivity].
      * destruct (IH Hnd Hin) as [[Hne H] | [[-> [rs [H ->]]] | [-> [Hnin ->]]]].
        -- left. split; [exact Hne | right; exact H].
        -- right. left. split; [reflexivity|]. exists rs.
           split; [right; exact H | reflexivity].
        -- right. right. repeat split. intros [H | H]; [congruence | tauto].
Qed.

Lemma rates_of_hour_snoc (history : list metric) (m : metric) (hour : datetime) :
  rates_of_hour (history ++ [m]) hour
  = rates_of_hour history hour
    ++ (if replace_to_hour (met_timestamp m) =? hour
        then [met_occupancy_rate m] else []).
Proof.
  unfold rates_of_hour. rewrite filter_app, map_app. cbn [filter].
  destruct (_ =? _); reflexivity.
Qed.

Lemma grouped_step (history : list metric) (d : list (datetime * list Q))
    (m : metric) :
  grouped history d ->
  grouped (history ++ [m])
    (hourly_append d (replace_to_hour (met_timestamp m)) (met_occupancy_rate m)).
Proof.
  intros (Hnd & Hin & Hkeys).
  set (k := replace_to_hour (met_timestamp m)).
  set (r := met_occupancy_rate m).
  assert (Hhours : forall h, In h (hours_of (history ++ [m]))
                             <-> In h (hours_of history) \/ h = k).
  { intro h. unfold hours_of. rewrite map_app, in_app_iff. cbn [map In].
    fold k. intuition congruence. }
  split; [apply hourly_append_NoDup; exact Hnd|]. split.
  - intros k' rs' H. rewrite Hhours, rates_of_hour_snoc. fold k r.
    destruct (hourly_append_In _ _ _ _ _ Hnd H)
      as [[Hne H'] | [[-> [rs [H' ->]]] | [-> [Hnin ->]]]].
    + destruct (Hin _ _ H') as [Hh ->]. split; [left; exact Hh|].
      replace (k =? k') with false
        by (symmetry; apply Z.eqb_neq; congruence).
      rewrite app_nil_r. reflexivity.
    + destruct (Hin _ _ H') as [Hh ->]. split; [left; exact Hh|].
      rewrite Z.eqb_refl. reflexivity.
    + split; [right; reflexivity|]. rewrite Z.eqb_refl.
      assert (Hempty : rates_of_hour history k = []).
      { unfold rates_of_hour.
        rewrite <- (filter_ext_in (fun _ => false)).
        - clear. induction history; simpl; auto.
        - intros m' Hm'. symmetry. apply Z.eqb_neq. intros Heq.
          apply Hnin, Hkeys. unfold hours_of. apply in_map_iff.
          exists m'. auto. }
      rewrite Hempty. reflexivity.
  - intros h Hh. apply Hhours in Hh.
    destruct (hourly_append_keys d k r) as [[Hk ->] | [Hk ->]].
    + destruct Hh as [Hh | ->]; [apply Hkeys; exact Hh | exact Hk].
    + rewrite in_app_iff. destruct Hh as [Hh | ->];
        [left; apply Hkeys; exact Hh | right; left; reflexivity].
Qed.

Lemma grouped_fold (history : list metric) :
  grouped history
    (fold_left (fun hourly_data metric =>
                  hourly_append hourly_data
                    (replace_to_hour (met_timestamp metric))
                    (met_occupancy_rate metric))
               history []).
Proof.
  induction history as [|m history IH] using rev_ind.
  - cbn. split; [constructor|]. split; [intros k rs [] | intros k []].
  - rewrite fold_left_app. cbn [fold_left]. apply grouped_step. exact IH.
Qed.

(** *** Sorting *)

Lemma insert_desc_perm (x : datetime * Q) (l : list (datetime * Q)) :
  Permutation (insert_desc x l) (x :: l).
Proof.
  induction l as [|y l IH]; cbn [insert_desc]; [reflexivity|].
  destruct (Qlt_bool (snd x) (snd y)); [|reflexivity].
  rewrite IH. apply perm_swap.
Qed.

Lemma sorted_desc_perm (l : list (datetime * Q)) : Permutation (sorted_desc l) l.
Proof.
  unfold sorted_desc. induction l as [|x l IH]; cbn [fold_right]; [reflexivity|].
  rewrite insert_desc_perm, IH. reflexivity.
Qed.

Lemma insert_desc_descending (x : datetime * Q) (l : list (datetime * Q)) :
  descending snd l -> descending snd (insert_desc x l).
Proof.
  unfold descending.
  induction 1 as [|y l Hs IH Hy]; cbn [insert_desc].
  - repeat constructor.
  - destruct (Qlt_bool (snd x) (snd y)) eqn:E.
    + constructor; [exact IH|].
      apply (Permutation_Forall (Permutation_sym (insert_desc_perm x l))).
      constructor; [|exact Hy].
      apply Qlt_le_weak, Qlt_bool_iff. exact E.
    + assert (Hyx : (snd y <= snd x)%Q).
      { apply Qnot_lt_le. intro H. apply Qlt_bool_iff in H. congruence. }
      constructor; [constructor; assumption|].
      constructor; [exact Hyx|].
      eapply Forall_impl; [|exact Hy].
      intros z Hz. cbv beta in Hz |- *. eapply Qle_trans; eassumption.
Qed.

Lemma sorted_desc_descending (l : list (datetime * Q)) :
  descending snd (sorted_desc l).
Proof.
  unfold sorted_desc. induction l as [|x l IH]; cbn [fold_right].
  - constructor.
  - apply insert_desc_descending. exact IH.
Qed.

Lemma descending_firstn {A : Type} (rate : A -> Q) (n : nat) (l : list A) :
  descending rate l -> descending rate (firstn n l).
Proof.
  unfold descending. intros H. revert n.
  induction H as [|a l Hs IH Ha]; intros [|n]; cbn [firstn]; try constructor.
  - apply IH.
  - rewrite Forall_forall in Ha |- *. intros x Hx. apply Ha.
    rewrite <- (firstn_skipn n l). apply in_or_app. left. exact Hx.
Qed.

Lemma descending_top {A : Type} (rate : A -> Q) (n : nat) (l : list A) :
  descending rate l ->
  forall a b, In a (firstn n l) -> In b (skipn n l) -> (rate b <= rate a)%Q.
Proof.
  unfold descending. intros H. revert n.
  induction H as [|x l Hs IH Hx]; intros n a b Ha Hb.
  - destruct n; destruct Ha.
  - destruct n as [|n]; [destruct Ha|]. cbn [firstn skipn] in Ha, Hb.
    destruct Ha as [<- | Ha].
    + rewrite Forall_forall in Hx. apply Hx.
      rewrite <- (firstn_skipn n l). apply in_or_app. right. exact Hb.
    + exact (IH n a b Ha Hb).
Qed.

Lemma descending_map {A B : Type} (f : A -> B) (rate : B -> Q) (l : list A) :
  descending (fun a => rate (f a)) l -> descending rate (map f l).
Proof.
  unfold descending. induction 1 as [|a l Hs IH Ha]; cbn [map]; constructor.
  - exact IH.
  - apply Forall_forall. intros y Hy. apply in_map_iff in Hy.
    destruct Hy as [x [<- Hx]]. rewrite Forall_forall in Ha. exact (Ha x Hx).
Qed.

Lemma NoDup_firstn {A : Type} (n : nat) (l : list A) :
  NoDup l -> NoDup (firstn n l).
Proof.
  intros H. rewrite <- (firstn_skipn n l) in H.
  exact (NoDup_app_remove_r _ _ H).
Qed.

(** C7.  [get_peak_hours] returns at most 10 entries, one per hour and no
    hour twice, in descending order of average rate (no entry is followed
    by one of a strictly higher average).  The hour of an entry is the
    timestamp of some snapshot truncated to the hour, and its rate is the
    mean of the occupancy rates of all the snapshots of that hour.  An hour
    that has a snapshot and no entry was cut by the limit of 10: its mean is
    at most that of every entry returned. *)
Theorem get_peak_hours_spec (self : ParkingLogger) (hour_window : Z) :
  let history := metrics_history self in
  let peaks := get_peak_hours self hour_window in
  (length peaks <= 10)%nat
  /\ descending average_occupancy_rate peaks
  /\ NoDup (map peak_timestamp peaks)
  /\ (forall p, In p peaks ->
        In (peak_timestamp p) (hours_of history)
        /\ average_occupancy_rate p
           = np_mean (rates_of_hour history (peak_timestamp p)))
  /\ (forall hour, In hour (hours_of history) ->
        In hour (map peak_timestamp peaks)
        \/ (length peaks = 10%nat
            /\ forall p, In p peaks ->
                 (np_mean (rates_of_hour history hour)
                  <= average_occupancy_rate p)%Q)).
Proof.
  intros history peaks.
  destruct (metrics_history self) as [|m0 ms] eqn:Eh.
  { subst peaks history. unfold get_peak_hours. rewrite Eh. cbn.
    repeat split; try constructor; try lia; intros ? []. }
  pose proof (grouped_fold history) as (Hnd & Hin & Hkeys).
  set (d := fold_left (fun hourly_data metric =>
                         hourly_append hourly_data
                           (replace_to_hour (met_timestamp metric))
                           (met_occupancy_rate metric)) history []) in *.
  set (avg := map (fun kv : datetime * list Q => (fst kv, np_mean (snd kv))) d).
  set (top := firstn 10 (sorted_desc avg)).
  set (entry := fun kv : datetime * Q =>
                  {| peak_timestamp := fst kv; average_occupancy_rate := snd kv |}).
  assert (Hpeaks : peaks = map entry top).
  { subst peaks top avg d history. unfold get_peak_hours. rewrite Eh. reflexivity. }
  assert (Havg_keys : map fst avg = map fst d).
  { subst avg. rewrite map_map. reflexivity. }
  assert (Hsorted_in : forall kv, In kv (sorted_desc avg) <->
                         exists rs, In (fst kv, rs) d /\ snd kv = np_mean rs).
  { intro kv. split.
    - intros H. apply (Permutation_in _ (sorted_desc_perm avg)) in H.
      subst avg. apply in_map_iff in H. destruct H as [[k rs] [<- H]].
      exists rs. split; [exact H | reflexivity].
    - intros [rs [H Hs]].
      apply (Permutation_in _ (Permutation_sym (sorted_desc_perm avg))).
      subst avg. apply in_map_iff. exists (fst kv, rs). split; [|exact H].
      cbn [fst snd]. rewrite <- Hs. destruct kv; reflexivity. }
  assert (Htop_in : forall kv, In kv top -> In kv (sorted_desc avg)).
  { intros kv H. subst top. rewrite <- (firstn_skipn 10 (sorted_desc avg)).
    apply in_or_app. left. exact H. }
  rewrite Hpeaks. split; [|split; [|split; [|split]]].
  - rewrite length_map. subst top. apply firstn_le_length.
  - apply descending_map. cbn [average_occupancy_rate entry].
    subst top. apply descending_firstn, sorted_desc_descending.
  - rewrite map_map. cbn [peak_timestamp entry]. subst top.
    rewrite <- firstn_map. apply NoDup_firstn.
    apply (Permutation_NoDup
             (Permutation_map fst (Permutation_sym (sorted_desc_perm avg)))).
    rewrite Havg_keys. exact Hnd.
  - intros p Hp. apply in_map_iff in Hp. destruct Hp as [kv [<- Hkv]].
    cbn [peak_timestamp average_occupancy_rate entry].
    apply Htop_in, Hsorted_in in Hkv. destruct Hkv as [rs [Hd ->]].
    destruct (Hin _ _ Hd) as [Hh ->]. split; [exact Hh | reflexivity].
  - intros hour Hh. apply Hkeys in Hh. apply in_map_iff in Hh.
    destruct Hh as [[k rs] [Hk Hd]]. cbn [fst] in Hk. subst k.
    destruct (Hin _ _ Hd) as [_ Hrs].
    assert (Hs : In (hour, np_mean rs) (sorted_desc avg)).
    { apply Hsorted_in. exists rs. split; [exact Hd | reflexivity]. }
    rewrite <- (firstn_skipn 10 (sorted_desc avg)) in Hs.
    apply in_app_or in Hs. fold top in Hs. destruct Hs as [Hs | Hs].
    + left. apply in_map_iff. exists (entry (hour, np_mean rs)).
      split; [reflexivity|]. apply in_map. exact Hs.
    + right. split.
      * rewrite length_map. subst top. apply firstn_length_le.
        destruct (Nat.le_gt_cases 10 (length (sorted_desc avg))) as [H | H];
          [exact H|].
        rewrite skipn_all2 in Hs by lia. destruct Hs.
      * intros p Hp. apply in_map_iff in Hp. destruct Hp as [kv [<- Hkv]].
        cbn [average_occupancy_rate entry]. rewrite <- Hrs.
        exact (descending_top 10 (sorted_desc_descending avg) kv
                 (hour, np_mean rs) Hkv Hs).
Qed.

Lemma get_peak_hours_spec_witness :
  In (Examples.minutes 60)
     (map peak_timestamp (get_peak_hours Examples.three_hours 1))
  \/ (length (get_peak_hours Examples.three_hours 1) = 10%nat
      /\ forall p, In p (get_peak_hours Examples.three_hours 1) ->
           (np_mean (rates_of_hour (metrics_history Examples.three_hours)
                       (Examples.minutes 60))
            <= average_occupancy_rate p)%Q).
Proof.
  pose proof (get_peak_hours_spec Examples.three_hours 1) as H.
  cbv zeta in H. destruct H as (_ & _ & _ & _ & Hall).
  apply Hall. vm_compute. auto.
Defined.

End LoggerFacts.

(** ** Loading the configuration *)

Module ConfigFacts.

Import Config.

Lemma polygon_of_points_json (points : list point) :
  polygon_of_points (map point_json points) = OK points.
Proof.
  induction points as [|[x y] points IH]; [reflexivity|].
  cbn [map polygon_of_points point_json py_getitem_nat nth_error py_int bind fst snd].
  rewrite IH. reflexivity.
Qed.

Lemma load_region (r : region) (default : option json) (fallback : json) :
  fallback = match default with Some v => v | None => JFloat float_0_2 end ->
  exists id points ratio,
    r = (id, points, ratio)
    /\ py_getitem_str (region_json r) "id" = OK id
    /\ py_getitem_str (region_json r) "polygon" = OK (JArr (map point_json points))
    /\ py_get (region_json r) "min_occupancy_ratio" fallback
       = OK (min_occupancy_ratio (loaded default r)).
Proof.
  intros ->. destruct r as [[id points] ratio]. exists id, points, ratio.
  split; [reflexivity|]. split; [reflexivity|]. split; [reflexivity|].
  destruct ratio, default; reflexivity.
Qed.

Lemma load_spaces_loop_regions (default : option json) (fallback : json)
    (regions : list region) (spaces : list (ParkingSpace json json)) :
  fallback = match default with Some v => v | None => JFloat float_0_2 end ->
  load_spaces_loop (map region_json regions) fallback spaces
  = OK (spaces ++ map (loaded default) regions).
Proof.
  intros Hf. revert spaces.
  induction regions as [|r regions IH]; intro spaces.
  - cbn. rewrite app_nil_r. reflexivity.
  - cbn [map load_spaces_loop].
    destruct (load_region r default Hf) as (id & points & ratio & -> & Hid & Hp & Hr).
    rewrite Hid, Hp. cbn [bind py_iter]. rewrite polygon_of_points_json.
    cbn [bind]. rewrite Hr. cbn [bind]. rewrite IH, <- app_assoc.
    destruct ratio, default; reflexivity.
Qed.

(** C1, at the failing input.  The loader does not look at the number of
    points of a polygon: this document has a region of two points, and
    loading it returns that region where a polygon of fewer than 3 points is
    to be refused. *)
Lemma load_spaces_two_points :
  has_short_polygon Examples.two_point_config = true
  /\ load_spaces (Document Examples.two_point_config)
     = OK [ParkingSpace_init (JInt 1) [(0, 0); (10, 10)] (JFloat float_0_2)].
Proof. split; reflexivity. Qed.

End ConfigFacts.

Lemma log_metrics_snapshot_witness :
  exists snapshot,
    Logger.metrics_history
      (Logger.log_metrics (Logger.ParkingLogger_init None) 50000000 3 1)
    = Logger.metrics_history (Logger.ParkingLogger_init None) ++ [snapshot]
    /\ Logger.met_total snapshot = 3 + 1
    /\ Logger.met_occupancy_rate snapshot = (inject_Z 1 / inject_Z (3 + 1))%Q.
Proof.
  destruct (proj1 log_metrics_snapshot (Logger.ParkingLogger_init None)
              50000000 3 1) as (snapshot & Hh & _ & _ & _ & Ht & Hr & _).
  exists snapshot. split; [exact Hh|]. split; [exact Ht|].
  apply Hr. lia.
Defined.

(** ** The engine on concrete sessions *)

(** Three frames on one region: the first classification logs nothing, the
    next two calls each log a transition, and the dwell duration stays at
    0.0 on the first Occupied-to-Empty transition. *)
Example three_updates_run :
  exists m3,
    Examples.three_updates
    = OK ([ [];
            [ {| sc_space_id := 1; sc_old_state := "occupied";
                 sc_new_state := "empty";
                 sc_timestamp := Examples.minutes 2 |} ];
            [ {| sc_space_id := 1; sc_old_state := "empty";
                 sc_new_state := "occupied";
                 sc_timestamp := Examples.minutes 3 |} ] ],
          m3)
    /\ map (fun s => (state s, state_history s, occupancy_duration s,
                      confidence_smoothing s)) (spaces m3)
       = [ (OCCUPIED,
            [(Examples.minutes 2, EMPTY); (Examples.minutes 3, OCCUPIED)],
            0%Q, [1%Q; 0%Q; 1%Q]) ].
Proof. eexists. split; vm_compute; reflexivity. Qed.

(** Hours of average rates 0.9, 0.1 and 0.9: the two hours at 0.9 come
    first, in the order they were first seen. *)
Example three_hours_peaks :
  map Logger.peak_timestamp (Logger.get_peak_hours Examples.three_hours 1)
  = [Examples.minutes 0; Examples.minutes 120; Examples.minutes 60].
Proof. vm_compute. reflexivity. Qed.

(** * Further properties *)

(** ** The life of a region *)

Lemma alternating_snoc (log : list (datetime * SpaceState)) (t : datetime)
    (st : SpaceState) :
  alternating (log ++ [(t, st)])
  <-> alternating log /\ st <> UNKNOWN
      /\ match rev log with
         | [] => True
         | (_, st') :: _ => st' <> st
         end.
Proof.
  induction log as [|[t0 st0] log IH].
  - cbn. tauto.
  - cbn [app alternating]. rewrite IH. cbn [rev].
    destruct log as [|[t1 st1] log'].
    + cbn. tauto.
    + cbn [app]. 
      assert (Hrev : forall (a : datetime * SpaceState) l,
                 exists b l', rev (a :: l) = b :: l'
                              /\ rev (a :: l) ++ [(t0, st0)] = b :: l' ++ [(t0, st0)]).
      { intros a l. destruct (rev (a :: l)) as [|b l'] eqn:E.
        - apply (f_equal (@length _)) in E. rewrite length_rev in E. discriminate.
        - exists b, l'. split; reflexivity. }
      destruct (Hrev (t1, st1) log') as (b & l' & Hb & Hb').
      rewrite Hb', Hb. destruct b. tauto.
Qed.

Section LifeCycleFacts.

Context {cv : OpenCV} {I : Type}.

Lemma log_invariant_init (space_id : I) (polygon : list point) (ratio : Q) :
  log_invariant (ParkingSpace_init space_id polygon ratio).
Proof. repeat split. Qed.

Lemma log_invariant_update_state (now : datetime) (s : ParkingSpace I Q)
    (is_occupied : bool) (timestamp : option datetime) :
  log_invariant s -> log_invariant (update_state now s is_occupied timestamp).
Proof.
  intros (Halt & Hlast & Hunk).
  destruct (update_state_fields now s is_occupied timestamp) as (Hst & _).
  unfold log_invariant. rewrite Hst.
  destruct (SpaceState_eqb (state s) (state_of is_occupied)) eqn:Hne;
    [|destruct (SpaceState_eqb (state s) UNKNOWN) eqn:Hun].
  - apply SpaceState_eqb_eq in Hne.
    destruct (update_state_not_logged now s is_occupied timestamp (or_introl Hne))
      as (Hh & Hl & _).
    rewrite Hh, Hl, <- Hne. split; [exact Halt|]. split; [exact Hlast|].
    intros H. exfalso. rewrite Hne in H. destruct is_occupied; discriminate.
  - apply SpaceState_eqb_eq in Hun.
    destruct (update_state_not_logged now s is_occupied timestamp (or_intror Hun))
      as (Hh & Hl & _).
    rewrite Hh, Hl. rewrite (Hunk Hun) in *. cbn in Hlast |- *.
    split; [trivial|]. split; [exact Hlast|]. reflexivity.
  - apply SpaceState_eqb_neq in Hne, Hun.
    destruct (update_state_logged now s is_occupied timestamp Hne Hun) as (Hh & Hl).
    rewrite Hh, Hl, rev_app_distr. cbn [rev app]. split; [|split].
    + apply alternating_snoc. split; [exact Halt|].
      split; [destruct is_occupied; discriminate|].
      destruct (rev (state_history s)) as [|[t st] r]; [trivial|].
      destruct Hlast as [_ ->]. exact Hne.
    + split; reflexivity.
    + intros H. destruct is_occupied; discriminate.
Qed.

(** What [check_occupancy] writes: the vehicle count and the window. *)
Lemma smooth_writes (s : ParkingSpace I Q) (raw : bool) :
  exists window, snd (smooth s raw) = set_confidence_smoothing s window.
Proof.
  unfold smooth.
  cbn [smoothing_window confidence_smoothing set_confidence_smoothing].
  destruct (_ <? _)%nat;
    cbn [smoothing_window confidence_smoothing set_confidence_smoothing];
    destruct (3 <=? _)%nat; eexists; reflexivity.
Qed.

Lemma check_occupancy_writes (s s' : ParkingSpace I Q) bboxes centroids
    (decision : bool) :
  check_occupancy s bboxes centroids = OK (decision, s') ->
  exists vehicle_count window,
    s' = set_confidence_smoothing (set_vehicle_count s vehicle_count) window.
Proof.
  unfold check_occupancy.
  destruct (check_occupancy_loop s _ _ _) as [[mx vc]|]; cbn [bind]; [|discriminate].
  intros H. injection H as H.
  destruct (smooth_writes (set_vehicle_count s vc)
              (raw_decision (min_occupancy_ratio (set_vehicle_count s vc)) mx))
    as [w Hw].
  cbn [min_occupancy_ratio set_vehicle_count] in Hw. rewrite H in Hw.
  exists vc, w. exact Hw.
Qed.

Lemma log_invariant_check_occupancy (s s' : ParkingSpace I Q) bboxes centroids
    (decision : bool) :
  check_occupancy s bboxes centroids = OK (decision, s') ->
  log_invariant s -> log_invariant s'.
Proof.
  intros Hcall Hinv. destruct (check_occupancy_writes _ _ _ Hcall) as (vc & w & ->).
  exact Hinv.
Qed.

Lemma reachable_log_invariant (s : ParkingSpace I Q) :
  reachable s -> log_invariant s.
Proof.
  induction 1 as [id polygon ratio | s now b ts _ IH | s s' bb cc d _ IH Hcall].
  - apply log_invariant_init.
  - apply log_invariant_update_state. exact IH.
  - exact (log_invariant_check_occupancy _ _ Hcall IH).
Qed.

End LifeCycleFacts.

(** X1.  In every state a region can reach, [last_change_time] is the
    timestamp of the last entry of the log and that entry's state is the
    current state; it is [None] exactly when nothing was logged, and a
    region still Unknown has logged nothing. *)
Theorem reachable_log_coherent {cv : OpenCV} {I : Type} (s : ParkingSpace I Q) :
  reachable s ->
  ((state_history s = [] /\ last_change_time s = None)
   \/ (exists earlier t,
         state_history s = earlier ++ [(t, state s)]
         /\ last_change_time s = Some t))
  /\ (state s = UNKNOWN -> state_history s = []).
Proof.
  intros Hr. destruct (reachable_log_invariant Hr) as (_ & Hlast & Hunk).
  split; [|exact Hunk].
  destruct (rev (state_history s)) as [|[t st] r] eqn:E.
  - left. apply (f_equal (@rev _)) in E. rewrite rev_involutive in E.
    split; [exact E | exact Hlast].
  - right. destruct Hlast as [Hl ->]. exists (rev r), t.
    apply (f_equal (@rev _)) in E. rewrite rev_involutive in E.
    split; [exact E | exact Hl].
Qed.

Lemma square_occupied_reachable :
  reachable (cv := Reference.raster) Examples.square_occupied.
Proof.
  unfold Examples.square_occupied, Examples.square. repeat constructor.
Qed.

Lemma reachable_log_coherent_witness :
  ((state_history Examples.square_occupied = []
    /\ last_change_time Examples.square_occupied = None)
   \/ (exists earlier t,
         state_history Examples.square_occupied
         = earlier ++ [(t, state Examples.square_occupied)]
         /\ last_change_time Examples.square_occupied = Some t))
  /\ (state Examples.square_occupied = UNKNOWN ->
      state_history Examples.square_occupied = []).
Proof.
  exact (@reachable_log_coherent Reference.raster Z Examples.square_occupied
           square_occupied_reachable).
Defined.

(** X2.  In every state a region can reach, the log alternates: no entry
    records Unknown, and no two consecutive entries record the same
    state. *)
Theorem reachable_log_alternates {cv : OpenCV} {I : Type} (s : ParkingSpace I Q) :
  reachable s -> alternating (state_history s).
Proof.
  intros Hr. exact (proj1 (reachable_log_invariant Hr)).
Qed.

Lemma reachable_log_alternates_witness :
  alternating (state_history Examples.square_occupied).
Proof.
  exact (@reachable_log_alternates Reference.raster Z Examples.square_occupied
           square_occupied_reachable).
Defined.

(** X3.  Repeating a decision logs nothing: a second [update_state] with
    the same decision, whatever its timestamp, only records that the
    previous state is now the current one. *)
Theorem update_state_repeated {I R : Type} (now1 now2 : datetime)
    (s : ParkingSpace I R) (is_occupied : bool)
    (timestamp1 timestamp2 : option datetime) :
  update_state now2 (update_state now1 s is_occupied timestamp1)
    is_occupied timestamp2
  = set_previous_state (update_state now1 s is_occupied timestamp1)
      (state_of is_occupied).
Proof.
  destruct (update_state_fields now1 s is_occupied timestamp1) as (Hst & _).
  remember (update_state now1 s is_occupied timestamp1) as s1 eqn:E. clear E.
  rewrite update_state_unfold. cbv zeta. rewrite Hst.
  replace (SpaceState_eqb (state_of is_occupied) (state_of is_occupied))
    with true by (destruct is_occupied; reflexivity).
  cbn [negb andb]. destruct s1. cbn in Hst |- *. subst. reflexivity.
Qed.

(** X5.  For a region that is Occupied in a state it can reach, the dwell
    duration computed when it turns Empty runs from the moment it was
    logged as Occupied: the last entry of its log is that Occupied entry.
    When the log is empty (the region was Occupied at its first
    classification), the duration is left as it was. *)
Theorem reachable_dwell_since_occupied {cv : OpenCV} {I : Type}
    (s : ParkingSpace I Q) :
  reachable s -> state s = OCCUPIED ->
  (state_history s = [] ->
   forall now timestamp,
     occupancy_duration (update_state now s false timestamp)
     = occupancy_duration s)
  /\ (state_history s <> [] ->
      exists earlier since,
        state_history s = earlier ++ [(since, OCCUPIED)]
        /\ forall now timestamp,
             occupancy_duration (update_state now s false timestamp)
             = total_seconds (effective_timestamp now timestamp - since)).
Proof.
  intros Hr Hocc. destruct (reachable_log_invariant Hr) as (_ & Hlast & _).
  split.
  - intros Hnil now timestamp. rewrite update_state_unfold. cbv zeta.
    rewrite Hocc, Hnil. reflexivity.
  - intros Hne. destruct (rev (state_history s)) as [|[t st] r] eqn:E.
    + apply (f_equal (@rev _)) in E. rewrite rev_involutive in E. contradiction.
    + destruct Hlast as [_ Hst]. rewrite Hocc in Hst. subst st.
      exists (rev r), t. split.
      * apply (f_equal (@rev _)) in E. rewrite rev_involutive in E. exact E.
      * intros now timestamp. rewrite update_state_unfold. cbv zeta.
        rewrite Hocc, E. reflexivity.
Qed.

Lemma reachable_dwell_since_occupied_witness :
  exists earlier since,
    state_history Examples.square_occupied = earlier ++ [(since, OCCUPIED)]
    /\ forall now timestamp,
         occupancy_duration (update_state now Examples.square_occupied false timestamp)
         = total_seconds (effective_timestamp now timestamp - since).
Proof.
  apply (proj2 (@reachable_dwell_since_occupied Reference.raster Z
                  Examples.square_occupied square_occupied_reachable eq_refl)).
  discriminate.
Defined.

(** ** Timestamps that never go back *)

Lemma total_seconds_nonneg (d : timedelta) : 0 <= d -> (0 <= total_seconds d)%Q.
Proof.
  intros H. unfold total_seconds. apply Qle_shift_div_l; [reflexivity|].
  rewrite Qmult_0_l. change 0%Q with (inject_Z 0). rewrite <- Zle_Qle. exact H.
Qed.

Lemma StronglySorted_snoc (l : list Z) (x : Z) :
  StronglySorted Z.le l -> Forall (fun y => y <= x) l ->
  StronglySorted Z.le (l ++ [x]).
Proof.
  induction 1 as [|a l Hs IH Ha]; intros Hx; cbn [app].
  - repeat constructor.
  - inversion Hx as [|? ? Hax Hlx]; subst. constructor; [apply IH; exact Hlx|].
    apply Forall_app. split; [exact Ha | repeat constructor; exact Hax].
Qed.

Lemma update_state_in_time_order {I R : Type} (bound timestamp : datetime)
    (s : ParkingSpace I R) (is_occupied : bool) :
  in_time_order bound s -> bound <= timestamp ->
  in_time_order timestamp (update_state 0 s is_occupied (Some timestamp)).
Proof.
  intros (Hb & Hs & Hd) Hle.
  assert (Hb' : Forall (fun e : datetime * SpaceState => fst e <= timestamp)
                  (state_history s)).
  { eapply Forall_impl; [|exact Hb]. intros e He. cbv beta in *.
    eapply Z.le_trans; eassumption. }
  assert (Hlogged :
            in_time_order timestamp
              (set_state_history
                 (set_last_change_time
                    (set_state (set_previous_state s (state s)) (state_of is_occupied))
                    (Some timestamp))
                 (state_history s ++ [(timestamp, state_of is_occupied)]))).
  { unfold in_time_order.
    cbn [state_history occupancy_duration set_state_history set_last_change_time
         set_state set_previous_state].
    split; [|split; [|exact Hd]].
    - apply Forall_app. split; [exact Hb'|]. repeat constructor. cbn. lia.
    - rewrite map_app. apply StronglySorted_snoc; [exact Hs|].
      apply Forall_forall. intros y Hy. apply in_map_iff in Hy.
      destruct Hy as [e [<- He]]. rewrite Forall_forall in Hb'. exact (Hb' e He). }
  rewrite update_state_unfold. cbv zeta.
  unfold effective_timestamp.
  destruct (negb _ && negb _).
  - destruct (SpaceState_eqb _ EMPTY && SpaceState_eqb _ OCCUPIED);
      [|exact Hlogged].
    destruct (rev (state_history s)) as [|[p q] r] eqn:E; [exact Hlogged|].
    destruct Hlogged as (H1 & H2 & _). split; [exact H1|]. split; [exact H2|].
    cbn [occupancy_duration set_occupancy_duration].
    apply total_seconds_nonneg.
    assert (Hp : In (p, q) (state_history s)).
    { apply in_rev. rewrite E. left. reflexivity. }
    rewrite Forall_forall in Hb. specialize (Hb _ Hp). cbn in Hb. lia.
  - unfold in_time_order.
    cbn [state_history occupancy_duration set_state set_previous_state].
    split; [exact Hb'|]. split; [exact Hs | exact Hd].
Qed.

Lemma update_states_in_time_order {I : Type}
    (calls : list (bool * datetime)) :
  forall (bound : datetime) (s : ParkingSpace I Q),
    in_time_order bound s ->
    StronglySorted Z.le (bound :: map snd calls) ->
    exists bound', in_time_order bound' (update_states s calls).
Proof.
  induction calls as [|[b t] calls IH]; intros bound s Hinv Hsorted.
  - exists bound. exact Hinv.
  - cbn [update_states fold_left fst snd].
    inversion Hsorted as [|? ? Htail Hhead]; subst.
    cbn [map snd] in Htail, Hhead.
    inversion Hhead as [|? ? Hbt _]; subst.
    apply (IH t); [|exact Htail].
    apply (update_state_in_time_order b Hinv Hbt).
Qed.

(** X4.  When the timestamps of the calls never go back, the log of the
    region is in time order and its dwell duration is never negative. *)
Theorem update_states_monotone {I : Type} (space_id : I)
    (polygon : list point) (min_occupancy_ratio : Q)
    (calls : list (bool * datetime)) :
  StronglySorted Z.le (map snd calls) ->
  let s := update_states
             (ParkingSpace_init space_id polygon min_occupancy_ratio) calls in
  StronglySorted Z.le (map fst (state_history s))
  /\ (0 <= occupancy_duration s)%Q.
Proof.
  intros Hsorted s.
  destruct calls as [|[b t] calls].
  - subst s. cbn. split; [constructor | apply Qle_refl].
  - assert (Hinit : in_time_order (I := I) t
                      (ParkingSpace_init space_id polygon min_occupancy_ratio)).
    { repeat split; try constructor. apply Qle_refl. }
    assert (Hs : StronglySorted Z.le (t :: map snd ((b, t) :: calls))).
    { cbn [map snd]. constructor; [exact Hsorted|].
      constructor; [lia|].
      inversion Hsorted; assumption. }
    destruct (@update_states_in_time_order I ((b, t) :: calls) t _ Hinit Hs)
      as (bound' & _ & H2 & H3).
    split; assumption.
Qed.

Lemma update_states_monotone_witness :
  let s := update_states
             (ParkingSpace_init 1 [(0, 0); (10, 0); (10, 10); (0, 10)] (2 # 10)%Q)
             Examples.morning_calls in
  StronglySorted Z.le (map fst (state_history s))
  /\ (0 <= occupancy_duration s)%Q.
Proof.
  apply (@update_states_monotone Z 1
           [(0, 0); (10, 0); (10, 10); (0, 10)] (2 # 10)%Q Examples.morning_calls).
  repeat constructor; cbn; lia.
Defined.

(** ** The smoothing as a vote *)

Lemma py_sum_samples (recent : list bool) (acc : Q) :
  (fold_left Qplus (map sample recent) acc
   == acc + inject_Z (Z.of_nat (occupied_votes recent)))%Q.
Proof.
  revert acc. induction recent as [|raw recent IH]; intro acc.
  - cbn. ring.
  - cbn [map fold_left]. rewrite IH. unfold occupied_votes.
    destruct raw; cbn [filter sample length].
    + rewrite Nat2Z.inj_succ, <- Z.add_1_l, inject_Z_plus. ring.
    + ring.
Qed.

Lemma mean_is_vote (recent : list bool) :
  (0 < length recent)%nat ->
  Qle_bool (1 # 2) (np_mean (map sample recent))
  = (length recent <=? 2 * occupied_votes recent)%nat.
Proof.
  intros Hn. apply eq_true_iff_eq. rewrite Qle_bool_iff, Nat.leb_le.
  unfold np_mean, py_sum. rewrite py_sum_samples, length_map, Qplus_0_l.
  set (n := length recent) in *. set (v := occupied_votes recent).
  clearbody n v.
  assert (Hpos : (0 < inject_Z (Z.of_nat n))%Q).
  { change 0%Q with (inject_Z 0). rewrite <- Zlt_Qlt. lia. }
  split.
  - intros H. apply (Qmult_le_r _ _ _ Hpos) in H.
    unfold Qdiv in H. rewrite <- Qmult_assoc, (Qmult_comm (/ _)) in H.
    rewrite Qmult_inv_r, Qmult_1_r in H by (intro E; rewrite E in Hpos; discriminate).
    unfold Qle, Qmult, inject_Z in H. cbn [Qnum Qden] in H. lia.
  - intros H. apply Qle_shift_div_l; [exact Hpos|].
    unfold Qle, Qmult, inject_Z. cbn [Qnum Qden]. lia.
Qed.

Lemma lastn_map {A B : Type} (f : A -> B) (n : nat) (l : list A) :
  lastn n (map f l) = map f (lastn n l).
Proof. unfold lastn. rewrite length_map, skipn_map. reflexivity. Qed.

Lemma smoothed_is_majority {cv : OpenCV} (recent : list bool) (raw : bool) :
  smoothed (map sample recent) raw = majority recent raw.
Proof.
  unfold smoothed, majority. rewrite length_map.
  destruct (length recent <? 3)%nat eqn:E; [reflexivity|].
  apply Nat.ltb_ge in E. apply mean_is_vote. lia.
Qed.

Section VoteFacts.

Context {cv : OpenCV} {I : Type}.
Variables (space_id : I) (polygon : list point) (min_occupancy_ratio : Q).

Let fresh := ParkingSpace_init space_id polygon min_occupancy_ratio.

(** A fresh region over a sequence of frames: every decision is the vote
    over the raw decisions of the last frames, five at most. *)
Lemma check_occupancy_frames_votes frames raws :
  Forall2 (fun frame raw => frame_raw fresh frame = OK raw) frames raws ->
  exists decisions s',
    check_occupancy_frames fresh frames = OK (decisions, s')
    /\ forall k raw,
         nth_error raws k = Some raw ->
         nth_error decisions k
         = Some (majority (lastn 5 (firstn (S k) raws)) raw).
Proof.
  intros Hraws.
  destruct (@check_occupancy_frames_run cv I fresh frames raws Hraws fresh
              eq_refl eq_refl eq_refl (Nat.le_0_l 5))
    as (ds & s' & Hrun & _ & _ & Hdec).
  exists ds, s'. split; [exact Hrun|].
  intros k raw Hk. rewrite (Hdec k raw Hk). cbn [confidence_smoothing fresh app].
  change (confidence_smoothing fresh) with (@nil Q). cbn [app].
  rewrite lastn_map, smoothed_is_majority. reflexivity.
Qed.

End VoteFacts.

Lemma majority_of_three (before : list bool) (b : bool) :
  (length before <= 2)%nat -> majority (before ++ [b; b; b]) b = b.
Proof.
  intros H.
  destruct before as [|x [|y [|z before]]]; [| | |cbn in H; lia];
    destruct b; try destruct x; try destruct y; reflexivity.
Qed.

Lemma firstn_three {A : Type} (l : list A) (k : nat) (a b c : A) :
  nth_error l k = Some a -> nth_error l (S k) = Some b ->
  nth_error l (S (S k)) = Some c ->
  firstn (S (S (S k))) l = firstn k l ++ [a; b; c].
Proof.
  revert k. induction l as [|x l IH]; intros [|k] Ha Hb Hc; try discriminate.
  - destruct l as [|y [|z l]]; try discriminate.
    cbn in *. congruence.
  - cbn [nth_error] in *. cbn [firstn app]. f_equal. apply IH; assumption.
Qed.

Lemma lastn_app_three {A : Type} (l : list A) (a b c : A) :
  exists before, lastn 5 (l ++ [a; b; c]) = before ++ [a; b; c]
                 /\ (length before <= 2)%nat.
Proof.
  exists (lastn 2 l). split; [|rewrite lastn_length; lia].
  unfold lastn. rewrite length_app. cbn [length].
  rewrite skipn_app.
  replace (length l + 3 - 5 - length l)%nat with 0%nat by lia.
  replace (length l + 3 - 5)%nat with (length l - 2)%nat by lia. reflexivity.
Qed.

(** X6.  For a freshly built region fed a sequence of frames, the decision
    returned for a frame is a majority vote: over the raw decisions of that
    frame and of the frames before it, the last five at most, it is the
    frame's own raw decision while fewer than 3 are at hand, and from 3 on
    it is occupied exactly when at least half of them are. *)
Theorem check_occupancy_majority {cv : OpenCV} {I : Type} (space_id : I)
    (polygon : list point) (min_occupancy_ratio : Q)
    (frames : list (list bbox * list (Z * Z))) (raws : list bool) :
  let fresh := ParkingSpace_init space_id polygon min_occupancy_ratio in
  Forall2 (fun frame raw => frame_raw fresh frame = OK raw) frames raws ->
  exists decisions s',
    check_occupancy_frames fresh frames = OK (decisions, s')
    /\ forall k raw,
         nth_error raws k = Some raw ->
         let recent := lastn 5 (firstn (S k) raws) in
         nth_error decisions k
         = Some (if (length recent <? 3)%nat then raw
                 else (length recent <=? 2 * occupied_votes recent)%nat).
Proof.
  intros fresh Hraws.
  destruct (check_occupancy_frames_votes space_id polygon min_occupancy_ratio Hraws)
    as (ds & s' & Hrun & Hdec).
  exists ds, s'. split; [exact Hrun|].
  intros k raw Hk. cbv zeta. rewrite (Hdec k raw Hk). reflexivity.
Qed.

Lemma check_occupancy_majority_witness :
  exists decisions s',
    check_occupancy_frames (cv := Reference.raster)
      (ParkingSpace_init 1 [(0, 0); (10, 0); (10, 10); (0, 10)] (2 # 10)%Q)
      Examples.seven_frames = OK (decisions, s')
    /\ forall k raw,
         nth_error Examples.seven_raws k = Some raw ->
         let recent := lastn 5 (firstn (S k) Examples.seven_raws) in
         nth_error decisions k
         = Some (if (length recent <? 3)%nat then raw
                 else (length recent <=? 2 * occupied_votes recent)%nat).
Proof.
  apply (@check_occupancy_majority Reference.raster Z 1
           [(0, 0); (10, 0); (10, 10); (0, 10)] (2 # 10)%Q
           Examples.seven_frames Examples.seven_raws).
  repeat constructor; vm_compute; reflexivity.
Defined.

(** X7.  Three frames in a row with the same raw decision settle the
    matter: for a freshly built region, the decision returned for the third
    of them is that raw decision, whatever came before. *)
Theorem check_occupancy_three_in_a_row {cv : OpenCV} {I : Type} (space_id : I)
    (polygon : list point) (min_occupancy_ratio : Q)
    (frames : list (list bbox * list (Z * Z))) (raws : list bool)
    (k : nat) (b : bool) :
  let fresh := ParkingSpace_init space_id polygon min_occupancy_ratio in
  Forall2 (fun frame raw => frame_raw fresh frame = OK raw) frames raws ->
  nth_error raws k = Some b ->
  nth_error raws (S k) = Some b ->
  nth_error raws (S (S k)) = Some b ->
  exists decisions s',
    check_occupancy_frames fresh frames = OK (decisions, s')
    /\ nth_error decisions (S (S k)) = Some b.
Proof.
  intros fresh Hraws H0 H1 H2.
  destruct (check_occupancy_frames_votes space_id polygon min_occupancy_ratio Hraws)
    as (ds & s' & Hrun & Hdec).
  exists ds, s'. split; [exact Hrun|].
  rewrite (Hdec _ _ H2), (firstn_three _ _ H0 H1 H2).
  destruct (lastn_app_three (firstn k raws) b b b) as (before & -> & Hlen).
  rewrite (majority_of_three _ _ Hlen). reflexivity.
Qed.

Lemma check_occupancy_three_in_a_row_witness :
  exists decisions s',
    check_occupancy_frames (cv := Reference.raster)
      (ParkingSpace_init 1 [(0, 0); (10, 0); (10, 10); (0, 10)] (2 # 10)%Q)
      Examples.seven_frames = OK (decisions, s')
    /\ nth_error decisions 6 = Some false.
Proof.
  apply (@check_occupancy_three_in_a_row Reference.raster Z 1
           [(0, 0); (10, 0); (10, 10); (0, 10)] (2 # 10)%Q
           Examples.seven_frames Examples.seven_raws 4 false).
  - repeat constructor; vm_compute; reflexivity.
  - reflexivity.
  - reflexivity.
  - reflexivity.
Defined.

(** ** One frame on one region *)

Section FrameFacts.

Context {cv : OpenCV} {I : Type}.

Lemma check_occupancy_loop_counts (self : ParkingSpace I Q)
    (detections : list (bbox * (Z * Z))) (evals : list (bool * Q)) :
  Forall2 (evaluates self) detections evals ->
  forall max_intersection vehicle_count,
    check_occupancy_loop self detections max_intersection vehicle_count
    = OK (fold_left py_max (map snd (filter overlapping evals)) max_intersection,
          vehicle_count + Z.of_nat (length (filter (counted self) evals))).
Proof.
  induction 1 as [|[b c] [inside r] detections evals [Hin Hr] _ IH];
    intros mx vc; simpl.
  - rewrite Z.add_0_r. reflexivity.
  - cbn [fst snd] in Hin, Hr. rewrite Hin, Hr. cbn [bind filter].
    unfold counted at 1.
    assert (Ho : overlapping (inside, r) = Qlt_bool 0 r || inside) by reflexivity.
    rewrite Ho. cbn [snd].
    destruct (Qlt_bool 0 r || inside); cbn [map fold_left snd andb].
    + destruct (Qlt_bool (min_occupancy_ratio self) r); rewrite IH.
      * cbn [length]. rewrite Nat2Z.inj_succ. f_equal. f_equal. lia.
      * reflexivity.
    + apply IH.
Qed.

Lemma combine_firstn_min {A B : Type} (l : list A) (l' : list B) :
  combine l l'
  = combine (firstn (Nat.min (length l) (length l')) l)
            (firstn (Nat.min (length l) (length l')) l').
Proof.
  revert l'. induction l as [|a l IH]; intros [|b l']; try reflexivity.
  cbn [length Nat.min firstn combine]. rewrite <- IH. reflexivity.
Qed.

End FrameFacts.

(** X8.  An empty batch is a frame like any other: with no box or no
    centroid, [check_occupancy] returns without consulting OpenCV, counts no
    vehicle and, the threshold not being negative, smooths the raw decision
    "not occupied". *)
Theorem check_occupancy_empty_batch {cv : OpenCV} {I : Type}
    (self : ParkingSpace I Q) (vehicle_bboxes : list bbox)
    (vehicle_centroids : list (Z * Z)) :
  (0 <= min_occupancy_ratio self)%Q ->
  vehicle_bboxes = [] \/ vehicle_centroids = [] ->
  check_occupancy self vehicle_bboxes vehicle_centroids
  = OK (smooth (set_vehicle_count self 0) false)
  /\ vehicle_count (snd (smooth (set_vehicle_count self 0) false)) = 0.
Proof.
  intros Hmin Hempty.
  assert (Hnil : combine vehicle_bboxes vehicle_centroids = []).
  { destruct Hempty as [-> | ->]; [reflexivity|].
    destruct vehicle_bboxes; reflexivity. }
  split.
  - unfold check_occupancy. rewrite Hnil. cbn [check_occupancy_loop bind].
    cbn [min_occupancy_ratio set_vehicle_count].
    replace (raw_decision (min_occupancy_ratio self) 0) with false; [reflexivity|].
    unfold raw_decision. destruct (Qeq_bool (min_occupancy_ratio self) 0) eqn:E.
    + reflexivity.
    + symmetry. destruct (Qle_bool (min_occupancy_ratio self) 0) eqn:E'; [|reflexivity].
      apply Qle_bool_iff in E'.
      assert (Hz : (min_occupancy_ratio self == 0)%Q) by (apply Qle_antisym; assumption).
      apply Qeq_bool_iff in Hz. congruence.
  - destruct (smooth_writes (set_vehicle_count self 0) false) as [w ->].
    reflexivity.
Qed.

Lemma check_occupancy_empty_batch_witness :
  check_occupancy (cv := Reference.raster) Examples.square [] []
  = OK (smooth (set_vehicle_count Examples.square 0) false)
  /\ vehicle_count (snd (smooth (set_vehicle_count Examples.square 0) false)) = 0.
Proof.
  apply (@check_occupancy_empty_batch Reference.raster Z Examples.square [] []).
  - vm_compute. discriminate.
  - left. reflexivity.
Defined.

(** X9.  When the geometric tests return for the detections of the batch,
    [check_occupancy] returns and leaves in [vehicle_count] the number of
    detections that overlap the region (positive ratio, or centroid inside)
    with a ratio above the threshold, a number between 0 and the number of
    paired detections. *)
Theorem check_occupancy_vehicle_count {cv : OpenCV} {I : Type}
    (self : ParkingSpace I Q) (vehicle_bboxes : list bbox)
    (vehicle_centroids : list (Z * Z)) (evals : list (bool * Q)) :
  Forall2 (evaluates self) (combine vehicle_bboxes vehicle_centroids) evals ->
  exists decision self',
    check_occupancy self vehicle_bboxes vehicle_centroids = OK (decision, self')
    /\ vehicle_count self' = Z.of_nat (length (filter (counted self) evals))
    /\ 0 <= vehicle_count self'
       <= Z.of_nat (Nat.min (length vehicle_bboxes) (length vehicle_centroids)).
Proof.
  intros Hev.
  pose proof (check_occupancy_loop_counts Hev 0%Q 0) as Hloop.
  unfold check_occupancy. rewrite Hloop. cbn [bind].
  destruct (smooth_writes
              (set_vehicle_count self
                 (0 + Z.of_nat (length (filter (counted self) evals))))
              (raw_decision
                 (min_occupancy_ratio
                    (set_vehicle_count self
                       (0 + Z.of_nat (length (filter (counted self) evals)))))
                 (fold_left py_max (map snd (filter overlapping evals)) 0%Q)))
    as [w Hw].
  eexists. eexists. split; [apply f_equal; apply surjective_pairing|].
  rewrite Hw. cbn [vehicle_count set_confidence_smoothing set_vehicle_count].
  split; [lia|].
  pose proof (filter_length_le (counted self) evals) as Hle.
  pose proof (Forall2_length Hev) as Hlen. rewrite length_combine in Hlen. lia.
Qed.

Lemma check_occupancy_vehicle_count_witness :
  exists decision self',
    check_occupancy (cv := Reference.raster) Examples.square
      [Examples.half_box] [Examples.half_centroid] = OK (decision, self')
    /\ vehicle_count self'
       = Z.of_nat (length (filter (counted Examples.square)
                             [(true, (132 # 200)%Q)]))
    /\ 0 <= vehicle_count self'
       <= Z.of_nat (Nat.min (length [Examples.half_box])
                       (length [Examples.half_centroid])).
Proof.
  apply (@check_occupancy_vehicle_count Reference.raster Z Examples.square
           [Examples.half_box] [Examples.half_centroid] [(true, (132 # 200)%Q)]).
  constructor; [|constructor]. split; vm_compute; reflexivity.
Defined.

(** X10.  A decision touches nothing but its own bookkeeping: the region
    [check_occupancy] returns is the region it was given with a new
    [vehicle_count] and a new smoothing window; state, log, duration,
    identifier, polygon and threshold are as they were. *)
Theorem check_occupancy_frame_condition {cv : OpenCV} {I : Type}
    (self self' : ParkingSpace I Q) (vehicle_bboxes : list bbox)
    (vehicle_centroids : list (Z * Z)) (decision : bool) :
  check_occupancy self vehicle_bboxes vehicle_centroids = OK (decision, self') ->
  self' = set_confidence_smoothing
            (set_vehicle_count self (vehicle_count self'))
            (confidence_smoothing self').
Proof.
  intros Hcall. destruct (check_occupancy_writes _ _ _ Hcall) as (vc & w & ->).
  reflexivity.
Qed.

Lemma check_occupancy_frame_condition_witness :
  snd (smooth (set_vehicle_count Examples.square 0) false)
  = set_confidence_smoothing
      (set_vehicle_count Examples.square
         (vehicle_count (snd (smooth (set_vehicle_count Examples.square 0) false))))
      (confidence_smoothing (snd (smooth (set_vehicle_count Examples.square 0) false))).
Proof.
  apply (@check_occupancy_frame_condition Reference.raster Z Examples.square _
           [] [] (fst (smooth (set_vehicle_count Examples.square 0) false))).
  vm_compute. reflexivity.
Defined.

(** X11.  Boxes and centroids are paired by position, and what is left
    unpaired is ignored: the call gives what it gives on the two lists cut
    to the length of the shorter. *)
Theorem check_occupancy_pairs_by_position {cv : OpenCV} {I : Type}
    (self : ParkingSpace I Q) (vehicle_bboxes : list bbox)
    (vehicle_centroids : list (Z * Z)) :
  let n := Nat.min (length vehicle_bboxes) (length vehicle_centroids) in
  check_occupancy self vehicle_bboxes vehicle_centroids
  = check_occupancy self (firstn n vehicle_bboxes) (firstn n vehicle_centroids).
Proof.
  intro n. unfold check_occupancy.
  rewrite (combine_firstn_min vehicle_bboxes vehicle_centroids). reflexivity.
Qed.

(** ** The overlap evaluator, further *)

Lemma np_amax_below (v : list Z) (m c : Z) :
  np_amax v = OK m -> Forall (fun x => x < c) v -> m < c.
Proof.
  destruct v as [|x r]; [discriminate|]. cbn [np_amax].
  intros H Hall. injection H as <-.
  inversion Hall as [|? ? Hx Hr]; subst. clear Hall.
  revert x Hx. induction r as [|y r IH]; intros x Hx; cbn [fold_left].
  - exact Hx.
  - inversion Hr as [|? ? Hy Hr']; subst. apply IH; [exact Hr'|]. lia.
Qed.

(** X12.  An intersection ratio is never negative, [cv2.contourArea]
    returning an absolute value. *)
Theorem bbox_intersection_ratio_not_negative {cv : OpenCV} {I : Type}
    (self : ParkingSpace I Q) (b : bbox) (ratio : Q) :
  (forall contour a, contourArea contour = OK a -> (0 <= a)%Q) ->
  bbox_intersection_ratio self b = OK ratio ->
  (0 <= ratio)%Q.
Proof.
  intros Harea Hcall. exact (bbox_intersection_ratio_nonneg Harea _ _ Hcall).
Qed.

Lemma bbox_intersection_ratio_not_negative_witness :
  (0 <= 132 # 200)%Q.
Proof.
  apply (@bbox_intersection_ratio_not_negative Reference.raster Z
           Examples.square Examples.half_box (132 # 200)%Q).
  - exact ref_contourArea_nonneg.
  - vm_compute. reflexivity.
Defined.

(** X13.  The masks are sized from the largest coordinates plus 10.  For a
    region of non-zero area that lies, with the box, wholly above the line
    [y = -10] or wholly left of the line [x = -10], a dimension is
    negative and [bbox_intersection_ratio] raises [ValueError]. *)
Theorem bbox_intersection_ratio_negative_shape {cv : OpenCV} {I : Type}
    (self : ParkingSpace I Q) (x1 y1 x2 y2 : Z) (space_area : Q) :
  get_area self = OK space_area -> ~ (space_area == 0)%Q ->
  polygon self <> [] ->
  (y2 < -10 /\ Forall (fun p => snd p < -10) (polygon self))
  \/ (x2 < -10 /\ Forall (fun p => fst p < -10) (polygon self)) ->
  bbox_intersection_ratio self (x1, y1, x2, y2) = Raise ValueError.
Proof.
  intros Harea Hnz Hne Hoff. unfold bbox_intersection_ratio.
  rewrite Harea. cbn [bind].
  destruct (Qeq_bool space_area 0) eqn:E;
    [apply Qeq_bool_iff in E; contradiction|].
  destruct (polygon self) as [|p0 ps] eqn:Ep; [contradiction|].
  cbn [column1 column0 bind].
  destruct (np_amax (map snd (p0 :: ps))) as [ymax|] eqn:Ey; [|discriminate].
  destruct (np_amax (map fst (p0 :: ps))) as [xmax|] eqn:Ex; [|discriminate].
  cbn [bind]. unfold np_zeros.
  replace ((Z.max y2 ymax + 10 <? 0) || (Z.max x2 xmax + 10 <? 0)) with true;
    [reflexivity|].
  symmetry. apply orb_true_iff.
  destruct Hoff as [[Hy Hall] | [Hx Hall]]; [left | right]; apply Z.ltb_lt.
  - assert (ymax < -10).
    { apply (np_amax_below Ey). apply Forall_forall. intros y Hyin.
      apply in_map_iff in Hyin. destruct Hyin as [p [<- Hp]].
      rewrite Forall_forall in Hall. exact (Hall p Hp). }
    lia.
  - assert (xmax < -10).
    { apply (np_amax_below Ex). apply Forall_forall. intros x Hxin.
      apply in_map_iff in Hxin. destruct Hxin as [p [<- Hp]].
      rewrite Forall_forall in Hall. exact (Hall p Hp). }
    lia.
Qed.

Lemma bbox_intersection_ratio_negative_shape_witness :
  bbox_intersection_ratio (cv := Reference.raster) Examples.offscreen_square
    (-35, -35, -25, -25) = Raise ValueError.
Proof.
  apply (@bbox_intersection_ratio_negative_shape Reference.raster Z
           Examples.offscreen_square (-35) (-35) (-25) (-25) (800 # 2)%Q).
  - vm_compute. reflexivity.
  - vm_compute. discriminate.
  - vm_compute. discriminate.
  - left. split; [lia|]. vm_compute. repeat constructor.
Defined.

(** ** The coordinator, further *)

Section CoordinatorInversion.

Context {cv : OpenCV} {I : Type}.

Lemma update_all_loop_inv (clock : nat -> datetime) bboxes centroids timestamp
    (todo : list (ParkingSpace I Q)) :
  forall tick acc state_changes todo' tick',
    update_all_loop clock tick todo bboxes centroids timestamp acc
    = OK (state_changes, todo', tick') ->
    Forall2 (region_updated bboxes centroids timestamp) todo todo'.
Proof.
  induction todo as [|space rest IH]; intros tick acc evs todo' tick' Hrun.
  - cbn in Hrun. injection Hrun as _ <- _. constructor.
  - cbn [update_all_loop] in Hrun.
    destruct (check_occupancy space bboxes centroids) as [[d sp1]|e] eqn:Hcall;
      cbn [bind] in Hrun; [|discriminate].
    destruct (negb _ && negb _) in Hrun.
    + destruct (update_all_loop clock _ rest bboxes centroids timestamp _)
        as [[[evs1 rest1] tick1]|e] eqn:Hrest; cbn [bind] in Hrun; [|discriminate].
      injection Hrun as _ <- _. constructor.
      * exists d, sp1, (clock tick). split; [exact Hcall | reflexivity].
      * eapply IH. exact Hrest.
    + destruct (update_all_loop clock _ rest bboxes centroids timestamp _)
        as [[[evs1 rest1] tick1]|e] eqn:Hrest; cbn [bind] in Hrun; [|discriminate].
      injection Hrun as _ <- _. constructor.
      * exists d, sp1, (clock tick). split; [exact Hcall | reflexivity].
      * eapply IH. exact Hrest.
Qed.

Lemma update_all_inv (clock : nat -> datetime) (tick : nat)
    (self : ParkingSpaceManager I) bboxes centroids classes timestamp
    state_changes (self' : ParkingSpaceManager I) tick' :
  update_all clock tick self bboxes centroids classes timestamp
  = OK (state_changes, self', tick') ->
  Forall2 (region_updated bboxes centroids timestamp) (spaces self) (spaces self')
  /\ total_spaces self' = total_spaces self.
Proof.
  unfold update_all.
  destruct (update_all_loop clock tick (spaces self) bboxes centroids timestamp [])
    as [[[evs1 rest1] tick1]|e] eqn:Hrun; cbn [bind]; [|discriminate].
  intros H. injection H as _ <- _. cbn [spaces total_spaces].
  split; [eapply update_all_loop_inv; exact Hrun | reflexivity].
Qed.

Lemma region_updated_classified bboxes centroids timestamp
    (before after : ParkingSpace I Q) :
  region_updated bboxes centroids timestamp before after ->
  state after <> UNKNOWN.
Proof.
  intros (d & s1 & now & _ & ->).
  destruct (update_state_fields now s1 d timestamp) as (-> & _).
  destruct d; discriminate.
Qed.

Lemma get_counts_count (self : ParkingSpaceManager I) :
  get_counts self
  = (Z.of_nat (count_in_state EMPTY (spaces self)),
     Z.of_nat (count_in_state OCCUPIED (spaces self))).
Proof. unfold get_counts, count_in_state. rewrite !sum_of_ones. reflexivity. Qed.

Lemma count_unknown_zero (regions : list (ParkingSpace I Q)) :
  Forall (fun s => state s <> UNKNOWN) regions ->
  count_in_state UNKNOWN regions = 0%nat.
Proof.
  unfold count_in_state. induction 1 as [|s regions Hs _ IH]; [reflexivity|].
  cbn [filter]. destruct (state s); try contradiction; exact IH.
Qed.

End CoordinatorInversion.

(** X14.  When [update_all] returns, every region has been classified:
    none is Unknown, so the two counts of [get_counts] add up to the number
    of regions, which the call does not change. *)
Theorem update_all_classifies_all {cv : OpenCV} {I : Type}
    (clock : nat -> datetime) (tick : nat) (self : ParkingSpaceManager I)
    (vehicle_bboxes : list bbox) (vehicle_centroids : list (Z * Z))
    (vehicle_classes : list string) (timestamp : option datetime)
    (state_changes : list (StateChange I)) (self' : ParkingSpaceManager I)
    (tick' : nat) :
  update_all clock tick self vehicle_bboxes vehicle_centroids vehicle_classes
    timestamp = OK (state_changes, self', tick') ->
  Forall (fun s => state s = EMPTY \/ state s = OCCUPIED) (spaces self')
  /\ length (spaces self') = length (spaces self)
  /\ fst (get_counts self') + snd (get_counts self')
     = Z.of_nat (length (spaces self)).
Proof.
  intros Hrun. pose proof Hrun as Hinv; apply update_all_inv in Hinv; destruct Hinv as (Hupd & _).
  assert (Hcl : Forall (fun s => state s <> UNKNOWN) (spaces self')).
  { clear Hrun. induction Hupd as [|b a bs as' Hba _ IH]; constructor.
    - exact (region_updated_classified Hba).
    - exact IH. }
  split; [|split].
  - eapply Forall_impl; [|exact Hcl]. intros s Hs. cbv beta in *.
    destruct (state s); [left | right | contradiction]; reflexivity.
  - symmetry. exact (Forall2_length Hupd).
  - rewrite get_counts_count. cbn [fst snd].
    pose proof (count_in_state_total (spaces self')) as Htot.
    rewrite (count_unknown_zero Hcl) in Htot.
    rewrite (Forall2_length Hupd). lia.
Qed.

Lemma update_all_classifies_all_witness :
  exists state_changes self' tick',
    update_all (cv := Reference.raster) Examples.seconds_clock 0
      Examples.early_session [] [] [] (Some 100000000)
    = OK (state_changes, self', tick')
    /\ Forall (fun s => state s = EMPTY \/ state s = OCCUPIED) (spaces self')
    /\ length (spaces self') = length (spaces Examples.early_session)
    /\ fst (get_counts self') + snd (get_counts self')
       = Z.of_nat (length (spaces Examples.early_session)).
Proof.
  destruct (update_all (cv := Reference.raster) Examples.seconds_clock 0
              Examples.early_session [] [] [] (Some 100000000))
    as [[[evs m'] t']|e] eqn:Hrun; [|vm_compute in Hrun; discriminate].
  exists evs, m', t'. split; [reflexivity|].
  exact (@update_all_classifies_all Reference.raster Z Examples.seconds_clock 0
           Examples.early_session [] [] [] (Some 100000000) evs m' t' Hrun).
Defined.

(** X15.  For a manager whose [total_spaces] is the number of its regions,
    as the constructor sets it and [update_all] keeps it, the occupancy
    rate lies between 0 and 1. *)
Theorem get_occupancy_rate_bounds {I : Type} (self : ParkingSpaceManager I) :
  total_spaces self = length (spaces self) ->
  (0 <= get_occupancy_rate self)%Q /\ (get_occupancy_rate self <= 1)%Q.
Proof.
  intros Htot. unfold get_occupancy_rate.
  destruct (total_spaces self =? 0)%nat eqn:E.
  - split; [apply Qle_refl | discriminate].
  - apply Nat.eqb_neq in E. rewrite get_counts_count.
    pose proof (count_in_state_total (spaces self)) as Hsum.
    set (occ := count_in_state OCCUPIED (spaces self)) in *.
    assert (Hocc : (occ <= total_spaces self)%nat) by lia.
    assert (Hpos : (0 < inject_Z (Z.of_nat (total_spaces self)))%Q).
    { change 0%Q with (inject_Z 0). rewrite <- Zlt_Qlt. lia. }
    split.
    + apply Qle_shift_div_l; [exact Hpos|]. rewrite Qmult_0_l.
      change 0%Q with (inject_Z 0). rewrite <- Zle_Qle. lia.
    + apply Qle_shift_div_r; [exact Hpos|]. rewrite Qmult_1_l.
      rewrite <- Zle_Qle. lia.
Qed.

Lemma get_occupancy_rate_bounds_witness :
  (0 <= get_occupancy_rate Examples.early_session)%Q
  /\ (get_occupancy_rate Examples.early_session <= 1)%Q.
Proof.
  apply (@get_occupancy_rate_bounds Z Examples.early_session). reflexivity.
Defined.

(** X16.  [update_all] returns exactly when the occupancy decision returns
    for every region, and then each region is the one it was, decided on by
    [check_occupancy] and moved by [update_state] with that decision:
    regions do not influence one another. *)
Theorem update_all_regionwise {cv : OpenCV} {I : Type}
    (clock : nat -> datetime) (tick : nat) (self : ParkingSpaceManager I)
    (vehicle_bboxes : list bbox) (vehicle_centroids : list (Z * Z))
    (vehicle_classes : list string) (timestamp : option datetime) :
  (returns (update_all clock tick self vehicle_bboxes vehicle_centroids
              vehicle_classes timestamp)
   <-> Forall (fun s => returns (check_occupancy s vehicle_bboxes vehicle_centroids))
         (spaces self))
  /\ (forall state_changes self' tick',
        update_all clock tick self vehicle_bboxes vehicle_centroids
          vehicle_classes timestamp = OK (state_changes, self', tick') ->
        Forall2 (region_updated vehicle_bboxes vehicle_centroids timestamp)
          (spaces self) (spaces self')).
Proof.
  split; [split|].
  - intros [[[evs m'] t'] Hrun].
    pose proof Hrun as Hinv; apply update_all_inv in Hinv; destruct Hinv as (Hupd & _).
    clear Hrun. induction Hupd as [|b a bs as' Hba _ IH]; constructor.
    + destruct Hba as (d & s1 & _ & Hcall & _). eexists. exact Hcall.
    + exact IH.
  - intros Hret.
    destruct (@update_all_loop_spec cv I clock vehicle_bboxes vehicle_centroids
                timestamp (spaces self) Hret tick [])
      as (new & todo' & tick' & Hrun & _).
    unfold update_all, returns. rewrite Hrun. cbn [bind]. eexists. reflexivity.
  - intros evs m' t' Hrun. apply update_all_inv in Hrun; exact (proj1 Hrun).
Qed.

Lemma update_all_regionwise_witness :
  returns (update_all (cv := Reference.raster) Examples.seconds_clock 0
             Examples.session [] [] [] (Some 100000000)).
Proof.
  apply (proj1 (@update_all_regionwise Reference.raster Z Examples.seconds_clock 0
                  Examples.session [] [] [] (Some 100000000))).
  repeat constructor; eexists; vm_compute; reflexivity.
Defined.

(** ** The metrics engine, further *)

Module MetricsFacts.

Import Logger.

Lemma filter_perm {A : Type} (f : A -> bool) (l l' : list A) :
  Permutation l l' -> Permutation (filter f l) (filter f l').
Proof.
  induction 1 as [|x l l' _ IH|x y l|l l' l'' _ IH1 _ IH2]; cbn [filter].
  - constructor.
  - destruct (f x); [constructor|]; exact IH.
  - destruct (f x), (f y); try reflexivity. apply perm_swap.
  - etransitivity; eassumption.
Qed.

Lemma max_timestamp_is_latest (c0 : change_record) (others : list change_record) :
  is_latest (c0 :: others)
    (max_timestamp (chg_timestamp c0) (map chg_timestamp others)).
Proof.
  split.
  - exact (LoggerFacts.max_timestamp_in (map chg_timestamp others) (chg_timestamp c0)).
  - pose proof (LoggerFacts.max_timestamp_ge (map chg_timestamp others)
                  (chg_timestamp c0)) as H.
    change (chg_timestamp c0 :: map chg_timestamp others)
      with (map chg_timestamp (c0 :: others)) in H.
    rewrite Forall_forall in H |- *. intros c Hc. apply H. apply in_map. exact Hc.
Qed.

Lemma is_latest_perm (scope scope' : list change_record) (latest : datetime) :
  Permutation scope scope' -> is_latest scope latest -> is_latest scope' latest.
Proof.
  intros Hp [Hin Hall]. split.
  - exact (Permutation_in _ (Permutation_map chg_timestamp Hp) Hin).
  - exact (Permutation_Forall Hp Hall).
Qed.

(** The rate, for a scope that is not empty, in terms of any maximum. *)
Lemma compute_turnover_rate_latest (self : ParkingLogger) (space_id : option Z)
    (w : Z) (latest : datetime) :
  is_latest (filter (in_scope space_id) (state_changes self)) latest ->
  compute_turnover_rate self space_id w
  = if Qlt_bool 0 (inject_Z w / 60)
    then (inject_Z
            (Z.of_nat
               (length (filter (fun c => latest - Timedelta_minutes w
                                         <=? chg_timestamp c)
                          (filter (in_scope space_id) (state_changes self)))))
          / (inject_Z w / 60))%Q
    else 0%Q.
Proof.
  intros Hlatest.
  destruct (filter (in_scope space_id) (state_changes self)) as [|c0 others] eqn:E.
  { destruct Hlatest as [[] _]. }
  rewrite (LoggerFacts.compute_turnover_rate_scoped self space_id w E).
  cbv zeta. rewrite <- (LoggerFacts.is_latest_max Hlatest). reflexivity.
Qed.

Lemma compute_turnover_rate_empty (self : ParkingLogger) (space_id : option Z)
    (w : Z) :
  filter (in_scope space_id) (state_changes self) = [] ->
  compute_turnover_rate self space_id w = 0%Q.
Proof.
  intros Hnil. unfold compute_turnover_rate.
  destruct (state_changes self) as [|c cs] eqn:Ecs; [reflexivity|].
  fold (in_scope space_id). rewrite Hnil. reflexivity.
Qed.

(** X17.  The turnover rate depends on which events were logged, not on
    the order they were logged in. *)
Theorem compute_turnover_rate_order_free (a b : ParkingLogger)
    (space_id : option Z) (time_window_minutes : Z) :
  Permutation (state_changes a) (state_changes b) ->
  compute_turnover_rate a space_id time_window_minutes
  = compute_turnover_rate b space_id time_window_minutes.
Proof.
  intros Hp.
  pose proof (filter_perm (in_scope space_id) Hp) as Hs.
  destruct (filter (in_scope space_id) (state_changes a)) as [|c0 others] eqn:Ea.
  - apply Permutation_nil in Hs.
    rewrite (compute_turnover_rate_empty a space_id time_window_minutes Ea).
    rewrite (compute_turnover_rate_empty b space_id time_window_minutes Hs).
    reflexivity.
  - pose proof (max_timestamp_is_latest c0 others) as Hl.
    set (latest := max_timestamp (chg_timestamp c0) (map chg_timestamp others)) in *.
    rewrite (@compute_turnover_rate_latest a space_id time_window_minutes latest)
      by (rewrite Ea; exact Hl).
    rewrite (@compute_turnover_rate_latest b space_id time_window_minutes latest)
      by (exact (is_latest_perm Hs Hl)).
    rewrite Ea.
    rewrite (Permutation_length
               (filter_perm
                  (fun c => latest - Timedelta_minutes time_window_minutes
                            <=? chg_timestamp c) Hs)).
    reflexivity.
Qed.

Lemma compute_turnover_rate_order_free_witness :
  compute_turnover_rate Examples.four_events (Some 1) 30
  = compute_turnover_rate
      {| log_file := None;
         state_changes := rev (state_changes Examples.four_events);
         metrics_history := [] |} (Some 1) 30.
Proof.
  apply (compute_turnover_rate_order_free Examples.four_events
           {| log_file := None;
              state_changes := rev (state_changes Examples.four_events);
              metrics_history := [] |} (Some 1) 30).
  apply Permutation_rev.
Defined.

(** X18.  When every event in scope lies within the window of the latest
    one, the rate is the number of events in scope per hour of window:
    [N / (window_minutes / 60)]. *)
Theorem compute_turnover_rate_all_recent (self : ParkingLogger)
    (space_id : option Z) (time_window_minutes : Z) (latest : datetime) :
  let scope := filter (in_scope space_id) (state_changes self) in
  0 < time_window_minutes ->
  is_latest scope latest ->
  Forall (fun c => latest - chg_timestamp c <= time_window_minutes * 60 * 1000000)
         scope ->
  compute_turnover_rate self space_id time_window_minutes
  = (inject_Z (Z.of_nat (length scope)) / (inject_Z time_window_minutes / 60))%Q.
Proof.
  intros scope Hw Hlatest Hall.
  rewrite (@compute_turnover_rate_latest self space_id time_window_minutes latest
             Hlatest).
  apply LoggerFacts.hours_positive in Hw. rewrite Hw. fold scope.
  rewrite forallb_filter_id; [reflexivity|].
  apply forallb_forall. intros c Hc. rewrite Forall_forall in Hall.
  specialize (Hall c Hc). apply Z.leb_le. unfold Timedelta_minutes. lia.
Qed.

Lemma compute_turnover_rate_all_recent_witness :
  compute_turnover_rate Examples.four_events None 60
  = (inject_Z (Z.of_nat
                 (length (filter (in_scope None)
                            (state_changes Examples.four_events))))
     / (inject_Z 60 / 60))%Q.
Proof.
  apply (compute_turnover_rate_all_recent Examples.four_events None
           (time_window_minutes := 60) (latest := Examples.minutes 59)).
  - lia.
  - split; [vm_compute; auto | repeat constructor; vm_compute; discriminate].
  - repeat constructor; vm_compute; discriminate.
Defined.

(** X19.  The turnover rate is never negative; for a positive window and a
    scope that is not empty, the latest event always counts and no event
    counts twice, so the rate lies between [1 / (window_minutes / 60)] and
    [N / (window_minutes / 60)], [N] the number of events in scope. *)
Theorem compute_turnover_rate_bounds (self : ParkingLogger)
    (space_id : option Z) (time_window_minutes : Z) :
  let scope := filter (in_scope space_id) (state_changes self) in
  let hours := (inject_Z time_window_minutes / 60)%Q in
  (0 <= compute_turnover_rate self space_id time_window_minutes)%Q
  /\ (0 < time_window_minutes -> scope <> [] ->
      (1 / hours <= compute_turnover_rate self space_id time_window_minutes)%Q
      /\ (compute_turnover_rate self space_id time_window_minutes
          <= inject_Z (Z.of_nat (length scope)) / hours)%Q).
Proof.
  intros scope hours. subst scope.
  destruct (filter (in_scope space_id) (state_changes self))
    as [|c0 others] eqn:Escope.
  { rewrite (compute_turnover_rate_empty self space_id _ Escope).
    split; [apply Qle_refl | intros _ H; contradiction]. }
  pose proof (max_timestamp_is_latest c0 others) as Hl.
  set (latest := max_timestamp (chg_timestamp c0) (map chg_timestamp others)) in *.
  rewrite (@compute_turnover_rate_latest self space_id time_window_minutes latest)
    by (rewrite Escope; exact Hl).
  rewrite Escope.
  set (recent := filter (fun c => latest - Timedelta_minutes time_window_minutes
                                  <=? chg_timestamp c) (c0 :: others)).
  fold hours.
  destruct (Qlt_bool 0 hours) eqn:Eh.
  - assert (Hpos : (0 < hours)%Q) by (apply Qlt_bool_iff; exact Eh).
    assert (Hinv : (0 <= / hours)%Q) by (apply Qinv_le_0_compat, Qlt_le_weak, Hpos).
    assert (Hmono : forall a b : Z, a <= b ->
                      (inject_Z a / hours <= inject_Z b / hours)%Q).
    { intros a b Hab. unfold Qdiv. apply Qmult_le_compat_r; [|exact Hinv].
      rewrite <- Zle_Qle. exact Hab. }
    split.
    + apply Qle_shift_div_l; [exact Hpos|]. rewrite Qmult_0_l.
      change 0%Q with (inject_Z 0). rewrite <- Zle_Qle. lia.
    + intros Hw _. split.
      * change 1%Q with (inject_Z 1). apply Hmono.
        assert (Hin : exists c, In c recent).
        { destruct Hl as [Hin _]. apply in_map_iff in Hin.
          destruct Hin as [c [Hc Hcin]]. exists c. subst recent.
          apply filter_In. split; [exact Hcin|].
          apply Z.leb_le. unfold Timedelta_minutes. rewrite Hc. lia. }
        destruct Hin as [c Hc]. destruct recent; [destruct Hc|]. cbn [length]. lia.
      * apply Hmono. apply Nat2Z.inj_le. subst recent. apply filter_length_le.
  - split; [apply Qle_refl|].
    intros Hw _. apply LoggerFacts.hours_positive in Hw.
    unfold hours in Eh. congruence.
Qed.

Lemma compute_turnover_rate_bounds_witness :
  (1 / (inject_Z 30 / 60) <= compute_turnover_rate Examples.four_events None 30)%Q
  /\ (compute_turnover_rate Examples.four_events None 30
      <= inject_Z (Z.of_nat
                     (length (filter (in_scope None)
                                (state_changes Examples.four_events))))
         / (inject_Z 30 / 60))%Q.
Proof.
  apply (proj2 (compute_turnover_rate_bounds Examples.four_events None 30)).
  - lia.
  - vm_compute. discriminate.
Defined.

(** *** Dwell durations *)

Lemma fold_left_Qplus_pos (l : list Q) (acc : Q) :
  Forall (fun d => (0 < d)%Q) l -> (0 < acc)%Q -> (0 < fold_left Qplus l acc)%Q.
Proof.
  intros H. revert acc. induction H as [|d l Hd _ IH]; intros acc Hacc.
  - exact Hacc.
  - cbn [fold_left]. apply IH.
    apply Qlt_trans with (y := acc); [exact Hacc|].
    rewrite <- (Qplus_0_r acc) at 1. apply Qplus_lt_r. exact Hd.
Qed.

Lemma np_mean_pos (l : list Q) :
  l <> [] -> Forall (fun d => (0 < d)%Q) l -> (0 < np_mean l)%Q.
Proof.
  intros Hne Hall. unfold np_mean, py_sum.
  destruct Hall as [|d l Hd Hall]; [contradiction|].
  apply Qlt_shift_div_l.
  - change 0%Q with (inject_Z 0). rewrite <- Zlt_Qlt. cbn [length]. lia.
  - rewrite Qmult_0_l. cbn [fold_left]. apply fold_left_Qplus_pos; [exact Hall|].
    rewrite Qplus_0_l. exact Hd.
Qed.

Lemma filter_map_swap {A B : Type} (f : A -> B) (g : B -> bool) (l : list A) :
  filter g (map f l) = map f (filter (fun a => g (f a)) l).
Proof.
  induction l as [|a l IH]; [reflexivity|]. cbn [map filter].
  destruct (g (f a)); cbn [map]; rewrite IH; reflexivity.
Qed.

Lemma filter_filter {A : Type} (f g : A -> bool) (l : list A) :
  filter g (filter f l) = filter (fun a => f a && g a) l.
Proof.
  induction l as [|a l IH]; [reflexivity|]. cbn [filter].
  destruct (f a); cbn [filter andb]; [destruct (g a)|]; rewrite IH; reflexivity.
Qed.

(** The function is the mean of the positive durations in scope. *)
Lemma compute_avg_occupancy_duration_mean (self : ParkingLogger)
    (space_id : option Z) :
  compute_avg_occupancy_duration self space_id
  = match positive_durations space_id (state_changes self) with
    | [] => 0%Q
    | _ :: _ => np_mean (positive_durations space_id (state_changes self))
    end.
Proof.
  unfold compute_avg_occupancy_duration, positive_durations.
  rewrite filter_map_swap, filter_filter. reflexivity.
Qed.

(** X20.  The average dwell is 0.0 exactly when no event in scope carries a
    positive duration: it is 0.0 then, and positive as soon as one does.
    A single positive duration in scope is returned as it is. *)
Theorem compute_avg_occupancy_duration_sign (self : ParkingLogger)
    (space_id : option Z) :
  let durations := positive_durations space_id (state_changes self) in
  (durations = [] -> compute_avg_occupancy_duration self space_id = 0%Q)
  /\ (durations <> [] -> (0 < compute_avg_occupancy_duration self space_id)%Q)
  /\ (forall d, durations = [d] ->
                (compute_avg_occupancy_duration self space_id == d)%Q).
Proof.
  intros durations. rewrite compute_avg_occupancy_duration_mean. fold durations.
  split; [|split].
  - intros ->. reflexivity.
  - intros Hne. destruct durations as [|d0 ds] eqn:E; [contradiction|].
    apply np_mean_pos; [discriminate|].
    rewrite <- E. subst durations. unfold positive_durations.
    apply Forall_forall. intros d Hd. apply filter_In in Hd.
    apply Qlt_bool_iff. exact (proj2 Hd).
  - intros d ->. unfold np_mean, py_sum. cbn [fold_left length].
    rewrite Qplus_0_l. change (inject_Z (Z.of_nat 1)) with 1%Q.
    unfold Qdiv. change (/ 1)%Q with 1%Q. apply Qmult_1_r.
Qed.

Lemma compute_avg_occupancy_duration_sign_witness :
  (0 < compute_avg_occupancy_duration Examples.four_events None)%Q.
Proof.
  apply (proj1 (proj2 (compute_avg_occupancy_duration_sign
                         Examples.four_events None))).
  vm_compute. discriminate.
Defined.

(** X21.  An event logged without a duration, or with one that is not
    positive, leaves every average dwell as it was. *)
Theorem log_state_change_without_duration (self : ParkingLogger) (id : Z)
    (old_state new_state : string) (timestamp : datetime)
    (vehicle_class : option string) (confidence duration : option Q)
    (space_id : option Z) :
  match duration with None => True | Some d => (d <= 0)%Q end ->
  compute_avg_occupancy_duration
    (log_state_change self id old_state new_state timestamp vehicle_class
       confidence duration) space_id
  = compute_avg_occupancy_duration self space_id.
Proof.
  intros Hd. rewrite !compute_avg_occupancy_duration_mean.
  assert (Hsame :
            positive_durations space_id
              (state_changes
                 (log_state_change self id old_state new_state timestamp
                    vehicle_class confidence duration))
            = positive_durations space_id (state_changes self)).
  { unfold positive_durations, log_state_change. cbn [state_changes].
    rewrite filter_app, map_app, filter_app. cbn [filter].
    destruct (in_scope space_id _); cbn [map filter chg_occupancy_duration];
      [|rewrite app_nil_r; reflexivity].
    replace (Qlt_bool 0 (or_default duration 0%Q)) with false;
      [rewrite app_nil_r; reflexivity|].
    symmetry. destruct (Qlt_bool 0 (or_default duration 0%Q)) eqn:E; [|reflexivity].
    apply Qlt_bool_iff in E. exfalso. destruct duration as [d|]; cbn in E.
    - exact (Qlt_not_le _ _ E Hd).
    - discriminate. }
  rewrite Hsame. reflexivity.
Qed.

Lemma log_state_change_without_duration_witness :
  compute_avg_occupancy_duration
    (log_state_change Examples.four_events 3 "empty" "occupied"
       (Examples.minutes 61) None None None) (Some 1)
  = compute_avg_occupancy_duration Examples.four_events (Some 1).
Proof.
  apply (log_state_change_without_duration Examples.four_events 3 "empty"
           "occupied" (Examples.minutes 61) None None None (Some 1)).
  exact Logic.I.
Defined.

(** *** Peak hours *)

Lemma get_peak_hours_groups (self : ParkingLogger) (hour_window : Z) :
  exists d : list (datetime * list Q),
    grouped (metrics_history self) d
    /\ get_peak_hours self hour_window
       = map (fun kv : datetime * Q =>
                {| peak_timestamp := fst kv; average_occupancy_rate := snd kv |})
             (firstn 10
                (sorted_desc
                   (map (fun kv : datetime * list Q => (fst kv, np_mean (snd kv)))
                        d))).
Proof.
  eexists. split; [apply LoggerFacts.grouped_fold|].
  unfold get_peak_hours. destruct (metrics_history self); reflexivity.
Qed.

Lemma peak_hour_of_snapshot (self : ParkingLogger) (hour_window : Z)
    (p : peak_hour) :
  In p (get_peak_hours self hour_window) ->
  In (peak_timestamp p) (hours_of (metrics_history self)).
Proof.
  destruct (get_peak_hours_groups self hour_window) as (d & (_ & Hin & _) & ->).
  intros Hp. apply in_map_iff in Hp. destruct Hp as [[k a] [<- Hka]].
  cbn [peak_timestamp fst].
  assert (Hs : In (k, a) (sorted_desc
                 (map (fun kv : datetime * list Q => (fst kv, np_mean (snd kv))) d))).
  { rewrite <- (firstn_skipn 10 (sorted_desc _)). apply in_or_app. left. exact Hka. }
  apply (Permutation_in _ (LoggerFacts.sorted_desc_perm _)) in Hs.
  apply in_map_iff in Hs. destruct Hs as [[k' rs] [E Hd]].
  cbn [fst snd] in E. injection E as <- _.
  exact (proj1 (Hin _ _ Hd)).
Qed.

(** X22.  [get_peak_hours] returns one entry per hour that has a snapshot,
    up to 10: its length is the number of distinct hours of the history,
    or 10 when there are more. *)
Theorem get_peak_hours_length (self : ParkingLogger) (hour_window : Z) :
  length (get_peak_hours self hour_window)
  = Nat.min 10 (length (nodup Z.eq_dec (hours_of (metrics_history self)))).
Proof.
  destruct (get_peak_hours_groups self hour_window)
    as (d & (Hnd & Hin & Hkeys) & ->).
  rewrite length_map, length_firstn.
  rewrite (Permutation_length (LoggerFacts.sorted_desc_perm _)), length_map.
  f_equal. rewrite <- (length_map fst d).
  apply Permutation_length, NoDup_Permutation.
  - exact Hnd.
  - apply NoDup_nodup.
  - intros k. rewrite nodup_In. split.
    + intros H. apply in_map_iff in H. destruct H as [[k' rs] [<- Hd]].
      exact (proj1 (Hin _ _ Hd)).
    + apply Hkeys.
Qed.

Lemma replace_to_hour_spec (t : datetime) :
  replace_to_hour t mod 3600000000 = 0
  /\ replace_to_hour t <= t < replace_to_hour t + 3600000000.
Proof.
  unfold replace_to_hour.
  pose proof (Z.mod_pos_bound t 3600000000 ltac:(lia)) as Hb.
  pose proof (Z.div_mod t 3600000000 ltac:(lia)) as Hdm.
  split; [|lia].
  replace (t - t mod 3600000000) with (t / 3600000000 * 3600000000) by lia.
  apply Z.mod_mul. lia.
Qed.

(** X23.  Every entry of [get_peak_hours] is stamped on the hour, and that
    hour holds a snapshot: some snapshot of the history was taken less than
    an hour after the entry's timestamp, and not before it. *)
Theorem get_peak_hours_on_the_hour (self : ParkingLogger) (hour_window : Z)
    (p : peak_hour) :
  In p (get_peak_hours self hour_window) ->
  peak_timestamp p mod 3600000000 = 0
  /\ exists m, In m (metrics_history self)
               /\ peak_timestamp p <= met_timestamp m
                  < peak_timestamp p + 3600000000.
Proof.
  intros Hp. apply peak_hour_of_snapshot in Hp. unfold hours_of in Hp.
  apply in_map_iff in Hp. destruct Hp as [m [Hm Hin]].
  destruct (replace_to_hour_spec (met_timestamp m)) as [H1 H2].
  rewrite Hm in H1, H2. split; [exact H1|]. exists m. split; [exact Hin | exact H2].
Qed.

Lemma get_peak_hours_on_the_hour_witness :
  Examples.minutes 60 mod 3600000000 = 0
  /\ exists m, In m (metrics_history Examples.three_hours)
               /\ Examples.minutes 60 <= met_timestamp m
                  < Examples.minutes 60 + 3600000000.
Proof.
  apply (get_peak_hours_on_the_hour Examples.three_hours 1
           {| peak_timestamp := Examples.minutes 60;
              average_occupancy_rate := (1 # 10)%Q |}).
  vm_compute. auto.
Defined.

End MetricsFacts.

(** ** Writing and reading configurations *)

Module WriterFacts.

Import Config ConfigWriter.

Lemma int32_fits (z : Z) : in_int32 z -> int32 z = z.
Proof.
  unfold in_int32, int32. intros H.
  rewrite Z.mod_small by lia. lia.
Qed.

Lemma int32_in_range (z : Z) : in_int32 (int32 z).
Proof.
  unfold in_int32, int32.
  pose proof (Z.mod_pos_bound (z + 2147483648) 4294967296 ltac:(lia)). lia.
Qed.

Lemma np_array_int32_fits (a : list point) :
  int32_points a -> np_array_int32 a = a.
Proof.
  unfold int32_points, np_array_int32.
  induction 1 as [|[x y] a [Hx Hy] _ IH]; [reflexivity|].
  cbn [map fst snd] in *. rewrite IH, (int32_fits Hx), (int32_fits Hy). reflexivity.
Qed.

(** The constructor leaves an array of 32-bit coordinates. *)
Lemma ParkingSpace_init_int32 {I R : Type} (id : I) (points : list point) (r : R) :
  int32_points (polygon (ParkingSpace_init id points r)).
Proof.
  cbn [polygon ParkingSpace_init]. unfold int32_points, np_array_int32.
  apply Forall_forall. intros p Hp. apply in_map_iff in Hp.
  destruct Hp as [q [<- _]]. cbn [fst snd]. split; apply int32_in_range.
Qed.

Lemma polygon_of_tolist (a : ndarray) :
  exists items, tolist a = JArr items /\ polygon_of_points items = OK a.
Proof.
  unfold tolist. eexists. split; [reflexivity|].
  induction a as [|[x y] a IH]; [reflexivity|].
  cbn [map polygon_of_points py_getitem_nat nth_error py_int bind fst snd].
  rewrite IH. reflexivity.
Qed.

Lemma load_spaces_loop_saved (spaces : list (ParkingSpace json json))
    (default : json) (acc : list (ParkingSpace json json)) :
  Forall (fun s => int32_points (polygon s)) spaces ->
  load_spaces_loop
    (map (fun space =>
            JObj [("id"%string, space_id space);
                  ("polygon"%string, tolist (polygon space));
                  ("min_occupancy_ratio"%string, min_occupancy_ratio space)])
         spaces) default acc
  = OK (acc ++ map as_new spaces).
Proof.
  intros H. revert acc. induction H as [|s spaces Hs _ IH]; intro acc.
  - cbn. rewrite app_nil_r. reflexivity.
  - cbn [map load_spaces_loop py_getitem_str dict_lookup String.eqb Ascii.eqb
         Bool.eqb bind].
    destruct (polygon_of_tolist (polygon s)) as (items & -> & Hitems).
    cbn [py_iter bind]. rewrite Hitems.
    cbn [bind py_get dict_lookup String.eqb Ascii.eqb Bool.eqb].
    rewrite IH, <- app_assoc. cbn [app]. do 3 f_equal.
    unfold ParkingSpace_init, as_new. rewrite (np_array_int32_fits Hs). reflexivity.
Qed.

(** X24.  What [save_spaces] writes, [load_spaces] reads back: one region
    per region saved, in the same order, with the same identifier, polygon
    and threshold, and as new (state Unknown, empty log and window),
    whatever the saved regions had observed.  The polygons are arrays of
    32-bit coordinates, as the constructor leaves them. *)
Theorem load_spaces_save_spaces (spaces : list (ParkingSpace json json))
    (default_min_occupancy_ratio : json) :
  Forall (fun s => int32_points (polygon s)) spaces ->
  load_spaces (save_spaces spaces default_min_occupancy_ratio)
  = OK (map as_new spaces).
Proof.
  intros H. unfold load_spaces, save_spaces.
  cbn [py_get dict_lookup String.eqb Ascii.eqb Bool.eqb bind py_iter].
  rewrite (load_spaces_loop_saved default_min_occupancy_ratio [] H). reflexivity.
Qed.

Lemma load_spaces_save_spaces_witness :
  load_spaces (save_spaces Examples.loaded_pair JNull)
  = OK (map as_new Examples.loaded_pair).
Proof.
  apply (@load_spaces_save_spaces Examples.loaded_pair JNull).
  repeat constructor; cbn; lia.
Defined.

Lemma polygon_of_points_length (points : list json) (polygon : list point) :
  polygon_of_points points = OK polygon -> length polygon = length points.
Proof.
  revert polygon. induction points as [|p points IH]; intros polygon H.
  - cbn in H. injection H as <-. reflexivity.
  - cbn [polygon_of_points] in H.
    destruct (py_getitem_nat p 0) as [p0|]; cbn [bind] in H; [|discriminate].
    destruct (py_int p0) as [x|]; cbn [bind] in H; [|discriminate].
    destruct (py_getitem_nat p 1) as [p1|]; cbn [bind] in H; [|discriminate].
    destruct (py_int p1) as [y|]; cbn [bind] in H; [|discriminate].
    destruct (polygon_of_points points) as [rest|]; cbn [bind] in H; [|discriminate].
    injection H as <-. cbn [length]. rewrite (IH rest eq_refl). reflexivity.
Qed.

Lemma load_spaces_loop_fresh (entries : list json) (default : json) :
  forall acc result,
    load_spaces_loop entries default acc = OK result ->
    exists new, result = acc ++ new /\ Forall2 loaded_from entries new.
Proof.
  induction entries as [|entry entries IH]; intros acc result H.
  - cbn in H. injection H as <-. exists []. rewrite app_nil_r.
    split; [reflexivity | constructor].
  - cbn [load_spaces_loop] in H.
    destruct (py_getitem_str entry "id") as [id|] eqn:Eid; cbn [bind] in H;
      [|discriminate].
    destruct (py_getitem_str entry "polygon") as [pp|] eqn:Epp; cbn [bind] in H;
      [|discriminate].
    destruct (py_iter pp) as [points|] eqn:Eit; cbn [bind] in H; [|discriminate].
    destruct (polygon_of_points points) as [poly|] eqn:Epoly; cbn [bind] in H;
      [|discriminate].
    destruct (py_get entry "min_occupancy_ratio" default) as [ratio|] eqn:Er;
      cbn [bind] in H; [|discriminate].
    destruct (IH _ _ H) as (new & -> & Hnew).
    exists (ParkingSpace_init id poly ratio :: new).
    rewrite <- app_assoc. split; [reflexivity|].
    constructor; [|exact Hnew].
    split; [exact Eid|]. split; [|reflexivity].
    exists pp, points. split; [exact Epp|]. split; [exact Eit|].
    cbn [polygon ParkingSpace_init]. unfold np_array_int32.
    rewrite length_map. exact (polygon_of_points_length _ Epoly).
Qed.

(** X25.  Whatever the document, when [load_spaces] returns it returns one
    region per entry of ["spaces"], in the order of the document, each with
    the entry's identifier, as many points as the entry's polygon lists,
    and nothing observed yet: state Unknown, empty log, empty window. *)
Theorem load_spaces_one_per_entry (file : config_file)
    (spaces : list (ParkingSpace json json)) :
  load_spaces file = OK spaces ->
  exists config listing entries,
    file = Document config
    /\ py_get config "spaces" (JArr []) = OK listing
    /\ py_iter listing = OK entries
    /\ Forall2 loaded_from entries spaces.
Proof.
  destruct file as [| |config]; try discriminate. cbn [load_spaces].
  destruct (py_get config "default_min_occupancy_ratio" (JFloat float_0_2))
    as [default|]; cbn [bind]; [|discriminate].
  destruct (py_get config "spaces" (JArr [])) as [listing|] eqn:El; cbn [bind];
    [|discriminate].
  destruct (py_iter listing) as [entries|] eqn:Ee; cbn [bind]; [|discriminate].
  intros H. destruct (load_spaces_loop_fresh _ _ _ H) as (new & -> & Hnew).
  exists config, listing, entries.
  split; [reflexivity|]. split; [exact El|]. split; [exact Ee | exact Hnew].
Qed.

Lemma load_spaces_one_per_entry_witness :
  exists config listing entries,
    Document Examples.two_point_config = Document config
    /\ py_get config "spaces" (JArr []) = OK listing
    /\ py_iter listing = OK entries
    /\ Forall2 loaded_from entries
         [ParkingSpace_init (JInt 1) [(0, 0); (10, 10)] (JFloat float_0_2)].
Proof.
  apply (@load_spaces_one_per_entry (Document Examples.two_point_config)
           [ParkingSpace_init (JInt 1) [(0, 0); (10, 10)] (JFloat float_0_2)]).
  reflexivity.
Defined.

Lemma load_spaces_loop_prefix (default : option json) (fallback : json)
    (before : list region) (rest : list json)
    (acc : list (ParkingSpace json json)) :
  fallback = match default with Some v => v | None => JFloat float_0_2 end ->
  load_spaces_loop (map region_json before ++ rest) fallback acc
  = load_spaces_loop rest fallback (acc ++ map (loaded default) before).
Proof.
  intros Hf. revert acc. induction before as [|r before IH]; intro acc.
  - cbn. rewrite app_nil_r. reflexivity.
  - cbn [map app load_spaces_loop].
    destruct (ConfigFacts.load_region r default Hf)
      as (id & points & ratio & -> & Hid & Hp & Hr).
    rewrite Hid, Hp. cbn [bind py_iter]. rewrite ConfigFacts.polygon_of_points_json.
    cbn [bind]. rewrite Hr. cbn [bind]. rewrite IH, <- app_assoc.
    destruct ratio, default; reflexivity.
Qed.

Lemma polygon_of_points_object (points : list point)
    (members : list (string * json)) (more : list json) :
  polygon_of_points (map point_json points ++ JObj members :: more)
  = Raise KeyError.
Proof.
  induction points as [|[x y] points IH]; [reflexivity|].
  cbn [map app polygon_of_points point_json py_getitem_nat nth_error py_int
       bind fst snd].
  rewrite IH. reflexivity.
Qed.

(** X26.  A point written as an object ([{"x": .., "y": ..}], the format of
    the annotation tool) is not read: loading raises [KeyError] at the first
    such point, the regions and points before it being well formed. *)
Theorem load_spaces_object_point (default : option json) (before : list region)
    (id : json) (points : list point) (members : list (string * json))
    (more after : list json) :
  load_spaces
    (Document
       (config_json default
          (map region_json before
           ++ JObj [("id"%string, id);
                    ("polygon"%string,
                     JArr (map point_json points ++ JObj members :: more))]
           :: after)))
  = Raise KeyError.
Proof.
  unfold load_spaces, config_json.
  destruct default as [v|];
    cbn [app py_get dict_lookup String.eqb Ascii.eqb Bool.eqb bind py_iter].
  - rewrite (@load_spaces_loop_prefix (Some v) v before _ [] eq_refl).
    cbn [load_spaces_loop py_getitem_str dict_lookup String.eqb Ascii.eqb
         Bool.eqb bind py_iter].
    rewrite polygon_of_points_object. reflexivity.
  - rewrite (@load_spaces_loop_prefix None (JFloat float_0_2) before _ [] eq_refl).
    cbn [load_spaces_loop py_getitem_str dict_lookup String.eqb Ascii.eqb
         Bool.eqb bind py_iter].
    rewrite polygon_of_points_object. reflexivity.
Qed.

Lemma load_spaces_object_point_witness :
  load_spaces (Document Examples.object_point_config) = Raise KeyError.
Proof.
  exact (load_spaces_object_point None [] (JInt 1) [(0, 0)]
           [("x"%string, JInt 10); ("y"%string, JInt 0)]
           [JArr [JInt 10; JInt 10]] []).
Defined.

(** *** The sample grid *)

Lemma sample_entries_app w h d (cells more : list (Z * Z)) (id : Z) :
  sample_entries w h d (cells ++ more) id
  = sample_entries w h d cells id
    ++ sample_entries w h d more (id + Z.of_nat (length cells)).
Proof.
  revert id. induction cells as [|[r c] cells IH]; intro id.
  - cbn. rewrite Z.add_0_r. reflexivity.
  - cbn [app sample_entries length]. rewrite IH. do 3 f_equal. lia.
Qed.

Lemma sample_columns_spec (columns : list Z) (row n w h : Z) (d : json) :
  forall (spaces : list json) (id : Z),
    let rem := Z.to_nat (n + 1 - id) in
    sample_columns columns row n w h d spaces id
    = (spaces
       ++ sample_entries w h d (firstn rem (map (fun col => (row, col)) columns)) id,
       id + Z.of_nat (Nat.min rem (length columns))).
Proof.
  induction columns as [|col rest IH]; intros spaces id rem.
  - cbn [sample_columns map]. rewrite firstn_nil. cbn [sample_entries length].
    rewrite app_nil_r, Nat.min_0_r, Z.add_0_r. reflexivity.
  - cbn [sample_columns]. destruct (n <? id) eqn:E.
    + apply Z.ltb_lt in E. replace rem with 0%nat by (subst rem; lia).
      cbn. rewrite app_nil_r, Z.add_0_r. reflexivity.
    + apply Z.ltb_ge in E. rewrite IH.
      assert (Hrem : rem = S (Z.to_nat (n + 1 - (id + 1)))) by (subst rem; lia).
      rewrite Hrem. cbn [map firstn sample_entries length Nat.min].
      rewrite <- app_assoc. cbn [app]. f_equal. lia.
Qed.

Lemma sample_rows_spec (rows : list Z) (cols n w h : Z) (d : json) :
  forall (spaces : list json) (id : Z),
    let rem := Z.to_nat (n + 1 - id) in
    let cells :=
      flat_map (fun row => map (fun col => (row, col)) (range cols)) rows in
    sample_rows rows cols n w h d spaces id
    = (spaces ++ sample_entries w h d (firstn rem cells) id,
       id + Z.of_nat (Nat.min rem (length cells))).
Proof.
  induction rows as [|row rest IH]; intros spaces id rem cells.
  - subst cells. cbn [sample_rows flat_map]. rewrite firstn_nil.
    cbn [sample_entries length]. rewrite app_nil_r, Nat.min_0_r, Z.add_0_r.
    reflexivity.
  - cbn [sample_rows]. rewrite sample_columns_spec. fold rem.
    set (A := map (fun col => (row, col)) (range cols)).
    assert (HlenA : length (range cols) = length A)
      by (subst A; rewrite length_map; reflexivity).
    rewrite HlenA, IH.
    set (B := flat_map (fun row => map (fun col => (row, col)) (range cols)) rest).
    assert (Hcells : cells = A ++ B) by reflexivity.
    rewrite Hcells, firstn_app, sample_entries_app, length_firstn, length_app.
    replace (Z.to_nat (n + 1 - (id + Z.of_nat (Nat.min rem (length A)))))
      with (rem - length A)%nat by (subst rem; lia).
    rewrite <- app_assoc. f_equal. lia.
Qed.

Lemma length_range (n : Z) : length (range n) = Z.to_nat n.
Proof. unfold range. rewrite length_map, length_seq. reflexivity. Qed.

Lemma in_range (n x : Z) : In x (range n) -> 0 <= x < n.
Proof.
  unfold range. intros H. apply in_map_iff in H. destruct H as [k [<- Hk]].
  apply in_seq in Hk. lia.
Qed.

Lemma length_grid_cells (rows cols : Z) :
  length (grid_cells rows cols) = (Z.to_nat rows * Z.to_nat cols)%nat.
Proof.
  unfold grid_cells. rewrite <- (length_range rows).
  induction (range rows) as [|r rs IH]; [reflexivity|].
  cbn [flat_map length]. rewrite length_app, length_map, length_range, IH.
  reflexivity.
Qed.

Lemma in_grid_cells (rows cols row col : Z) :
  In (row, col) (grid_cells rows cols) -> 0 <= row < rows /\ 0 <= col < cols.
Proof.
  unfold grid_cells. intros H. apply in_flat_map in H.
  destruct H as [r [Hr Hc]]. apply in_map_iff in Hc.
  destruct Hc as [c [E Hc]]. injection E as <- <-.
  split; [exact (in_range _ _ Hr) | exact (in_range _ _ Hc)].
Qed.

Lemma ceil_sqrt_spec (n : Z) :
  1 <= n -> 1 <= ceil_sqrt n /\ n <= ceil_sqrt n * ceil_sqrt n.
Proof.
  intros Hn. unfold ceil_sqrt.
  pose proof (Z.sqrt_spec n ltac:(lia)) as Hs. cbv zeta in Hs.
  assert (0 <= Z.sqrt n) by apply Z.sqrt_nonneg.
  destruct (Z.sqrt n * Z.sqrt n =? n) eqn:E.
  - apply Z.eqb_eq in E. split; [nia | lia].
  - split; [lia | nia].
Qed.

Lemma ceil_div_spec (a b : Z) :
  1 <= a -> 1 <= b -> 1 <= ceil_div a b /\ a <= ceil_div a b * b.
Proof.
  intros Ha Hb. unfold ceil_div.
  pose proof (Z.mul_div_le (- a) b ltac:(lia)) as H1.
  assert (H2 : (- a) / b < 0) by (apply Z.div_lt_upper_bound; lia).
  split; [lia | nia].
Qed.

(** The grid of [create_sample_config] for [n >= 1] spaces: the document
    written lists the first [n] cells, numbered from 1. *)
Lemma create_sample_config_cells (n image_width image_height : Z) (d : json) :
  1 <= n ->
  let cols := ceil_sqrt n in
  let rows := ceil_div n cols in
  let w := image_width / (cols + 1) in
  let h := image_height / (rows + 1) in
  let placed := firstn (Z.to_nat n) (grid_cells rows cols) in
  create_sample_config n image_width image_height d
  = Written
      (JObj [("default_min_occupancy_ratio"%string, d);
             ("spaces"%string, JArr (sample_entries w h d placed 1))])
  /\ length placed = Z.to_nat n
  /\ 1 <= cols /\ 1 <= rows.
Proof.
  intros Hn cols rows w h placed.
  destruct (ceil_sqrt_spec Hn) as [Hc1 Hc2]. fold cols in Hc1, Hc2.
  destruct (@ceil_div_spec n cols Hn Hc1) as [Hr1 Hr2]. fold rows in Hr1, Hr2.
  split; [|split; [|split; assumption]].
  - unfold create_sample_config.
    replace (n <? 0) with false by (symmetry; apply Z.ltb_ge; lia).
    fold cols. replace (cols =? 0) with false by (symmetry; apply Z.eqb_neq; lia).
    fold rows w h. rewrite sample_rows_spec. cbv zeta.
    replace (n + 1 - 1) with n by lia. reflexivity.
  - subst placed. rewrite length_firstn, length_grid_cells. nia.
Qed.

Lemma sample_entries_regions w h d (cells : list (Z * Z)) (id : Z) :
  sample_entries w h d cells id = map region_json (sample_regions w h d cells id).
Proof.
  revert id. induction cells as [|[r c] cells IH]; intro id; [reflexivity|].
  cbn [sample_entries sample_regions map]. rewrite IH. reflexivity.
Qed.

Lemma sample_regions_loaded w h d (cells : list (Z * Z)) (id : Z) :
  0 <= id ->
  map (@space_id json json) (map (loaded (Some d)) (sample_regions w h d cells id))
  = map (fun i => JInt (Z.of_nat i)) (seq (Z.to_nat id) (length cells))
  /\ Forall (fun s => length (polygon s) = 4%nat
                      /\ min_occupancy_ratio s = d /\ s = as_new s)
       (map (loaded (Some d)) (sample_regions w h d cells id)).
Proof.
  revert id. induction cells as [|[r c] cells IH]; intros id Hid.
  - split; [reflexivity | constructor].
  - destruct (IH (id + 1) ltac:(lia)) as [IH1 IH2].
    cbn [sample_regions map length seq]. split.
    + rewrite IH1. replace (Z.to_nat (id + 1)) with (S (Z.to_nat id)) by lia.
      cbn [loaded space_id ParkingSpace_init]. rewrite Z2Nat.id by lia. reflexivity.
    + constructor; [|exact IH2]. repeat split.
Qed.

(** X27.  [create_sample_config] raises for no space at all
    ([ZeroDivisionError], the grid having no column) and for a negative
    number ([ValueError] out of the square root).  For [1 <= n < 2^31]
    spaces it writes a document that [load_spaces] reads: [n] regions
    numbered 1 to [n] in order, each a polygon of 4 points with the default
    threshold, and as new. *)
Theorem create_sample_config_loads (num_spaces image_width image_height : Z)
    (default_min_occupancy_ratio : json) :
  (num_spaces < 0 ->
   create_sample_config num_spaces image_width image_height
     default_min_occupancy_ratio = MathDomainError)
  /\ (num_spaces = 0 ->
      create_sample_config num_spaces image_width image_height
        default_min_occupancy_ratio = ZeroDivisionError)
  /\ (1 <= num_spaces < 2147483648 ->
      exists config spaces,
        create_sample_config num_spaces image_width image_height
          default_min_occupancy_ratio = Written config
        /\ load_spaces (Document config) = OK spaces
        /\ map (@space_id json json) spaces
           = map (fun i => JInt (Z.of_nat i)) (seq 1 (Z.to_nat num_spaces))
        /\ Forall (fun s => length (polygon s) = 4%nat
                            /\ min_occupancy_ratio s = default_min_occupancy_ratio
                            /\ s = as_new s) spaces).
Proof.
  split; [|split].
  - intros Hn. unfold create_sample_config.
    replace (num_spaces <? 0) with true by (symmetry; apply Z.ltb_lt; lia).
    reflexivity.
  - intros ->. reflexivity.
  - intros [Hn _].
    destruct (create_sample_config_cells image_width image_height
                default_min_occupancy_ratio Hn) as (Hw & Hlen & _).
    set (cols := ceil_sqrt num_spaces) in *.
    set (rows := ceil_div num_spaces cols) in *.
    set (w := image_width / (cols + 1)) in *.
    set (h := image_height / (rows + 1)) in *.
    set (placed := firstn (Z.to_nat num_spaces) (grid_cells rows cols)) in *.
    destruct (@sample_regions_loaded w h default_min_occupancy_ratio placed 1
                ltac:(lia)) as [Hids Hall].
    eexists. eexists. split; [exact Hw|]. split; [|split].
    + rewrite sample_entries_regions. unfold load_spaces.
      cbn [py_get dict_lookup String.eqb Ascii.eqb Bool.eqb bind py_iter].
      rewrite (@ConfigFacts.load_spaces_loop_regions
                 (Some default_min_occupancy_ratio) default_min_occupancy_ratio
                 _ [] eq_refl).
      reflexivity.
    + cbn [app]. rewrite Hids, Hlen. reflexivity.
    + exact Hall.
Qed.

Lemma create_sample_config_loads_witness :
  exists config spaces,
    create_sample_config 10 1920 1080 (JFloat float_0_2) = Written config
    /\ load_spaces (Document config) = OK spaces
    /\ map (@space_id json json) spaces = map (fun i => JInt (Z.of_nat i)) (seq 1 (Z.to_nat 10))
    /\ Forall (fun s => length (polygon s) = 4%nat
                        /\ min_occupancy_ratio s = JFloat float_0_2
                        /\ s = as_new s) spaces.
Proof.
  apply (proj2 (proj2 (create_sample_config_loads 10 1920 1080 (JFloat float_0_2)))).
  lia.
Defined.

Lemma cell_in_image_grid (rows cols image_width image_height row col : Z) :
  1 <= cols -> 1 <= rows ->
  cols + 1 <= image_width -> rows + 1 <= image_height ->
  0 <= row < rows -> 0 <= col < cols ->
  cell_in_image (image_width / (cols + 1)) (image_height / (rows + 1))
    image_width image_height (row, col).
Proof.
  intros Hc Hr HW HH Hrow Hcol. unfold cell_in_image.
  set (w := image_width / (cols + 1)). set (h := image_height / (rows + 1)).
  assert (Hw1 : 1 <= w) by (subst w; apply Z.div_le_lower_bound; lia).
  assert (Hh1 : 1 <= h) by (subst h; apply Z.div_le_lower_bound; lia).
  pose proof (Z.mul_div_le image_width (cols + 1) ltac:(lia)) as HwW. fold w in HwW.
  pose proof (Z.mul_div_le image_height (rows + 1) ltac:(lia)) as HhH. fold h in HhH.
  pose proof (Z.mul_div_le w 4 ltac:(lia)) as Hq.
  pose proof (Z.mul_div_le h 4 ltac:(lia)) as Hq'.
  assert (0 <= w / 4) by (apply Z.div_pos; lia).
  assert (0 <= h / 4) by (apply Z.div_pos; lia).
  repeat split; nia.
Qed.

(** X28.  In an image with room for the grid (at least one pixel per
    column and row, and one to spare), every rectangle that
    [create_sample_config] writes lies inside the image and has a positive
    width and height. *)
Theorem create_sample_config_in_image (num_spaces image_width image_height : Z)
    (default_min_occupancy_ratio : json) :
  let cols := ceil_sqrt num_spaces in
  let rows := ceil_div num_spaces cols in
  let space_width := image_width / (cols + 1) in
  let space_height := image_height / (rows + 1) in
  1 <= num_spaces < 2147483648 ->
  cols + 1 <= image_width -> rows + 1 <= image_height ->
  exists placed,
    create_sample_config num_spaces image_width image_height
      default_min_occupancy_ratio
    = Written
        (JObj [("default_min_occupancy_ratio"%string, default_min_occupancy_ratio);
               ("spaces"%string,
                JArr (sample_entries space_width space_height
                        default_min_occupancy_ratio placed 1))])
    /\ length placed = Z.to_nat num_spaces
    /\ Forall (cell_in_image space_width space_height image_width image_height)
         placed.
Proof.
  intros cols rows w h [Hn _] HW HH.
  destruct (create_sample_config_cells image_width image_height
              default_min_occupancy_ratio Hn) as (Hw & Hlen & Hc & Hr).
  fold cols rows w h in Hw, Hlen, Hc, Hr.
  exists (firstn (Z.to_nat num_spaces) (grid_cells rows cols)).
  split; [exact Hw|]. split; [exact Hlen|].
  apply Forall_forall. intros [row col] Hin.
  assert (Hcell : In (row, col) (grid_cells rows cols)).
  { rewrite <- (firstn_skipn (Z.to_nat num_spaces) (grid_cells rows cols)).
    apply in_or_app. left. exact Hin. }
  destruct (in_grid_cells _ _ _ _ Hcell) as [Hrow Hcol].
  exact (cell_in_image_grid Hc Hr HW HH Hrow Hcol).
Qed.

Lemma create_sample_config_in_image_witness :
  exists placed,
    create_sample_config 10 1920 1080 (JFloat float_0_2)
    = Written
        (JObj [("default_min_occupancy_ratio"%string, JFloat float_0_2);
               ("spaces"%string,
                JArr (sample_entries (1920 / (ceil_sqrt 10 + 1))
                        (1080 / (ceil_div 10 (ceil_sqrt 10) + 1))
                        (JFloat float_0_2) placed 1))])
    /\ length placed = Z.to_nat 10
    /\ Forall (cell_in_image (1920 / (ceil_sqrt 10 + 1))
                 (1080 / (ceil_div 10 (ceil_sqrt 10) + 1)) 1920 1080) placed.
Proof.
  apply (@create_sample_config_in_image 10 1920 1080 (JFloat float_0_2)).
  - lia.
  - vm_compute. discriminate.
  - vm_compute. discriminate.
Defined.

End WriterFacts.

(** ** A frame through the application *)

Module AnalyzerFacts.

Import Logger Analyzer.

Lemma find_exists {A : Type} (f : A -> bool) (l : list A) :
  (exists x, In x l /\ f x = true) -> exists y, find f l = Some y.
Proof.
  intros [x [Hin Hf]]. induction l as [|a l IH]; [destruct Hin|].
  cbn [find]. destruct (f a) eqn:E; [eexists; reflexivity|].
  destruct Hin as [-> | Hin]; [congruence | exact (IH Hin)].
Qed.

Lemma log_changes_spec (regions : list (ParkingSpace Z Q))
    (events : list (StateChange Z)) :
  Forall (fun e => exists s, In s regions /\ space_id s = sc_space_id e) events ->
  forall l : ParkingLogger,
  exists records,
    Forall2 (logged_as regions) events records
    /\ log_changes regions events l
       = inr {| log_file := log_file l;
                state_changes := state_changes l ++ records;
                metrics_history := metrics_history l |}.
Proof.
  induction 1 as [|e events He _ IH]; intro l.
  - exists []. split; [constructor|]. cbn [log_changes]. rewrite app_nil_r.
    destruct l; reflexivity.
  - destruct (find_exists (fun s => space_id s =? sc_space_id e) regions)
      as [s Hs].
    { destruct He as [s [Hin Hid]]. exists s. split; [exact Hin|].
      apply Z.eqb_eq. exact Hid. }
    cbn [log_changes]. rewrite Hs.
    destruct (IH (log_state_change l (sc_space_id e) (sc_old_state e)
                    (sc_new_state e) (sc_timestamp e) None None
                    (Some (occupancy_duration s)))) as (records & Hrec & Hrun).
    eexists (_ :: records). split.
    + constructor; [|exact Hrec]. exists s. split; [exact Hs | reflexivity].
    + rewrite Hrun. cbn [log_state_change log_file state_changes metrics_history
                         or_default].
      rewrite <- app_assoc. reflexivity.
Qed.

Lemma due_events_ids {I : Type} (before after : list (ParkingSpace I Q))
    (summary : I * string * string) :
  Forall2 region_step before after ->
  In summary (due_events before after) ->
  exists s, In s after /\ space_id s = fst (fst summary).
Proof.
  intros Hsteps. unfold due_events.
  induction Hsteps as [|b a bs as' [Hid _] _ IH]; cbn [combine filter map].
  - intros [].
  - cbn [fst snd]. destruct (changed b a); cbn [map In fst snd].
    + intros [<- | Hin].
      * exists a. split; [left; reflexivity | exact Hid].
      * destruct (IH Hin) as [s [Hs Hsid]]. exists s. split; [right; exact Hs | exact Hsid].
    + intros Hin. destruct (IH Hin) as [s [Hs Hsid]].
      exists s. split; [right; exact Hs | exact Hsid].
Qed.

Section Frame.

Context {cv : OpenCV}.
Variables (now : datetime) (self : ParkingAnalyzer)
  (vehicle_bboxes : list bbox) (vehicle_centroids : list (Z * Z))
  (vehicle_classes : list string) (confidences : list Q)
  (timestamp : option datetime).

Hypothesis decisions_return :
  Forall (fun s => returns (check_occupancy s vehicle_bboxes vehicle_centroids))
         (spaces (space_manager self)).

(** The frame, step by step. *)
Lemma process_frame_run :
  exists state_changes manager' tick' records,
    update_all (fun _ => now) 0 (space_manager self) vehicle_bboxes
      vehicle_centroids vehicle_classes
      (Some (effective_timestamp now timestamp))
    = OK (state_changes, manager', tick')
    /\ Forall2 (logged_as (spaces manager')) state_changes records
    /\ process_frame now self
         (vehicle_bboxes, vehicle_centroids, vehicle_classes, confidences)
         timestamp
       = inr {| space_manager := manager';
                logger :=
                  log_metrics
                    {| log_file := log_file (logger self);
                       state_changes := Logger.state_changes (logger self) ++ records;
                       metrics_history := metrics_history (logger self) |}
                    (effective_timestamp now timestamp)
                    (fst (get_counts manager')) (snd (get_counts manager')) |}.
Proof.
  destruct (@update_all_loop_spec cv Z (fun _ => now) vehicle_bboxes
              vehicle_centroids (Some (effective_timestamp now timestamp))
              (spaces (space_manager self)) decisions_return 0%nat [])
    as (events & todo' & tick' & Hrun & _ & Hsteps & Hsum & _).
  cbn [app] in Hrun.
  assert (Hids : Forall (fun e => exists s, In s todo'
                                            /\ space_id s = sc_space_id e) events).
  { apply Forall_forall. intros e He.
    apply (@due_events_ids Z (spaces (space_manager self)) todo'
             (event_summary e) Hsteps).
    rewrite <- Hsum. apply in_map. exact He. }
  destruct (@log_changes_spec todo' events Hids (logger self))
    as (records & Hrec & Hlog).
  exists events,
    {| spaces := todo'; total_spaces := total_spaces (space_manager self) |},
    tick', records.
  split; [|split].
  - unfold update_all. rewrite Hrun. reflexivity.
  - exact Hrec.
  - unfold process_frame, update_all. fold (effective_timestamp now timestamp).
    rewrite Hrun. cbn [bind spaces]. rewrite Hlog.
    destruct (get_counts _) as [empty occupied]. reflexivity.
Qed.

End Frame.

Lemma update_all_counts {cv : OpenCV} (clock : nat -> datetime) (tick : nat)
    (m m' : ParkingSpaceManager Z) bboxes centroids classes timestamp
    (events : list (StateChange Z)) (tick' : nat) :
  update_all clock tick m bboxes centroids classes timestamp
  = OK (events, m', tick') ->
  fst (get_counts m') + snd (get_counts m') = Z.of_nat (length (spaces m))
  /\ total_spaces m' = total_spaces m.
Proof.
  intros Hrun. apply update_all_inv in Hrun. destruct Hrun as [Hupd Htot].
  split; [|exact Htot].
  assert (Hcl : Forall (fun s => state s <> UNKNOWN) (spaces m')).
  { clear Htot. induction Hupd as [|b a bs as' Hba _ IH]; constructor.
    - exact (region_updated_classified Hba).
    - exact IH. }
  rewrite get_counts_count. cbn [fst snd].
  pose proof (count_in_state_total (spaces m')) as Htotal.
  rewrite (count_unknown_zero Hcl) in Htotal.
  rewrite (Forall2_length Hupd). lia.
Qed.

(** X29.  A frame for which the occupancy decision returns on every region
    goes through: the session holds the regions as [update_all] left them;
    the log of state changes grows by one record per transition event, in
    the order of the events, each with the event's identifier, states and
    timestamp, no vehicle class, no confidence, and the dwell duration of
    the first region bearing that identifier; and the metrics history grows
    by one snapshot, stamped with the frame's timestamp, whose total is the
    number of regions. *)
Theorem process_frame_logs {cv : OpenCV} (now : datetime) (self : ParkingAnalyzer)
    (vehicle_bboxes : list bbox) (vehicle_centroids : list (Z * Z))
    (vehicle_classes : list string) (confidences : list Q)
    (timestamp : option datetime) :
  Forall (fun s => returns (check_occupancy s vehicle_bboxes vehicle_centroids))
         (spaces (space_manager self)) ->
  exists self' events tick' records snapshot,
    process_frame now self
      (vehicle_bboxes, vehicle_centroids, vehicle_classes, confidences) timestamp
    = inr self'
    /\ update_all (fun _ => now) 0 (space_manager self) vehicle_bboxes
         vehicle_centroids vehicle_classes
         (Some (effective_timestamp now timestamp))
       = OK (events, space_manager self', tick')
    /\ Logger.state_changes (logger self')
       = Logger.state_changes (logger self) ++ records
    /\ Forall2 (logged_as (spaces (space_manager self'))) events records
    /\ metrics_history (logger self')
       = metrics_history (logger self) ++ [snapshot]
    /\ met_timestamp snapshot = effective_timestamp now timestamp
    /\ met_total snapshot = Z.of_nat (length (spaces (space_manager self))).
Proof.
  intros Hret.
  destruct (@process_frame_run cv now self vehicle_bboxes vehicle_centroids
              vehicle_classes confidences timestamp Hret)
    as (events & m' & tick' & records & Hrun & Hrec & Hframe).
  pose proof Hrun as Hcounts. apply update_all_counts in Hcounts.
  destruct Hcounts as [Hsum _].
  eexists. exists events, tick', records. eexists.
  split; [exact Hframe|].
  cbn [space_manager logger log_metrics Logger.state_changes metrics_history].
  split; [exact Hrun|]. split; [reflexivity|]. split; [exact Hrec|].
  split; [reflexivity|].
  cbn [met_timestamp met_total]. split; [reflexivity | exact Hsum].
Qed.

Lemma process_frame_logs_witness :
  exists self' events tick' records snapshot,
    process_frame (cv := Reference.raster) 0 Examples.analyzer
      Examples.nothing_detected (Some 100000000) = inr self'
    /\ update_all (cv := Reference.raster) (fun _ => 0) 0
         (space_manager Examples.analyzer) [] [] []
         (Some (effective_timestamp 0 (Some 100000000)))
       = OK (events, space_manager self', tick')
    /\ Logger.state_changes (logger self')
       = Logger.state_changes (logger Examples.analyzer) ++ records
    /\ Forall2 (logged_as (spaces (space_manager self'))) events records
    /\ metrics_history (logger self')
       = metrics_history (logger Examples.analyzer) ++ [snapshot]
    /\ met_timestamp snapshot = effective_timestamp 0 (Some 100000000)
    /\ met_total snapshot
       = Z.of_nat (length (spaces (space_manager Examples.analyzer))).
Proof.
  apply (@process_frame_logs Reference.raster 0 Examples.analyzer [] [] [] []
           (Some 100000000)).
  repeat constructor; eexists; vm_compute; reflexivity.
Defined.

(** X30.  After such a frame the snapshot agrees with the coordinator: for
    a session whose [total_spaces] is the number of its regions, the
    occupancy rate logged is the rate [get_occupancy_rate] gives on the
    regions as the frame left them. *)
Theorem process_frame_rate_agrees {cv : OpenCV} (now : datetime)
    (self : ParkingAnalyzer) (vehicle_bboxes : list bbox)
    (vehicle_centroids : list (Z * Z)) (vehicle_classes : list string)
    (confidences : list Q) (timestamp : option datetime) :
  Forall (fun s => returns (check_occupancy s vehicle_bboxes vehicle_centroids))
         (spaces (space_manager self)) ->
  total_spaces (space_manager self) = length (spaces (space_manager self)) ->
  exists self' snapshot,
    process_frame now self
      (vehicle_bboxes, vehicle_centroids, vehicle_classes, confidences) timestamp
    = inr self'
    /\ metrics_history (logger self')
       = metrics_history (logger self) ++ [snapshot]
    /\ (met_occupancy_rate snapshot == get_occupancy_rate (space_manager self'))%Q.
Proof.
  intros Hret Htot.
  destruct (@process_frame_run cv now self vehicle_bboxes vehicle_centroids
              vehicle_classes confidences timestamp Hret)
    as (events & m' & tick' & records & Hrun & _ & Hframe).
  pose proof Hrun as Hcounts. apply update_all_counts in Hcounts.
  destruct Hcounts as [Hsum Htot'].
  eexists. eexists. split; [exact Hframe|].
  cbn [space_manager logger log_metrics metrics_history]. split; [reflexivity|].
  cbn [met_occupancy_rate]. unfold get_occupancy_rate.
  rewrite Htot', Htot, Hsum.
  destruct (get_counts m') as [empty occupied]. cbn [fst snd].
  destruct (length (spaces (space_manager self))) as [|n]; [reflexivity|].
  replace (0 <? Z.of_nat (S n)) with true by (symmetry; apply Z.ltb_lt; lia).
  cbn [Nat.eqb]. reflexivity.
Qed.

Lemma process_frame_rate_agrees_witness :
  exists self' snapshot,
    process_frame (cv := Reference.raster) 0 Examples.analyzer
      Examples.nothing_detected (Some 100000000) = inr self'
    /\ metrics_history (logger self')
       = metrics_history (logger Examples.analyzer) ++ [snapshot]
    /\ (met_occupancy_rate snapshot == get_occupancy_rate (space_manager self'))%Q.
Proof.
  apply (@process_frame_rate_agrees Reference.raster 0 Examples.analyzer [] [] [] []
           (Some 100000000)).
  - repeat constructor; eexists; vm_compute; reflexivity.
  - reflexivity.
Defined.

End AnalyzerFacts.
